(** * Verification of [modules/cv_transformer.py]

    A shallow embedding of the [CVTransformer] class: the filename date
    inference, the wide-to-long reshape of one report and the driver that
    aggregates a folder of reports.

    Modelling conventions.
    - A Python [str] is a [str]: a sequence of Unicode code points, each a
      number of [N].  A string literal of this file stands for the code
      points its UTF-8 bytes encode.  The case mapping of [str.lower], the
      decimal digits of [int] and of the date format and the white space
      of both are the ones of the Unicode database 14.0, which CPython
      3.11 carries; they are the tables of the module [Unicode].
    - [int] refuses a literal of more than 4300 digits, the interpreter's
      default limit.
    - A pandas scalar is a [cell]: the missing marker, a string, or a
      number.  The transform never looks inside a number.
    - A [DataFrame] is a [Frame]: row labels, column labels and a row-major
      matrix of cells.  Labels and cells are held as Python objects, as
      pandas holds them once a report with a string is transposed; the
      one place where pandas infers the type of an index from its labels,
      in front of the [.str] accessor, is modelled on the labels.
    - An exception is a value of [exn]; a Python computation that can raise
      returns a [result].
    - The file system and [pd.read_csv] are a [World]: whether the folder
      exists, what [os.listdir] returns or raises for it, and what
      [pd.read_csv] returns or raises for a path.  The lines printed by
      the driver are left out, and printing is taken to succeed. *)

From Stdlib Require Import ZArith NArith List Bool Lia Sorted Permutation.
From Stdlib Require Import Strings.Byte.
From Stdlib Require Strings.Ascii Strings.String Numbers.DecimalString.
Import ListNotations.

(* ================================================================== *)
(** * Exceptions and results *)

Inductive exn : Type :=
| ValueError
| IndexError
| AttributeError
| FileNotFoundError
| NotADirectoryError
| PermissionError
| KeyError
| InvalidIndexError
| OSError.

Inductive result (A : Type) : Type :=
| Ok (a : A)
| Err (e : exn).

Arguments Ok {A} a.
Arguments Err {A} e.

Definition bind {A B : Type} (r : result A) (k : A -> result B) : result B :=
  match r with
  | Ok a => k a
  | Err e => Err e
  end.

Notation "x <- r ;; k" := (bind r (fun x => k))
  (at level 61, r at next level, right associativity).

Notation "' p <- r ;; k" := (bind r (fun p => k))
  (at level 61, p pattern, r at next level, right associativity).

Definition is_ok {A : Type} (r : result A) : bool :=
  match r with Ok _ => true | Err _ => false end.

Definition raises {A : Type} (r : result A) : Prop :=
  exists e, r = Err e.

(* ================================================================== *)
(** * Python strings as sequences of code points *)

Inductive str : Set :=
| EmptyString
| String (c : N) (s : str).

(** ** String literals: the code points of their UTF-8 bytes.  A byte
    that is no part of a well-formed sequence stands for the code point
    U+DC00 + byte, as in the names [os.listdir] returns. *)
Module Utf8.
Local Open Scope N_scope.

Definition continuation (b : N) : bool := (128 <=? b) && (b <=? 191).

Fixpoint decode (fuel : nat) (l : list N) : str :=
  match fuel, l with
  | O, _ => EmptyString
  | _, [] => EmptyString
  | S fuel', b0 :: l0 =>
      let escape :=
        String (if b0 <? 128 then b0 else 56320 + b0) (decode fuel' l0) in
      match l0 with
      | [] => escape
      | b1 :: l1 =>
          if (194 <=? b0) && (b0 <=? 223) && continuation b1
          then String ((b0 - 192) * 64 + (b1 - 128)) (decode fuel' l1)
          else
            match l1 with
            | [] => escape
            | b2 :: l2 =>
                if (224 <=? b0) && (b0 <=? 239)
                   && continuation b1 && continuation b2
                   && negb ((b0 =? 224) && (b1 <? 160))
                   && negb ((b0 =? 237) && (160 <=? b1))
                then String ((b0 - 224) * 4096 + (b1 - 128) * 64 + (b2 - 128))
                            (decode fuel' l2)
                else
                  match l2 with
                  | [] => escape
                  | b3 :: l3 =>
                      if (240 <=? b0) && (b0 <=? 244)
                         && continuation b1 && continuation b2
                         && continuation b3
                         && negb ((b0 =? 240) && (b1 <? 144))
                         && negb ((b0 =? 244) && (144 <=? b1))
                      then String ((b0 - 240) * 262144 + (b1 - 128) * 4096
                                   + (b2 - 128) * 64 + (b3 - 128))
                                  (decode fuel' l3)
                      else escape
                  end
            end
      end
  end.

Definition byte_of_N (n : N) : byte :=
  match Byte.of_N n with Some b => b | None => x00 end.

Definition encode_one (c : N) : list byte :=
  if c <? 128 then [byte_of_N c]
  else if c <? 2048
  then [byte_of_N (192 + c / 64); byte_of_N (128 + c mod 64)]
  else if (56448 <=? c) && (c <=? 56575) then [byte_of_N (c - 56320)]
  else if c <? 65536
  then [byte_of_N (224 + c / 4096); byte_of_N (128 + (c / 64) mod 64);
        byte_of_N (128 + c mod 64)]
  else [byte_of_N (240 + c / 262144); byte_of_N (128 + (c / 4096) mod 64);
        byte_of_N (128 + (c / 64) mod 64); byte_of_N (128 + c mod 64)].

Fixpoint encode (s : str) : list byte :=
  match s with
  | EmptyString => []
  | String c s' => (encode_one c ++ encode s')%list
  end.

Definition str_of_bytes (l : list byte) : str :=
  decode (List.length l) (map Byte.to_N l).

Definition code_point_of_bytes (l : list byte) : option N :=
  match str_of_bytes l with
  | String c EmptyString => Some c
  | _ => None
  end.

(** Code points are shown as numbers. *)
Definition bytes_of_code_point (c : N) : option (list byte) := None.

End Utf8.

Declare Scope str_scope.
Delimit Scope str_scope with str.
Bind Scope str_scope with str.
String Notation str Utf8.str_of_bytes Utf8.encode : str_scope.

(** A one-character literal ["c"%cp] is the code point of the character. *)
Declare Scope cp_scope.
Delimit Scope cp_scope with cp.
String Notation N Utf8.code_point_of_bytes Utf8.bytes_of_code_point
  : cp_scope.

Module Str.

Fixpoint length (s : str) : nat :=
  match s with
  | EmptyString => O
  | String _ s' => S (length s')
  end.

Fixpoint append (s t : str) : str :=
  match s with
  | EmptyString => t
  | String c s' => String c (append s' t)
  end.

Fixpoint eqb (s t : str) : bool :=
  match s, t with
  | EmptyString, EmptyString => true
  | String a s', String b t' => N.eqb a b && eqb s' t'
  | _, _ => false
  end.

End Str.

Infix "++" := Str.append : str_scope.

Open Scope str_scope.
Open Scope Z_scope.

(* ================================================================== *)
(** * The Unicode database, as CPython 3.11 reads it *)

Module Unicode.
Local Open Scope N_scope.

(** The lower-case form of the code points that have one of a single
    character, in increasing order ([str.lower] on a one-character string);
    U+0130 is apart, its lower-case form has two characters. *)
Definition lower_pairs : list (N * N) :=
  [
    (65, 97); (66, 98); (67, 99); (68, 100); (69, 101); (70, 102);
    (71, 103); (72, 104); (73, 105); (74, 106); (75, 107); (76, 108);
    (77, 109); (78, 110); (79, 111); (80, 112); (81, 113); (82, 114);
    (83, 115); (84, 116); (85, 117); (86, 118); (87, 119); (88, 120);
    (89, 121); (90, 122); (192, 224); (193, 225); (194, 226); (195, 227);
    (196, 228); (197, 229); (198, 230); (199, 231); (200, 232); (201, 233);
    (202, 234); (203, 235); (204, 236); (205, 237); (206, 238); (207, 239);
    (208, 240); (209, 241); (210, 242); (211, 243); (212, 244); (213, 245);
    (214, 246); (216, 248); (217, 249); (218, 250); (219, 251); (220, 252);
    (221, 253); (222, 254); (256, 257); (258, 259); (260, 261); (262, 263);
    (264, 265); (266, 267); (268, 269); (270, 271); (272, 273); (274, 275);
    (276, 277); (278, 279); (280, 281); (282, 283); (284, 285); (286, 287);
    (288, 289); (290, 291); (292, 293); (294, 295); (296, 297); (298, 299);
    (300, 301); (302, 303); (306, 307); (308, 309); (310, 311); (313, 314);
    (315, 316); (317, 318); (319, 320); (321, 322); (323, 324); (325, 326);
    (327, 328); (330, 331); (332, 333); (334, 335); (336, 337); (338, 339);
    (340, 341); (342, 343); (344, 345); (346, 347); (348, 349); (350, 351);
    (352, 353); (354, 355); (356, 357); (358, 359); (360, 361); (362, 363);
    (364, 365); (366, 367); (368, 369); (370, 371); (372, 373); (374, 375);
    (376, 255); (377, 378); (379, 380); (381, 382); (385, 595); (386, 387);
    (388, 389); (390, 596); (391, 392); (393, 598); (394, 599); (395, 396);
    (398, 477); (399, 601); (400, 603); (401, 402); (403, 608); (404, 611);
    (406, 617); (407, 616); (408, 409); (412, 623); (413, 626); (415, 629);
    (416, 417); (418, 419); (420, 421); (422, 640); (423, 424); (425, 643);
    (428, 429); (430, 648); (431, 432); (433, 650); (434, 651); (435, 436);
    (437, 438); (439, 658); (440, 441); (444, 445); (452, 454); (453, 454);
    (455, 457); (456, 457); (458, 460); (459, 460); (461, 462); (463, 464);
    (465, 466); (467, 468); (469, 470); (471, 472); (473, 474); (475, 476);
    (478, 479); (480, 481); (482, 483); (484, 485); (486, 487); (488, 489);
    (490, 491); (492, 493); (494, 495); (497, 499); (498, 499); (500, 501);
    (502, 405); (503, 447); (504, 505); (506, 507); (508, 509); (510, 511);
    (512, 513); (514, 515); (516, 517); (518, 519); (520, 521); (522, 523);
    (524, 525); (526, 527); (528, 529); (530, 531); (532, 533); (534, 535);
    (536, 537); (538, 539); (540, 541); (542, 543); (544, 414); (546, 547);
    (548, 549); (550, 551); (552, 553); (554, 555); (556, 557); (558, 559);
    (560, 561); (562, 563); (570, 11365); (571, 572); (573, 410);
    (574, 11366); (577, 578); (579, 384); (580, 649); (581, 652);
    (582, 583); (584, 585); (586, 587); (588, 589); (590, 591); (880, 881);
    (882, 883); (886, 887); (895, 1011); (902, 940); (904, 941); (905, 942);
    (906, 943); (908, 972); (910, 973); (911, 974); (913, 945); (914, 946);
    (915, 947); (916, 948); (917, 949); (918, 950); (919, 951); (920, 952);
    (921, 953); (922, 954); (923, 955); (924, 956); (925, 957); (926, 958);
    (927, 959); (928, 960); (929, 961); (931, 963); (932, 964); (933, 965);
    (934, 966); (935, 967); (936, 968); (937, 969); (938, 970); (939, 971);
    (975, 983); (984, 985); (986, 987); (988, 989); (990, 991); (992, 993);
    (994, 995); (996, 997); (998, 999); (1000, 1001); (1002, 1003);
    (1004, 1005); (1006, 1007); (1012, 952); (1015, 1016); (1017, 1010);
    (1018, 1019); (1021, 891); (1022, 892); (1023, 893); (1024, 1104);
    (1025, 1105); (1026, 1106); (1027, 1107); (1028, 1108); (1029, 1109);
    (1030, 1110); (1031, 1111); (1032, 1112); (1033, 1113); (1034, 1114);
    (1035, 1115); (1036, 1116); (1037, 1117); (1038, 1118); (1039, 1119);
    (1040, 1072); (1041, 1073); (1042, 1074); (1043, 1075); (1044, 1076);
    (1045, 1077); (1046, 1078); (1047, 1079); (1048, 1080); (1049, 1081);
    (1050, 1082); (1051, 1083); (1052, 1084); (1053, 1085); (1054, 1086);
    (1055, 1087); (1056, 1088); (1057, 1089); (1058, 1090); (1059, 1091);
    (1060, 1092); (1061, 1093); (1062, 1094); (1063, 1095); (1064, 1096);
    (1065, 1097); (1066, 1098); (1067, 1099); (1068, 1100); (1069, 1101);
    (1070, 1102); (1071, 1103); (1120, 1121); (1122, 1123); (1124, 1125);
    (1126, 1127); (1128, 1129); (1130, 1131); (1132, 1133); (1134, 1135);
    (1136, 1137); (1138, 1139); (1140, 1141); (1142, 1143); (1144, 1145);
    (1146, 1147); (1148, 1149); (1150, 1151); (1152, 1153); (1162, 1163);
    (1164, 1165); (1166, 1167); (1168, 1169); (1170, 1171); (1172, 1173);
    (1174, 1175); (1176, 1177); (1178, 1179); (1180, 1181); (1182, 1183);
    (1184, 1185); (1186, 1187); (1188, 1189); (1190, 1191); (1192, 1193);
    (1194, 1195); (1196, 1197); (1198, 1199); (1200, 1201); (1202, 1203);
    (1204, 1205); (1206, 1207); (1208, 1209); (1210, 1211); (1212, 1213);
    (1214, 1215); (1216, 1231); (1217, 1218); (1219, 1220); (1221, 1222);
    (1223, 1224); (1225, 1226); (1227, 1228); (1229, 1230); (1232, 1233);
    (1234, 1235); (1236, 1237); (1238, 1239); (1240, 1241); (1242, 1243);
    (1244, 1245); (1246, 1247); (1248, 1249); (1250, 1251); (1252, 1253);
    (1254, 1255); (1256, 1257); (1258, 1259); (1260, 1261); (1262, 1263);
    (1264, 1265); (1266, 1267); (1268, 1269); (1270, 1271); (1272, 1273);
    (1274, 1275); (1276, 1277); (1278, 1279); (1280, 1281); (1282, 1283);
    (1284, 1285); (1286, 1287); (1288, 1289); (1290, 1291); (1292, 1293);
    (1294, 1295); (1296, 1297); (1298, 1299); (1300, 1301); (1302, 1303);
    (1304, 1305); (1306, 1307); (1308, 1309); (1310, 1311); (1312, 1313);
    (1314, 1315); (1316, 1317); (1318, 1319); (1320, 1321); (1322, 1323);
    (1324, 1325); (1326, 1327); (1329, 1377); (1330, 1378); (1331, 1379);
    (1332, 1380); (1333, 1381); (1334, 1382); (1335, 1383); (1336, 1384);
    (1337, 1385); (1338, 1386); (1339, 1387); (1340, 1388); (1341, 1389);
    (1342, 1390); (1343, 1391); (1344, 1392); (1345, 1393); (1346, 1394);
    (1347, 1395); (1348, 1396); (1349, 1397); (1350, 1398); (1351, 1399);
    (1352, 1400); (1353, 1401); (1354, 1402); (1355, 1403); (1356, 1404);
    (1357, 1405); (1358, 1406); (1359, 1407); (1360, 1408); (1361, 1409);
    (1362, 1410); (1363, 1411); (1364, 1412); (1365, 1413); (1366, 1414);
    (4256, 11520); (4257, 11521); (4258, 11522); (4259, 11523);
    (4260, 11524); (4261, 11525); (4262, 11526); (4263, 11527);
    (4264, 11528); (4265, 11529); (4266, 11530); (4267, 11531);
    (4268, 11532); (4269, 11533); (4270, 11534); (4271, 11535);
    (4272, 11536); (4273, 11537); (4274, 11538); (4275, 11539);
    (4276, 11540); (4277, 11541); (4278, 11542); (4279, 11543);
    (4280, 11544); (4281, 11545); (4282, 11546); (4283, 11547);
    (4284, 11548); (4285, 11549); (4286, 11550); (4287, 11551);
    (4288, 11552); (4289, 11553); (4290, 11554); (4291, 11555);
    (4292, 11556); (4293, 11557); (4295, 11559); (4301, 11565);
    (5024, 43888); (5025, 43889); (5026, 43890); (5027, 43891);
    (5028, 43892); (5029, 43893); (5030, 43894); (5031, 43895);
    (5032, 43896); (5033, 43897); (5034, 43898); (5035, 43899);
    (5036, 43900); (5037, 43901); (5038, 43902); (5039, 43903);
    (5040, 43904); (5041, 43905); (5042, 43906); (5043, 43907);
    (5044, 43908); (5045, 43909); (5046, 43910); (5047, 43911);
    (5048, 43912); (5049, 43913); (5050, 43914); (5051, 43915);
    (5052, 43916); (5053, 43917); (5054, 43918); (5055, 43919);
    (5056, 43920); (5057, 43921); (5058, 43922); (5059, 43923);
    (5060, 43924); (5061, 43925); (5062, 43926); (5063, 43927);
    (5064, 43928); (5065, 43929); (5066, 43930); (5067, 43931);
    (5068, 43932); (5069, 43933); (5070, 43934); (5071, 43935);
    (5072, 43936); (5073, 43937); (5074, 43938); (5075, 43939);
    (5076, 43940); (5077, 43941); (5078, 43942); (5079, 43943);
    (5080, 43944); (5081, 43945); (5082, 43946); (5083, 43947);
    (5084, 43948); (5085, 43949); (5086, 43950); (5087, 43951);
    (5088, 43952); (5089, 43953); (5090, 43954); (5091, 43955);
    (5092, 43956); (5093, 43957); (5094, 43958); (5095, 43959);
    (5096, 43960); (5097, 43961); (5098, 43962); (5099, 43963);
    (5100, 43964); (5101, 43965); (5102, 43966); (5103, 43967);
    (5104, 5112); (5105, 5113); (5106, 5114); (5107, 5115); (5108, 5116);
    (5109, 5117); (7312, 4304); (7313, 4305); (7314, 4306); (7315, 4307);
    (7316, 4308); (7317, 4309); (7318, 4310); (7319, 4311); (7320, 4312);
    (7321, 4313); (7322, 4314); (7323, 4315); (7324, 4316); (7325, 4317);
    (7326, 4318); (7327, 4319); (7328, 4320); (7329, 4321); (7330, 4322);
    (7331, 4323); (7332, 4324); (7333, 4325); (7334, 4326); (7335, 4327);
    (7336, 4328); (7337, 4329); (7338, 4330); (7339, 4331); (7340, 4332);
    (7341, 4333); (7342, 4334); (7343, 4335); (7344, 4336); (7345, 4337);
    (7346, 4338); (7347, 4339); (7348, 4340); (7349, 4341); (7350, 4342);
    (7351, 4343); (7352, 4344); (7353, 4345); (7354, 4346); (7357, 4349);
    (7358, 4350); (7359, 4351); (7680, 7681); (7682, 7683); (7684, 7685);
    (7686, 7687); (7688, 7689); (7690, 7691); (7692, 7693); (7694, 7695);
    (7696, 7697); (7698, 7699); (7700, 7701); (7702, 7703); (7704, 7705);
    (7706, 7707); (7708, 7709); (7710, 7711); (7712, 7713); (7714, 7715);
    (7716, 7717); (7718, 7719); (7720, 7721); (7722, 7723); (7724, 7725);
    (7726, 7727); (7728, 7729); (7730, 7731); (7732, 7733); (7734, 7735);
    (7736, 7737); (7738, 7739); (7740, 7741); (7742, 7743); (7744, 7745);
    (7746, 7747); (7748, 7749); (7750, 7751); (7752, 7753); (7754, 7755);
    (7756, 7757); (7758, 7759); (7760, 7761); (7762, 7763); (7764, 7765);
    (7766, 7767); (7768, 7769); (7770, 7771); (7772, 7773); (7774, 7775);
    (7776, 7777); (7778, 7779); (7780, 7781); (7782, 7783); (7784, 7785);
    (7786, 7787); (7788, 7789); (7790, 7791); (7792, 7793); (7794, 7795);
    (7796, 7797); (7798, 7799); (7800, 7801); (7802, 7803); (7804, 7805);
    (7806, 7807); (7808, 7809); (7810, 7811); (7812, 7813); (7814, 7815);
    (7816, 7817); (7818, 7819); (7820, 7821); (7822, 7823); (7824, 7825);
    (7826, 7827); (7828, 7829); (7838, 223); (7840, 7841); (7842, 7843);
    (7844, 7845); (7846, 7847); (7848, 7849); (7850, 7851); (7852, 7853);
    (7854, 7855); (7856, 7857); (7858, 7859); (7860, 7861); (7862, 7863);
    (7864, 7865); (7866, 7867); (7868, 7869); (7870, 7871); (7872, 7873);
    (7874, 7875); (7876, 7877); (7878, 7879); (7880, 7881); (7882, 7883);
    (7884, 7885); (7886, 7887); (7888, 7889); (7890, 7891); (7892, 7893);
    (7894, 7895); (7896, 7897); (7898, 7899); (7900, 7901); (7902, 7903);
    (7904, 7905); (7906, 7907); (7908, 7909); (7910, 7911); (7912, 7913);
    (7914, 7915); (7916, 7917); (7918, 7919); (7920, 7921); (7922, 7923);
    (7924, 7925); (7926, 7927); (7928, 7929); (7930, 7931); (7932, 7933);
    (7934, 7935); (7944, 7936); (7945, 7937); (7946, 7938); (7947, 7939);
    (7948, 7940); (7949, 7941); (7950, 7942); (7951, 7943); (7960, 7952);
    (7961, 7953); (7962, 7954); (7963, 7955); (7964, 7956); (7965, 7957);
    (7976, 7968); (7977, 7969); (7978, 7970); (7979, 7971); (7980, 7972);
    (7981, 7973); (7982, 7974); (7983, 7975); (7992, 7984); (7993, 7985);
    (7994, 7986); (7995, 7987); (7996, 7988); (7997, 7989); (7998, 7990);
    (7999, 7991); (8008, 8000); (8009, 8001); (8010, 8002); (8011, 8003);
    (8012, 8004); (8013, 8005); (8025, 8017); (8027, 8019); (8029, 8021);
    (8031, 8023); (8040, 8032); (8041, 8033); (8042, 8034); (8043, 8035);
    (8044, 8036); (8045, 8037); (8046, 8038); (8047, 8039); (8072, 8064);
    (8073, 8065); (8074, 8066); (8075, 8067); (8076, 8068); (8077, 8069);
    (8078, 8070); (8079, 8071); (8088, 8080); (8089, 8081); (8090, 8082);
    (8091, 8083); (8092, 8084); (8093, 8085); (8094, 8086); (8095, 8087);
    (8104, 8096); (8105, 8097); (8106, 8098); (8107, 8099); (8108, 8100);
    (8109, 8101); (8110, 8102); (8111, 8103); (8120, 8112); (8121, 8113);
    (8122, 8048); (8123, 8049); (8124, 8115); (8136, 8050); (8137, 8051);
    (8138, 8052); (8139, 8053); (8140, 8131); (8152, 8144); (8153, 8145);
    (8154, 8054); (8155, 8055); (8168, 8160); (8169, 8161); (8170, 8058);
    (8171, 8059); (8172, 8165); (8184, 8056); (8185, 8057); (8186, 8060);
    (8187, 8061); (8188, 8179); (8486, 969); (8490, 107); (8491, 229);
    (8498, 8526); (8544, 8560); (8545, 8561); (8546, 8562); (8547, 8563);
    (8548, 8564); (8549, 8565); (8550, 8566); (8551, 8567); (8552, 8568);
    (8553, 8569); (8554, 8570); (8555, 8571); (8556, 8572); (8557, 8573);
    (8558, 8574); (8559, 8575); (8579, 8580); (9398, 9424); (9399, 9425);
    (9400, 9426); (9401, 9427); (9402, 9428); (9403, 9429); (9404, 9430);
    (9405, 9431); (9406, 9432); (9407, 9433); (9408, 9434); (9409, 9435);
    (9410, 9436); (9411, 9437); (9412, 9438); (9413, 9439); (9414, 9440);
    (9415, 9441); (9416, 9442); (9417, 9443); (9418, 9444); (9419, 9445);
    (9420, 9446); (9421, 9447); (9422, 9448); (9423, 9449); (11264, 11312);
    (11265, 11313); (11266, 11314); (11267, 11315); (11268, 11316);
    (11269, 11317); (11270, 11318); (11271, 11319); (11272, 11320);
    (11273, 11321); (11274, 11322); (11275, 11323); (11276, 11324);
    (11277, 11325); (11278, 11326); (11279, 11327); (11280, 11328);
    (11281, 11329); (11282, 11330); (11283, 11331); (11284, 11332);
    (11285, 11333); (11286, 11334); (11287, 11335); (11288, 11336);
    (11289, 11337); (11290, 11338); (11291, 11339); (11292, 11340);
    (11293, 11341); (11294, 11342); (11295, 11343); (11296, 11344);
    (11297, 11345); (11298, 11346); (11299, 11347); (11300, 11348);
    (11301, 11349); (11302, 11350); (11303, 11351); (11304, 11352);
    (11305, 11353); (11306, 11354); (11307, 11355); (11308, 11356);
    (11309, 11357); (11310, 11358); (11311, 11359); (11360, 11361);
    (11362, 619); (11363, 7549); (11364, 637); (11367, 11368);
    (11369, 11370); (11371, 11372); (11373, 593); (11374, 625);
    (11375, 592); (11376, 594); (11378, 11379); (11381, 11382);
    (11390, 575); (11391, 576); (11392, 11393); (11394, 11395);
    (11396, 11397); (11398, 11399); (11400, 11401); (11402, 11403);
    (11404, 11405); (11406, 11407); (11408, 11409); (11410, 11411);
    (11412, 11413); (11414, 11415); (11416, 11417); (11418, 11419);
    (11420, 11421); (11422, 11423); (11424, 11425); (11426, 11427);
    (11428, 11429); (11430, 11431); (11432, 11433); (11434, 11435);
    (11436, 11437); (11438, 11439); (11440, 11441); (11442, 11443);
    (11444, 11445); (11446, 11447); (11448, 11449); (11450, 11451);
    (11452, 11453); (11454, 11455); (11456, 11457); (11458, 11459);
    (11460, 11461); (11462, 11463); (11464, 11465); (11466, 11467);
    (11468, 11469); (11470, 11471); (11472, 11473); (11474, 11475);
    (11476, 11477); (11478, 11479); (11480, 11481); (11482, 11483);
    (11484, 11485); (11486, 11487); (11488, 11489); (11490, 11491);
    (11499, 11500); (11501, 11502); (11506, 11507); (42560, 42561);
    (42562, 42563); (42564, 42565); (42566, 42567); (42568, 42569);
    (42570, 42571); (42572, 42573); (42574, 42575); (42576, 42577);
    (42578, 42579); (42580, 42581); (42582, 42583); (42584, 42585);
    (42586, 42587); (42588, 42589); (42590, 42591); (42592, 42593);
    (42594, 42595); (42596, 42597); (42598, 42599); (42600, 42601);
    (42602, 42603); (42604, 42605); (42624, 42625); (42626, 42627);
    (42628, 42629); (42630, 42631); (42632, 42633); (42634, 42635);
    (42636, 42637); (42638, 42639); (42640, 42641); (42642, 42643);
    (42644, 42645); (42646, 42647); (42648, 42649); (42650, 42651);
    (42786, 42787); (42788, 42789); (42790, 42791); (42792, 42793);
    (42794, 42795); (42796, 42797); (42798, 42799); (42802, 42803);
    (42804, 42805); (42806, 42807); (42808, 42809); (42810, 42811);
    (42812, 42813); (42814, 42815); (42816, 42817); (42818, 42819);
    (42820, 42821); (42822, 42823); (42824, 42825); (42826, 42827);
    (42828, 42829); (42830, 42831); (42832, 42833); (42834, 42835);
    (42836, 42837); (42838, 42839); (42840, 42841); (42842, 42843);
    (42844, 42845); (42846, 42847); (42848, 42849); (42850, 42851);
    (42852, 42853); (42854, 42855); (42856, 42857); (42858, 42859);
    (42860, 42861); (42862, 42863); (42873, 42874); (42875, 42876);
    (42877, 7545); (42878, 42879); (42880, 42881); (42882, 42883);
    (42884, 42885); (42886, 42887); (42891, 42892); (42893, 613);
    (42896, 42897); (42898, 42899); (42902, 42903); (42904, 42905);
    (42906, 42907); (42908, 42909); (42910, 42911); (42912, 42913);
    (42914, 42915); (42916, 42917); (42918, 42919); (42920, 42921);
    (42922, 614); (42923, 604); (42924, 609); (42925, 620); (42926, 618);
    (42928, 670); (42929, 647); (42930, 669); (42931, 43859);
    (42932, 42933); (42934, 42935); (42936, 42937); (42938, 42939);
    (42940, 42941); (42942, 42943); (42944, 42945); (42946, 42947);
    (42948, 42900); (42949, 642); (42950, 7566); (42951, 42952);
    (42953, 42954); (42960, 42961); (42966, 42967); (42968, 42969);
    (42997, 42998); (65313, 65345); (65314, 65346); (65315, 65347);
    (65316, 65348); (65317, 65349); (65318, 65350); (65319, 65351);
    (65320, 65352); (65321, 65353); (65322, 65354); (65323, 65355);
    (65324, 65356); (65325, 65357); (65326, 65358); (65327, 65359);
    (65328, 65360); (65329, 65361); (65330, 65362); (65331, 65363);
    (65332, 65364); (65333, 65365); (65334, 65366); (65335, 65367);
    (65336, 65368); (65337, 65369); (65338, 65370); (66560, 66600);
    (66561, 66601); (66562, 66602); (66563, 66603); (66564, 66604);
    (66565, 66605); (66566, 66606); (66567, 66607); (66568, 66608);
    (66569, 66609); (66570, 66610); (66571, 66611); (66572, 66612);
    (66573, 66613); (66574, 66614); (66575, 66615); (66576, 66616);
    (66577, 66617); (66578, 66618); (66579, 66619); (66580, 66620);
    (66581, 66621); (66582, 66622); (66583, 66623); (66584, 66624);
    (66585, 66625); (66586, 66626); (66587, 66627); (66588, 66628);
    (66589, 66629); (66590, 66630); (66591, 66631); (66592, 66632);
    (66593, 66633); (66594, 66634); (66595, 66635); (66596, 66636);
    (66597, 66637); (66598, 66638); (66599, 66639); (66736, 66776);
    (66737, 66777); (66738, 66778); (66739, 66779); (66740, 66780);
    (66741, 66781); (66742, 66782); (66743, 66783); (66744, 66784);
    (66745, 66785); (66746, 66786); (66747, 66787); (66748, 66788);
    (66749, 66789); (66750, 66790); (66751, 66791); (66752, 66792);
    (66753, 66793); (66754, 66794); (66755, 66795); (66756, 66796);
    (66757, 66797); (66758, 66798); (66759, 66799); (66760, 66800);
    (66761, 66801); (66762, 66802); (66763, 66803); (66764, 66804);
    (66765, 66805); (66766, 66806); (66767, 66807); (66768, 66808);
    (66769, 66809); (66770, 66810); (66771, 66811); (66928, 66967);
    (66929, 66968); (66930, 66969); (66931, 66970); (66932, 66971);
    (66933, 66972); (66934, 66973); (66935, 66974); (66936, 66975);
    (66937, 66976); (66938, 66977); (66940, 66979); (66941, 66980);
    (66942, 66981); (66943, 66982); (66944, 66983); (66945, 66984);
    (66946, 66985); (66947, 66986); (66948, 66987); (66949, 66988);
    (66950, 66989); (66951, 66990); (66952, 66991); (66953, 66992);
    (66954, 66993); (66956, 66995); (66957, 66996); (66958, 66997);
    (66959, 66998); (66960, 66999); (66961, 67000); (66962, 67001);
    (66964, 67003); (66965, 67004); (68736, 68800); (68737, 68801);
    (68738, 68802); (68739, 68803); (68740, 68804); (68741, 68805);
    (68742, 68806); (68743, 68807); (68744, 68808); (68745, 68809);
    (68746, 68810); (68747, 68811); (68748, 68812); (68749, 68813);
    (68750, 68814); (68751, 68815); (68752, 68816); (68753, 68817);
    (68754, 68818); (68755, 68819); (68756, 68820); (68757, 68821);
    (68758, 68822); (68759, 68823); (68760, 68824); (68761, 68825);
    (68762, 68826); (68763, 68827); (68764, 68828); (68765, 68829);
    (68766, 68830); (68767, 68831); (68768, 68832); (68769, 68833);
    (68770, 68834); (68771, 68835); (68772, 68836); (68773, 68837);
    (68774, 68838); (68775, 68839); (68776, 68840); (68777, 68841);
    (68778, 68842); (68779, 68843); (68780, 68844); (68781, 68845);
    (68782, 68846); (68783, 68847); (68784, 68848); (68785, 68849);
    (68786, 68850); (71840, 71872); (71841, 71873); (71842, 71874);
    (71843, 71875); (71844, 71876); (71845, 71877); (71846, 71878);
    (71847, 71879); (71848, 71880); (71849, 71881); (71850, 71882);
    (71851, 71883); (71852, 71884); (71853, 71885); (71854, 71886);
    (71855, 71887); (71856, 71888); (71857, 71889); (71858, 71890);
    (71859, 71891); (71860, 71892); (71861, 71893); (71862, 71894);
    (71863, 71895); (71864, 71896); (71865, 71897); (71866, 71898);
    (71867, 71899); (71868, 71900); (71869, 71901); (71870, 71902);
    (71871, 71903); (93760, 93792); (93761, 93793); (93762, 93794);
    (93763, 93795); (93764, 93796); (93765, 93797); (93766, 93798);
    (93767, 93799); (93768, 93800); (93769, 93801); (93770, 93802);
    (93771, 93803); (93772, 93804); (93773, 93805); (93774, 93806);
    (93775, 93807); (93776, 93808); (93777, 93809); (93778, 93810);
    (93779, 93811); (93780, 93812); (93781, 93813); (93782, 93814);
    (93783, 93815); (93784, 93816); (93785, 93817); (93786, 93818);
    (93787, 93819); (93788, 93820); (93789, 93821); (93790, 93822);
    (93791, 93823); (125184, 125218); (125185, 125219); (125186, 125220);
    (125187, 125221); (125188, 125222); (125189, 125223); (125190, 125224);
    (125191, 125225); (125192, 125226); (125193, 125227); (125194, 125228);
    (125195, 125229); (125196, 125230); (125197, 125231); (125198, 125232);
    (125199, 125233); (125200, 125234); (125201, 125235); (125202, 125236);
    (125203, 125237); (125204, 125238); (125205, 125239); (125206, 125240);
    (125207, 125241); (125208, 125242); (125209, 125243); (125210, 125244);
    (125211, 125245); (125212, 125246); (125213, 125247); (125214, 125248);
    (125215, 125249); (125216, 125250); (125217, 125251)
  ].

(** The cased code points (lower-case, upper-case or title-case), as
    inclusive ranges in increasing order. *)
Definition cased_ranges : list (N * N) :=
  [
    (65, 90); (97, 122); (170, 170); (181, 181); (186, 186); (192, 214);
    (216, 246); (248, 442); (444, 447); (452, 659); (661, 696); (704, 705);
    (736, 740); (837, 837); (880, 883); (886, 887); (890, 893); (895, 895);
    (902, 902); (904, 906); (908, 908); (910, 929); (931, 1013);
    (1015, 1153); (1162, 1327); (1329, 1366); (1376, 1416); (4256, 4293);
    (4295, 4295); (4301, 4301); (4304, 4346); (4349, 4351); (5024, 5109);
    (5112, 5117); (7296, 7304); (7312, 7354); (7357, 7359); (7424, 7615);
    (7680, 7957); (7960, 7965); (7968, 8005); (8008, 8013); (8016, 8023);
    (8025, 8025); (8027, 8027); (8029, 8029); (8031, 8061); (8064, 8116);
    (8118, 8124); (8126, 8126); (8130, 8132); (8134, 8140); (8144, 8147);
    (8150, 8155); (8160, 8172); (8178, 8180); (8182, 8188); (8305, 8305);
    (8319, 8319); (8336, 8348); (8450, 8450); (8455, 8455); (8458, 8467);
    (8469, 8469); (8473, 8477); (8484, 8484); (8486, 8486); (8488, 8488);
    (8490, 8493); (8495, 8500); (8505, 8505); (8508, 8511); (8517, 8521);
    (8526, 8526); (8544, 8575); (8579, 8580); (9398, 9449); (11264, 11492);
    (11499, 11502); (11506, 11507); (11520, 11557); (11559, 11559);
    (11565, 11565); (42560, 42605); (42624, 42653); (42786, 42887);
    (42891, 42894); (42896, 42954); (42960, 42961); (42963, 42963);
    (42965, 42969); (42997, 42998); (43000, 43002); (43824, 43866);
    (43868, 43880); (43888, 43967); (64256, 64262); (64275, 64279);
    (65313, 65338); (65345, 65370); (66560, 66639); (66736, 66771);
    (66776, 66811); (66928, 66938); (66940, 66954); (66956, 66962);
    (66964, 66965); (66967, 66977); (66979, 66993); (66995, 67001);
    (67003, 67004); (67456, 67456); (67459, 67461); (67463, 67504);
    (67506, 67514); (68736, 68786); (68800, 68850); (71840, 71903);
    (93760, 93823); (119808, 119892); (119894, 119964); (119966, 119967);
    (119970, 119970); (119973, 119974); (119977, 119980); (119982, 119993);
    (119995, 119995); (119997, 120003); (120005, 120069); (120071, 120074);
    (120077, 120084); (120086, 120092); (120094, 120121); (120123, 120126);
    (120128, 120132); (120134, 120134); (120138, 120144); (120146, 120485);
    (120488, 120512); (120514, 120538); (120540, 120570); (120572, 120596);
    (120598, 120628); (120630, 120654); (120656, 120686); (120688, 120712);
    (120714, 120744); (120746, 120770); (120772, 120779); (122624, 122633);
    (122635, 122654); (125184, 125251); (127280, 127305); (127312, 127337);
    (127344, 127369)
  ].

(** The case-ignorable code points, as inclusive ranges. *)
Definition case_ignorable_ranges : list (N * N) :=
  [
    (39, 39); (46, 46); (58, 58); (94, 94); (96, 96); (168, 168);
    (173, 173); (175, 175); (180, 180); (183, 184); (688, 879); (884, 885);
    (890, 890); (900, 901); (903, 903); (1155, 1161); (1369, 1369);
    (1375, 1375); (1425, 1469); (1471, 1471); (1473, 1474); (1476, 1477);
    (1479, 1479); (1524, 1524); (1536, 1541); (1552, 1562); (1564, 1564);
    (1600, 1600); (1611, 1631); (1648, 1648); (1750, 1757); (1759, 1768);
    (1770, 1773); (1807, 1807); (1809, 1809); (1840, 1866); (1958, 1968);
    (2027, 2037); (2042, 2042); (2045, 2045); (2070, 2093); (2137, 2139);
    (2184, 2184); (2192, 2193); (2200, 2207); (2249, 2306); (2362, 2362);
    (2364, 2364); (2369, 2376); (2381, 2381); (2385, 2391); (2402, 2403);
    (2417, 2417); (2433, 2433); (2492, 2492); (2497, 2500); (2509, 2509);
    (2530, 2531); (2558, 2558); (2561, 2562); (2620, 2620); (2625, 2626);
    (2631, 2632); (2635, 2637); (2641, 2641); (2672, 2673); (2677, 2677);
    (2689, 2690); (2748, 2748); (2753, 2757); (2759, 2760); (2765, 2765);
    (2786, 2787); (2810, 2815); (2817, 2817); (2876, 2876); (2879, 2879);
    (2881, 2884); (2893, 2893); (2901, 2902); (2914, 2915); (2946, 2946);
    (3008, 3008); (3021, 3021); (3072, 3072); (3076, 3076); (3132, 3132);
    (3134, 3136); (3142, 3144); (3146, 3149); (3157, 3158); (3170, 3171);
    (3201, 3201); (3260, 3260); (3263, 3263); (3270, 3270); (3276, 3277);
    (3298, 3299); (3328, 3329); (3387, 3388); (3393, 3396); (3405, 3405);
    (3426, 3427); (3457, 3457); (3530, 3530); (3538, 3540); (3542, 3542);
    (3633, 3633); (3636, 3642); (3654, 3662); (3761, 3761); (3764, 3772);
    (3782, 3782); (3784, 3789); (3864, 3865); (3893, 3893); (3895, 3895);
    (3897, 3897); (3953, 3966); (3968, 3972); (3974, 3975); (3981, 3991);
    (3993, 4028); (4038, 4038); (4141, 4144); (4146, 4151); (4153, 4154);
    (4157, 4158); (4184, 4185); (4190, 4192); (4209, 4212); (4226, 4226);
    (4229, 4230); (4237, 4237); (4253, 4253); (4348, 4348); (4957, 4959);
    (5906, 5908); (5938, 5939); (5970, 5971); (6002, 6003); (6068, 6069);
    (6071, 6077); (6086, 6086); (6089, 6099); (6103, 6103); (6109, 6109);
    (6155, 6159); (6211, 6211); (6277, 6278); (6313, 6313); (6432, 6434);
    (6439, 6440); (6450, 6450); (6457, 6459); (6679, 6680); (6683, 6683);
    (6742, 6742); (6744, 6750); (6752, 6752); (6754, 6754); (6757, 6764);
    (6771, 6780); (6783, 6783); (6823, 6823); (6832, 6862); (6912, 6915);
    (6964, 6964); (6966, 6970); (6972, 6972); (6978, 6978); (7019, 7027);
    (7040, 7041); (7074, 7077); (7080, 7081); (7083, 7085); (7142, 7142);
    (7144, 7145); (7149, 7149); (7151, 7153); (7212, 7219); (7222, 7223);
    (7288, 7293); (7376, 7378); (7380, 7392); (7394, 7400); (7405, 7405);
    (7412, 7412); (7416, 7417); (7468, 7530); (7544, 7544); (7579, 7679);
    (8125, 8125); (8127, 8129); (8141, 8143); (8157, 8159); (8173, 8175);
    (8189, 8190); (8203, 8207); (8216, 8217); (8228, 8228); (8231, 8231);
    (8234, 8238); (8288, 8292); (8294, 8303); (8305, 8305); (8319, 8319);
    (8336, 8348); (8400, 8432); (11388, 11389); (11503, 11505);
    (11631, 11631); (11647, 11647); (11744, 11775); (11823, 11823);
    (12293, 12293); (12330, 12333); (12337, 12341); (12347, 12347);
    (12441, 12446); (12540, 12542); (40981, 40981); (42232, 42237);
    (42508, 42508); (42607, 42610); (42612, 42621); (42623, 42623);
    (42652, 42655); (42736, 42737); (42752, 42785); (42864, 42864);
    (42888, 42890); (42994, 42996); (43000, 43001); (43010, 43010);
    (43014, 43014); (43019, 43019); (43045, 43046); (43052, 43052);
    (43204, 43205); (43232, 43249); (43263, 43263); (43302, 43309);
    (43335, 43345); (43392, 43394); (43443, 43443); (43446, 43449);
    (43452, 43453); (43471, 43471); (43493, 43494); (43561, 43566);
    (43569, 43570); (43573, 43574); (43587, 43587); (43596, 43596);
    (43632, 43632); (43644, 43644); (43696, 43696); (43698, 43700);
    (43703, 43704); (43710, 43711); (43713, 43713); (43741, 43741);
    (43756, 43757); (43763, 43764); (43766, 43766); (43867, 43871);
    (43881, 43883); (44005, 44005); (44008, 44008); (44013, 44013);
    (64286, 64286); (64434, 64450); (65024, 65039); (65043, 65043);
    (65056, 65071); (65106, 65106); (65109, 65109); (65279, 65279);
    (65287, 65287); (65294, 65294); (65306, 65306); (65342, 65342);
    (65344, 65344); (65392, 65392); (65438, 65439); (65507, 65507);
    (65529, 65531); (66045, 66045); (66272, 66272); (66422, 66426);
    (67456, 67461); (67463, 67504); (67506, 67514); (68097, 68099);
    (68101, 68102); (68108, 68111); (68152, 68154); (68159, 68159);
    (68325, 68326); (68900, 68903); (69291, 69292); (69446, 69456);
    (69506, 69509); (69633, 69633); (69688, 69702); (69744, 69744);
    (69747, 69748); (69759, 69761); (69811, 69814); (69817, 69818);
    (69821, 69821); (69826, 69826); (69837, 69837); (69888, 69890);
    (69927, 69931); (69933, 69940); (70003, 70003); (70016, 70017);
    (70070, 70078); (70089, 70092); (70095, 70095); (70191, 70193);
    (70196, 70196); (70198, 70199); (70206, 70206); (70367, 70367);
    (70371, 70378); (70400, 70401); (70459, 70460); (70464, 70464);
    (70502, 70508); (70512, 70516); (70712, 70719); (70722, 70724);
    (70726, 70726); (70750, 70750); (70835, 70840); (70842, 70842);
    (70847, 70848); (70850, 70851); (71090, 71093); (71100, 71101);
    (71103, 71104); (71132, 71133); (71219, 71226); (71229, 71229);
    (71231, 71232); (71339, 71339); (71341, 71341); (71344, 71349);
    (71351, 71351); (71453, 71455); (71458, 71461); (71463, 71467);
    (71727, 71735); (71737, 71738); (71995, 71996); (71998, 71998);
    (72003, 72003); (72148, 72151); (72154, 72155); (72160, 72160);
    (72193, 72202); (72243, 72248); (72251, 72254); (72263, 72263);
    (72273, 72278); (72281, 72283); (72330, 72342); (72344, 72345);
    (72752, 72758); (72760, 72765); (72767, 72767); (72850, 72871);
    (72874, 72880); (72882, 72883); (72885, 72886); (73009, 73014);
    (73018, 73018); (73020, 73021); (73023, 73029); (73031, 73031);
    (73104, 73105); (73109, 73109); (73111, 73111); (73459, 73460);
    (78896, 78904); (92912, 92916); (92976, 92982); (92992, 92995);
    (94031, 94031); (94095, 94111); (94176, 94177); (94179, 94180);
    (110576, 110579); (110581, 110587); (110589, 110590); (113821, 113822);
    (113824, 113827); (118528, 118573); (118576, 118598); (119143, 119145);
    (119155, 119170); (119173, 119179); (119210, 119213); (119362, 119364);
    (121344, 121398); (121403, 121452); (121461, 121461); (121476, 121476);
    (121499, 121503); (121505, 121519); (122880, 122886); (122888, 122904);
    (122907, 122913); (122915, 122916); (122918, 122922); (123184, 123197);
    (123566, 123566); (123628, 123631); (125136, 125142); (125252, 125259);
    (127995, 127999); (917505, 917505); (917536, 917631); (917760, 917999)
  ].

(** The upper-case code points ([str.isupper] on a one-character string),
    as inclusive ranges. *)
Definition upper_ranges : list (N * N) :=
  [
    (65, 90); (192, 214); (216, 222); (256, 256); (258, 258); (260, 260);
    (262, 262); (264, 264); (266, 266); (268, 268); (270, 270); (272, 272);
    (274, 274); (276, 276); (278, 278); (280, 280); (282, 282); (284, 284);
    (286, 286); (288, 288); (290, 290); (292, 292); (294, 294); (296, 296);
    (298, 298); (300, 300); (302, 302); (304, 304); (306, 306); (308, 308);
    (310, 310); (313, 313); (315, 315); (317, 317); (319, 319); (321, 321);
    (323, 323); (325, 325); (327, 327); (330, 330); (332, 332); (334, 334);
    (336, 336); (338, 338); (340, 340); (342, 342); (344, 344); (346, 346);
    (348, 348); (350, 350); (352, 352); (354, 354); (356, 356); (358, 358);
    (360, 360); (362, 362); (364, 364); (366, 366); (368, 368); (370, 370);
    (372, 372); (374, 374); (376, 377); (379, 379); (381, 381); (385, 386);
    (388, 388); (390, 391); (393, 395); (398, 401); (403, 404); (406, 408);
    (412, 413); (415, 416); (418, 418); (420, 420); (422, 423); (425, 425);
    (428, 428); (430, 431); (433, 435); (437, 437); (439, 440); (444, 444);
    (452, 452); (455, 455); (458, 458); (461, 461); (463, 463); (465, 465);
    (467, 467); (469, 469); (471, 471); (473, 473); (475, 475); (478, 478);
    (480, 480); (482, 482); (484, 484); (486, 486); (488, 488); (490, 490);
    (492, 492); (494, 494); (497, 497); (500, 500); (502, 504); (506, 506);
    (508, 508); (510, 510); (512, 512); (514, 514); (516, 516); (518, 518);
    (520, 520); (522, 522); (524, 524); (526, 526); (528, 528); (530, 530);
    (532, 532); (534, 534); (536, 536); (538, 538); (540, 540); (542, 542);
    (544, 544); (546, 546); (548, 548); (550, 550); (552, 552); (554, 554);
    (556, 556); (558, 558); (560, 560); (562, 562); (570, 571); (573, 574);
    (577, 577); (579, 582); (584, 584); (586, 586); (588, 588); (590, 590);
    (880, 880); (882, 882); (886, 886); (895, 895); (902, 902); (904, 906);
    (908, 908); (910, 911); (913, 929); (931, 939); (975, 975); (978, 980);
    (984, 984); (986, 986); (988, 988); (990, 990); (992, 992); (994, 994);
    (996, 996); (998, 998); (1000, 1000); (1002, 1002); (1004, 1004);
    (1006, 1006); (1012, 1012); (1015, 1015); (1017, 1018); (1021, 1071);
    (1120, 1120); (1122, 1122); (1124, 1124); (1126, 1126); (1128, 1128);
    (1130, 1130); (1132, 1132); (1134, 1134); (1136, 1136); (1138, 1138);
    (1140, 1140); (1142, 1142); (1144, 1144); (1146, 1146); (1148, 1148);
    (1150, 1150); (1152, 1152); (1162, 1162); (1164, 1164); (1166, 1166);
    (1168, 1168); (1170, 1170); (1172, 1172); (1174, 1174); (1176, 1176);
    (1178, 1178); (1180, 1180); (1182, 1182); (1184, 1184); (1186, 1186);
    (1188, 1188); (1190, 1190); (1192, 1192); (1194, 1194); (1196, 1196);
    (1198, 1198); (1200, 1200); (1202, 1202); (1204, 1204); (1206, 1206);
    (1208, 1208); (1210, 1210); (1212, 1212); (1214, 1214); (1216, 1217);
    (1219, 1219); (1221, 1221); (1223, 1223); (1225, 1225); (1227, 1227);
    (1229, 1229); (1232, 1232); (1234, 1234); (1236, 1236); (1238, 1238);
    (1240, 1240); (1242, 1242); (1244, 1244); (1246, 1246); (1248, 1248);
    (1250, 1250); (1252, 1252); (1254, 1254); (1256, 1256); (1258, 1258);
    (1260, 1260); (1262, 1262); (1264, 1264); (1266, 1266); (1268, 1268);
    (1270, 1270); (1272, 1272); (1274, 1274); (1276, 1276); (1278, 1278);
    (1280, 1280); (1282, 1282); (1284, 1284); (1286, 1286); (1288, 1288);
    (1290, 1290); (1292, 1292); (1294, 1294); (1296, 1296); (1298, 1298);
    (1300, 1300); (1302, 1302); (1304, 1304); (1306, 1306); (1308, 1308);
    (1310, 1310); (1312, 1312); (1314, 1314); (1316, 1316); (1318, 1318);
    (1320, 1320); (1322, 1322); (1324, 1324); (1326, 1326); (1329, 1366);
    (4256, 4293); (4295, 4295); (4301, 4301); (5024, 5109); (7312, 7354);
    (7357, 7359); (7680, 7680); (7682, 7682); (7684, 7684); (7686, 7686);
    (7688, 7688); (7690, 7690); (7692, 7692); (7694, 7694); (7696, 7696);
    (7698, 7698); (7700, 7700); (7702, 7702); (7704, 7704); (7706, 7706);
    (7708, 7708); (7710, 7710); (7712, 7712); (7714, 7714); (7716, 7716);
    (7718, 7718); (7720, 7720); (7722, 7722); (7724, 7724); (7726, 7726);
    (7728, 7728); (7730, 7730); (7732, 7732); (7734, 7734); (7736, 7736);
    (7738, 7738); (7740, 7740); (7742, 7742); (7744, 7744); (7746, 7746);
    (7748, 7748); (7750, 7750); (7752, 7752); (7754, 7754); (7756, 7756);
    (7758, 7758); (7760, 7760); (7762, 7762); (7764, 7764); (7766, 7766);
    (7768, 7768); (7770, 7770); (7772, 7772); (7774, 7774); (7776, 7776);
    (7778, 7778); (7780, 7780); (7782, 7782); (7784, 7784); (7786, 7786);
    (7788, 7788); (7790, 7790); (7792, 7792); (7794, 7794); (7796, 7796);
    (7798, 7798); (7800, 7800); (7802, 7802); (7804, 7804); (7806, 7806);
    (7808, 7808); (7810, 7810); (7812, 7812); (7814, 7814); (7816, 7816);
    (7818, 7818); (7820, 7820); (7822, 7822); (7824, 7824); (7826, 7826);
    (7828, 7828); (7838, 7838); (7840, 7840); (7842, 7842); (7844, 7844);
    (7846, 7846); (7848, 7848); (7850, 7850); (7852, 7852); (7854, 7854);
    (7856, 7856); (7858, 7858); (7860, 7860); (7862, 7862); (7864, 7864);
    (7866, 7866); (7868, 7868); (7870, 7870); (7872, 7872); (7874, 7874);
    (7876, 7876); (7878, 7878); (7880, 7880); (7882, 7882); (7884, 7884);
    (7886, 7886); (7888, 7888); (7890, 7890); (7892, 7892); (7894, 7894);
    (7896, 7896); (7898, 7898); (7900, 7900); (7902, 7902); (7904, 7904);
    (7906, 7906); (7908, 7908); (7910, 7910); (7912, 7912); (7914, 7914);
    (7916, 7916); (7918, 7918); (7920, 7920); (7922, 7922); (7924, 7924);
    (7926, 7926); (7928, 7928); (7930, 7930); (7932, 7932); (7934, 7934);
    (7944, 7951); (7960, 7965); (7976, 7983); (7992, 7999); (8008, 8013);
    (8025, 8025); (8027, 8027); (8029, 8029); (8031, 8031); (8040, 8047);
    (8120, 8123); (8136, 8139); (8152, 8155); (8168, 8172); (8184, 8187);
    (8450, 8450); (8455, 8455); (8459, 8461); (8464, 8466); (8469, 8469);
    (8473, 8477); (8484, 8484); (8486, 8486); (8488, 8488); (8490, 8493);
    (8496, 8499); (8510, 8511); (8517, 8517); (8544, 8559); (8579, 8579);
    (9398, 9423); (11264, 11311); (11360, 11360); (11362, 11364);
    (11367, 11367); (11369, 11369); (11371, 11371); (11373, 11376);
    (11378, 11378); (11381, 11381); (11390, 11392); (11394, 11394);
    (11396, 11396); (11398, 11398); (11400, 11400); (11402, 11402);
    (11404, 11404); (11406, 11406); (11408, 11408); (11410, 11410);
    (11412, 11412); (11414, 11414); (11416, 11416); (11418, 11418);
    (11420, 11420); (11422, 11422); (11424, 11424); (11426, 11426);
    (11428, 11428); (11430, 11430); (11432, 11432); (11434, 11434);
    (11436, 11436); (11438, 11438); (11440, 11440); (11442, 11442);
    (11444, 11444); (11446, 11446); (11448, 11448); (11450, 11450);
    (11452, 11452); (11454, 11454); (11456, 11456); (11458, 11458);
    (11460, 11460); (11462, 11462); (11464, 11464); (11466, 11466);
    (11468, 11468); (11470, 11470); (11472, 11472); (11474, 11474);
    (11476, 11476); (11478, 11478); (11480, 11480); (11482, 11482);
    (11484, 11484); (11486, 11486); (11488, 11488); (11490, 11490);
    (11499, 11499); (11501, 11501); (11506, 11506); (42560, 42560);
    (42562, 42562); (42564, 42564); (42566, 42566); (42568, 42568);
    (42570, 42570); (42572, 42572); (42574, 42574); (42576, 42576);
    (42578, 42578); (42580, 42580); (42582, 42582); (42584, 42584);
    (42586, 42586); (42588, 42588); (42590, 42590); (42592, 42592);
    (42594, 42594); (42596, 42596); (42598, 42598); (42600, 42600);
    (42602, 42602); (42604, 42604); (42624, 42624); (42626, 42626);
    (42628, 42628); (42630, 42630); (42632, 42632); (42634, 42634);
    (42636, 42636); (42638, 42638); (42640, 42640); (42642, 42642);
    (42644, 42644); (42646, 42646); (42648, 42648); (42650, 42650);
    (42786, 42786); (42788, 42788); (42790, 42790); (42792, 42792);
    (42794, 42794); (42796, 42796); (42798, 42798); (42802, 42802);
    (42804, 42804); (42806, 42806); (42808, 42808); (42810, 42810);
    (42812, 42812); (42814, 42814); (42816, 42816); (42818, 42818);
    (42820, 42820); (42822, 42822); (42824, 42824); (42826, 42826);
    (42828, 42828); (42830, 42830); (42832, 42832); (42834, 42834);
    (42836, 42836); (42838, 42838); (42840, 42840); (42842, 42842);
    (42844, 42844); (42846, 42846); (42848, 42848); (42850, 42850);
    (42852, 42852); (42854, 42854); (42856, 42856); (42858, 42858);
    (42860, 42860); (42862, 42862); (42873, 42873); (42875, 42875);
    (42877, 42878); (42880, 42880); (42882, 42882); (42884, 42884);
    (42886, 42886); (42891, 42891); (42893, 42893); (42896, 42896);
    (42898, 42898); (42902, 42902); (42904, 42904); (42906, 42906);
    (42908, 42908); (42910, 42910); (42912, 42912); (42914, 42914);
    (42916, 42916); (42918, 42918); (42920, 42920); (42922, 42926);
    (42928, 42932); (42934, 42934); (42936, 42936); (42938, 42938);
    (42940, 42940); (42942, 42942); (42944, 42944); (42946, 42946);
    (42948, 42951); (42953, 42953); (42960, 42960); (42966, 42966);
    (42968, 42968); (42997, 42997); (65313, 65338); (66560, 66599);
    (66736, 66771); (66928, 66938); (66940, 66954); (66956, 66962);
    (66964, 66965); (68736, 68786); (71840, 71871); (93760, 93791);
    (119808, 119833); (119860, 119885); (119912, 119937); (119964, 119964);
    (119966, 119967); (119970, 119970); (119973, 119974); (119977, 119980);
    (119982, 119989); (120016, 120041); (120068, 120069); (120071, 120074);
    (120077, 120084); (120086, 120092); (120120, 120121); (120123, 120126);
    (120128, 120132); (120134, 120134); (120138, 120144); (120172, 120197);
    (120224, 120249); (120276, 120301); (120328, 120353); (120380, 120405);
    (120432, 120457); (120488, 120512); (120546, 120570); (120604, 120628);
    (120662, 120686); (120720, 120744); (120778, 120778); (125184, 125217);
    (127280, 127305); (127312, 127337); (127344, 127369)
  ].

(** The decimal digits, as inclusive ranges; every range starts with a
    digit zero and holds whole runs of the ten digits in order. *)
Definition decimal_ranges : list (N * N) :=
  [
    (48, 57); (1632, 1641); (1776, 1785); (1984, 1993); (2406, 2415);
    (2534, 2543); (2662, 2671); (2790, 2799); (2918, 2927); (3046, 3055);
    (3174, 3183); (3302, 3311); (3430, 3439); (3558, 3567); (3664, 3673);
    (3792, 3801); (3872, 3881); (4160, 4169); (4240, 4249); (6112, 6121);
    (6160, 6169); (6470, 6479); (6608, 6617); (6784, 6793); (6800, 6809);
    (6992, 7001); (7088, 7097); (7232, 7241); (7248, 7257); (42528, 42537);
    (43216, 43225); (43264, 43273); (43472, 43481); (43504, 43513);
    (43600, 43609); (44016, 44025); (65296, 65305); (66720, 66729);
    (68912, 68921); (69734, 69743); (69872, 69881); (69942, 69951);
    (70096, 70105); (70384, 70393); (70736, 70745); (70864, 70873);
    (71248, 71257); (71360, 71369); (71472, 71481); (71904, 71913);
    (72016, 72025); (72784, 72793); (73040, 73049); (73120, 73129);
    (92768, 92777); (92864, 92873); (93008, 93017); (120782, 120831);
    (123200, 123209); (123632, 123641); (125264, 125273); (130032, 130041)
  ].

(** The white space of [str.isspace], as inclusive ranges. *)
Definition space_ranges : list (N * N) :=
  [
    (9, 13); (28, 32); (133, 133); (160, 160); (5760, 5760); (8192, 8202);
    (8232, 8233); (8239, 8239); (8287, 8287); (12288, 12288)
  ].
(** The value a sorted table gives for a code point. *)
Fixpoint lookup (c : N) (pairs : list (N * N)) : option N :=
  match pairs with
  | [] => None
  | (k, v) :: rest =>
      if c <? k then None
      else if c =? k then Some v
      else lookup c rest
  end.

Fixpoint in_ranges (c : N) (ranges : list (N * N)) : bool :=
  match ranges with
  | [] => false
  | (lo, hi) :: rest =>
      if c <? lo then false
      else if c <=? hi then true
      else in_ranges c rest
  end.

Fixpoint decimal_in (c : N) (ranges : list (N * N)) : option N :=
  match ranges with
  | [] => None
  | (lo, hi) :: rest =>
      if c <? lo then None
      else if c <=? hi then Some ((c - lo) mod 10)
      else decimal_in c rest
  end.

(** The simple lower-case mapping of a code point. *)
Definition lower_one (c : N) : N :=
  match lookup c lower_pairs with
  | Some d => d
  | None => c
  end.

(** The full lower-case mapping, [_PyUnicode_ToLowerFull]. *)
Definition lower_full (c : N) : list N :=
  if c =? 304 then [105; 775] else [lower_one c].

(** [_PyUnicode_IsCased] and [_PyUnicode_IsCaseIgnorable] *)
Definition is_cased (c : N) : bool := in_ranges c cased_ranges.
Definition is_case_ignorable (c : N) : bool :=
  in_ranges c case_ignorable_ranges.

(** [_PyUnicode_IsUppercase] *)
Definition is_upper (c : N) : bool := in_ranges c upper_ranges.

(** [Py_UNICODE_ISSPACE] *)
Definition is_space (c : N) : bool := in_ranges c space_ranges.

(** [Py_UNICODE_TODECIMAL]: the value of a decimal digit. *)
Definition decimal (c : N) : option N := decimal_in c decimal_ranges.

End Unicode.

(* ================================================================== *)
(** * Python string operations *)

Module PyStr.

Fixpoint chars (s : str) : list N :=
  match s with
  | EmptyString => []
  | String c s' => c :: chars s'
  end.

Fixpoint of_chars (l : list N) : str :=
  match l with
  | [] => EmptyString
  | c :: l' => String c (of_chars l')
  end.

(** ** [s.lower()].  Every character is replaced by its full lower-case
    mapping, except the capital sigma, which becomes a final sigma when
    it ends a word: when a cased character comes before it, case-ignorable
    characters apart, and none comes after it in the same way. *)
Fixpoint first_not_ignorable (l : list N) : option N :=
  match l with
  | [] => None
  | c :: l' =>
      if Unicode.is_case_ignorable c then first_not_ignorable l'
      else Some c
  end.

Definition final_sigma (before_reversed after : list N) : bool :=
  match first_not_ignorable before_reversed with
  | None => false
  | Some c =>
      Unicode.is_cased c
      && match first_not_ignorable after with
         | None => true
         | Some c' => negb (Unicode.is_cased c')
         end
  end.

Definition lower_at (before_reversed : list N) (c : N) (after : list N)
  : list N :=
  if (c =? 931)%N
  then [if final_sigma before_reversed after then 962%N else 963%N]
  else Unicode.lower_full c.

Fixpoint lower_from (before_reversed : list N) (s : list N) : list N :=
  match s with
  | [] => []
  | c :: s' =>
      (lower_at before_reversed c s' ++ lower_from (c :: before_reversed) s')
        %list
  end.

Definition lower (s : str) : str := of_chars (lower_from [] (chars s)).

(** [s.replace(a, b)] for one-character [a] and [b]. *)
Fixpoint replace_char (a b : N) (s : str) : str :=
  match s with
  | EmptyString => EmptyString
  | String c s' =>
      String (if N.eqb c a then b else c) (replace_char a b s')
  end.

(** [re.sub('[...]', '', s)] for a character class given by [cls]. *)
Fixpoint remove_chars (cls : N -> bool) (s : str) : str :=
  match s with
  | EmptyString => EmptyString
  | String c s' =>
      if cls c then remove_chars cls s' else String c (remove_chars cls s')
  end.

Fixpoint startswith (p s : str) : bool :=
  match p, s with
  | EmptyString, _ => true
  | String a p', String b s' => N.eqb a b && startswith p' s'
  | String _ _, EmptyString => false
  end.

Definition rev (s : str) : str := of_chars (List.rev (chars s)).

(** [s.endswith(p)] *)
Definition endswith (p s : str) : bool := startswith (rev p) (rev s).

(** [s.split(sep)] for a non-empty separator: a left-to-right scan for
    non-overlapping occurrences.  [skip] counts the characters of a
    matched separator still to be passed over; [cur] is the current
    piece, reversed. *)
Fixpoint split_aux (sep : str) (skip : nat) (cur : list N)
         (s : str) : list str :=
  match s with
  | EmptyString => [of_chars (List.rev cur)]
  | String c s' =>
      match skip with
      | S k => split_aux sep k cur s'
      | O =>
          if startswith sep s
          then of_chars (List.rev cur)
                 :: split_aux sep (Nat.pred (Str.length sep)) [] s'
          else split_aux sep O (c :: cur) s'
      end
  end.

Definition split (sep s : str) : list str := split_aux sep O [] s.

Fixpoint lstrip_by (cls : N -> bool) (s : str) : str :=
  match s with
  | EmptyString => EmptyString
  | String c s' => if cls c then lstrip_by cls s' else s
  end.

(** [str.isspace] on one character, and [s.lstrip()]. *)
Definition is_space (c : N) : bool := Unicode.is_space c.

Definition lstrip (s : str) : str := lstrip_by is_space s.

(** ** [int(s)].  The text is first brought to ASCII: a character below
    127 stays, any other white space becomes a blank, any other decimal
    digit becomes the ASCII digit of its value, and anything else becomes
    a question mark, which no literal holds. *)
Definition to_ascii_digit_or_space (c : N) : N :=
  if (c <? 127)%N then c
  else if Unicode.is_space c then " "%cp
  else match Unicode.decimal c with
       | Some d => ("0"%cp + d)%N
       | None => "?"%cp
       end.

(** The white space of C's [isspace]: TAB, LF, VT, FF, CR and SPACE. *)
Definition is_c_space (c : N) : bool :=
  ((9 <=? c) && (c <=? 13))%N || (c =? 32)%N.

Definition is_ascii_digit (c : N) : bool :=
  ("0"%cp <=? c)%N && (c <=? "9"%cp)%N.

Definition digit_value (c : N) : Z := Z.of_N (c - "0"%cp).

(** The digits of a base-10 literal, with single underscores allowed
    between digits, read from the left as far as they go: the value, the
    number of digits and the text that follows.  [prev] tells whether the
    previous character was a digit. *)
Fixpoint scan_digits (acc : Z) (count : nat) (prev : bool) (s : list N)
  : option (Z * nat * list N) :=
  match s with
  | [] => if prev then Some (acc, count, []) else None
  | c :: s' =>
      if is_ascii_digit c
      then scan_digits (10 * acc + digit_value c) (S count) true s'
      else if (c =? "_"%cp)%N
      then (if prev then scan_digits acc count false s' else None)
      else if prev then Some (acc, count, s) else None
  end.

Fixpoint skip_c_space (s : list N) : list N :=
  match s with
  | c :: s' => if is_c_space c then skip_c_space s' else s
  | [] => []
  end.

(** The interpreter's default limit on the digits of a literal. *)
Definition int_max_str_digits : nat := 4300.

(** [PyLong_FromString] in base 10: white space, an optional sign, the
    digits, white space, and nothing more. *)
Definition parse_int (s : list N) : option Z :=
  let s1 := skip_c_space s in
  let '(negative, s2) :=
    match s1 with
    | c :: s' =>
        if (c =? "+"%cp)%N then (false, s')
        else if (c =? "-"%cp)%N then (true, s')
        else (false, s1)
    | [] => (false, s1)
    end in
  match scan_digits 0 O false s2 with
  | Some (v, count, s3) =>
      if (count <=? int_max_str_digits)%nat then
        match skip_c_space s3 with
        | [] => Some (if negative then - v else v)
        | _ :: _ => None
        end
      else None
  | None => None
  end.

(** [None] stands for [ValueError]. *)
Definition int (s : str) : option Z :=
  parse_int (map to_ascii_digit_or_space (chars s)).

(** [str(z)] for an integer. *)
Fixpoint of_ascii_string (s : String.string) : str :=
  match s with
  | String.EmptyString => EmptyString
  | String.String a s' => String (Ascii.N_of_ascii a) (of_ascii_string s')
  end.

Definition of_Z (z : Z) : str :=
  of_ascii_string (DecimalString.NilZero.string_of_int (Z.to_int z)).

(** [os.path.basename] on POSIX: what follows the last slash. *)
Fixpoint basename_aux (cur : list N) (s : str) : str :=
  match s with
  | EmptyString => of_chars (List.rev cur)
  | String c s' =>
      if N.eqb c "/"%cp then basename_aux [] s'
      else basename_aux (c :: cur) s'
  end.

Definition basename (p : str) : str := basename_aux [] p.

(** [os.path.join(a, b)] on POSIX. *)
Definition join (a b : str) : str :=
  if startswith "/" b then b
  else if Str.eqb a "" || endswith "/" a then a ++ b
  else a ++ "/" ++ b.

End PyStr.

(* ================================================================== *)
(** * Date inference from the file name *)

(** The dictionary literal of [extract_month_year_from_filename], in source
    order.  The key ['May'] occurs twice with the same value. *)
Definition month_map : list (str * Z) :=
  [ ("Jan", 1); ("Feb", 2); ("Mar", 3); ("Apr", 4); ("May", 5); ("Jun", 6);
    ("Jul", 7); ("Aug", 8); ("Sep", 9); ("Oct", 10); ("Nov", 11); ("Dec", 12);
    ("January", 1); ("February", 2); ("March", 3); ("April", 4); ("May", 5);
    ("June", 6); ("July", 7); ("August", 8); ("September", 9);
    ("October", 10); ("November", 11); ("December", 12) ].

(** [d.get(k, default)] *)
Fixpoint dict_get (d : list (str * Z)) (k : str) (default : Z) : Z :=
  match d with
  | [] => default
  | (k', v) :: d' => if Str.eqb k k' then v else dict_get d' k default
  end.

(** [l[i]], raising [IndexError] out of range. *)
Definition getitem {A : Type} (l : list A) (i : nat) : result A :=
  match nth_error l i with
  | Some a => Ok a
  | None => Err IndexError
  end.

(** [int(s)] as a computation. *)
Definition py_int (s : str) : result Z :=
  match PyStr.int s with
  | Some z => Ok z
  | None => Err ValueError
  end.

Definition extract_month_year_from_filename (filename : str)
  : result (Z * Z) :=
  let parts := PyStr.split " - " filename in
  if (4 <=? List.length parts)%nat then
    year_part <- (segment <- getitem parts 3 ;;
                  getitem (PyStr.split " " segment) 0) ;;
    month_part <- (segment <- getitem parts 3 ;;
                   getitem (PyStr.split " " segment) 1) ;;
    let month := dict_get month_map month_part 1 in
    year <- py_int year_part ;;
    Ok (month, year)
  else Ok (1, 2025).

(** [calendar.isleap(year)] *)
Definition is_leap (year : Z) : bool :=
  (year mod 4 =? 0) && (negb (year mod 100 =? 0) || (year mod 400 =? 0)).

(** [calendar.monthrange(year, month)[1]] for a month in 1..12. *)
Definition get_days_in_month (month year : Z) : Z :=
  if month =? 2 then (if is_leap year then 29 else 28)
  else if (month =? 4) || (month =? 6) || (month =? 9) || (month =? 11)
       then 30 else 31.

(** The method [get_days_in_month] with the exception of
    [calendar.monthrange]: [IllegalMonthError], which is a [ValueError],
    for a month outside 1..12. *)
Definition get_days_in_month_checked (month year : Z) : result Z :=
  if (1 <=? month) && (month <=? 12)
  then Ok (get_days_in_month month year)
  else Err ValueError.

(* ================================================================== *)
(** * Data frames *)

(** A scalar held by a frame loaded with [pd.read_csv]: the missing marker
    ([np.nan]), a string, or a number.  A column in which some field is
    not a number is loaded as strings throughout, so the figures under a
    day label are strings such as ["10"]. *)
Inductive cell : Type :=
| NaN
| Str (s : str)
| Num (z : Z).

Definition cell_eqb (a b : cell) : bool :=
  match a, b with
  | NaN, NaN => true
  | Str s, Str t => Str.eqb s t
  | Num x, Num y => Z.eqb x y
  | _, _ => false
  end.

Definition is_str (c : cell) : bool :=
  match c with Str _ => true | _ => false end.

Definition is_nan (c : cell) : bool :=
  match c with NaN => true | _ => false end.

(** A [DataFrame] with row labels of type [I] and column labels of type
    [C]; [values] is the matrix of cells, one list per row. *)
Record Frame (I C : Type) : Type := mkFrame {
  index : list I;
  columns : list C;
  values : list (list cell)
}.

Arguments mkFrame {I C} index columns values.
Arguments index {I C} f.
Arguments columns {I C} f.
Arguments values {I C} f.

(** What [pd.read_csv(path)] returns: integer row labels, the header
    fields as column labels. *)
Definition WideTable : Type := Frame Z str.

(** What [transform_csv] returns: rows labelled by the header fields of
    the report, columns labelled by cells. *)
Definition LongTable : Type := Frame str cell.

(** What [pd.concat(..., ignore_index=True)] returns. *)
Definition CombinedTable : Type := Frame Z cell.

(** [RangeIndex(n)] *)
Definition range (n : nat) : list Z := map Z.of_nat (seq 0 n).

(** The frame has the row labels [read_csv] gives by default. *)
Definition as_loaded (df : WideTable) : Prop :=
  index df = range (List.length (values df)).

Module Pandas.

(** ** [DataFrame.sort_index]: a stable sort of the rows on their
    integer label. *)
Fixpoint insert_row (x : Z * list cell) (l : list (Z * list cell))
  : list (Z * list cell) :=
  match l with
  | [] => [x]
  | y :: l' => if fst x <=? fst y then x :: l else y :: insert_row x l'
  end.

Definition sort_rows (l : list (Z * list cell)) : list (Z * list cell) :=
  fold_right insert_row [] l.

Definition sort_index {C : Type} (df : Frame Z C) : Frame Z C :=
  let rows := sort_rows (combine (index df) (values df)) in
  mkFrame (map fst rows) (columns df) (map snd rows).

(** ** [DataFrame.transpose]: row [j] of the result is column [j] of
    the argument; the two label lists are exchanged. *)
Definition column_at (j : nat) (rows : list (list cell)) : list cell :=
  map (fun r => nth j r NaN) rows.

Definition transpose {I C : Type} (df : Frame I C) : Frame C I :=
  mkFrame (columns df) (index df)
          (map (fun j => column_at j (values df))
               (seq 0 (List.length (columns df)))).

(** ** [df.iloc[0]] *)
Definition iloc0 {I C : Type} (df : Frame I C) : result (list cell) :=
  getitem (values df) 0.

(** ** [df.columns = labels]: the number of labels must be the number
    of columns. *)
Definition set_columns {I C C' : Type} (df : Frame I C) (labels : list C')
  : result (Frame I C') :=
  if (List.length labels =? List.length (columns df))%nat
  then Ok (mkFrame (index df) labels (values df))
  else Err ValueError.

(** ** [df[1:]] *)
Definition drop_first {I C : Type} (df : Frame I C) : Frame I C :=
  mkFrame (tl (index df)) (columns df) (tl (values df)).

(** ** [df.rename(columns=mapping)] *)
Fixpoint lookup_str (m : list (str * str)) (k : str) : str :=
  match m with
  | [] => k
  | (k', v) :: m' => if Str.eqb k k' then v else lookup_str m' k
  end.

Definition rename_label (m : list (str * str)) (c : cell) : cell :=
  match c with
  | Str s => Str (lookup_str m s)
  | _ => c
  end.

Definition rename {I : Type} (m : list (str * str))
           (df : Frame I cell) : Frame I cell :=
  mkFrame (index df) (map (rename_label m) (columns df)) (values df).

(** ** [Index.str].  [df.rename] builds the index anew from the list of
    its labels, and pandas then infers its type: labels that are all
    missing, or numbers and missing, give a numeric index, on which the
    accessor is refused; an empty index and one that has a string keep
    the object type.  Where the accessor applies, a label that is not a
    string becomes the missing marker. *)
Definition can_use_str (labels : list cell) : bool :=
  match labels with
  | [] => true
  | _ :: _ => existsb is_str labels
  end.

Definition str_apply (f : str -> str) (c : cell) : cell :=
  match c with
  | Str s => Str (f s)
  | _ => NaN
  end.

Definition str_map (f : str -> str) (labels : list cell)
  : result (list cell) :=
  if can_use_str labels then Ok (map (str_apply f) labels)
  else Err AttributeError.

(** ** [df[k]]: a series when one column carries the label, a frame
    when several do. *)
Inductive selection : Type :=
| Series (v : list cell)
| SubFrame (width : nat).

Fixpoint positions (k : cell) (i : nat) (cols : list cell) : list nat :=
  match cols with
  | [] => []
  | c :: cols' =>
      if cell_eqb c k then i :: positions k (S i) cols'
      else positions k (S i) cols'
  end.

Definition frame_getitem {I : Type} (df : Frame I cell) (k : cell)
  : result selection :=
  match positions k 0 (columns df) with
  | [] => Err KeyError
  | [i] => Ok (Series (column_at i (values df)))
  | ps => Ok (SubFrame (List.length ps))
  end.

(** ** [df[k] = series] with a series on the frame's own index, and
    [df[k] = scalar]: every column labelled [k] is overwritten; when
    there is none, a column is appended. *)
Definition overwrite (cols : list cell) (k v : cell) (r : list cell)
  : list cell :=
  map (fun cx => if cell_eqb (fst cx) k then v else snd cx) (combine cols r).

Definition setitem_series {I : Type} (df : Frame I cell) (k : cell)
           (vals : list cell) : Frame I cell :=
  if existsb (fun c => cell_eqb c k) (columns df)
  then mkFrame (index df) (columns df)
         (map (fun rv => overwrite (columns df) k (snd rv) (fst rv))
              (combine (values df) vals))
  else mkFrame (index df) (columns df ++ [k])%list
         (map (fun rv => (fst rv ++ [snd rv])%list)
              (combine (values df) vals)).

Definition setitem_scalar {I : Type} (df : Frame I cell) (k v : cell)
  : Frame I cell :=
  if existsb (fun c => cell_eqb c k) (columns df)
  then mkFrame (index df) (columns df)
         (map (overwrite (columns df) k v) (values df))
  else mkFrame (index df) (columns df ++ [k])%list
         (map (fun r => (r ++ [v])%list) (values df)).

End Pandas.

(* ================================================================== *)
(** * Dates: [pd.to_datetime(..., format='%B %d')] and [dt.strftime] *)

Module Dates.

(** A parsed time stamp (year, month, day); [None] is [NaT]. *)
Definition timestamp : Type := option (Z * Z * Z).

(** The full month names of the C locale in lower case, [f_month]
    without its empty first entry: the alternatives of the [%B]
    directive.  No name is a prefix of another, so their order in the
    pattern is immaterial. *)
Definition month_names : list (str * Z) :=
  [ ("january", 1); ("february", 2); ("march", 3); ("april", 4);
    ("may", 5); ("june", 6); ("july", 7); ("august", 8);
    ("september", 9); ("october", 10); ("november", 11);
    ("december", 12) ].

(** A letter of a pattern compiled with [re.IGNORECASE] against a
    character of the text: the simple lower-case form of the character
    is the letter, or one of the two extra forms the regular expression
    engine knows for [i] (dotless i) and [s] (long s). *)
Definition sre_lower (c : N) : N :=
  if (c =? 304)%N then 105%N else Unicode.lower_one c.

Definition sre_extra (p : N) : list N :=
  if (p =? "i"%cp)%N then [305%N]
  else if (p =? "s"%cp)%N then [383%N]
  else [].

Definition sre_match_char (p c : N) : bool :=
  (sre_lower c =? p)%N || existsb (N.eqb (sre_lower c)) (sre_extra p).

(** The text matched by a name at the start of [s], and what follows. *)
Fixpoint match_name (name s : str) : option (str * str) :=
  match name, s with
  | EmptyString, _ => Some (EmptyString, s)
  | String p name', String c s' =>
      if sre_match_char p c then
        match match_name name' s' with
        | Some (matched, rest) => Some (String c matched, rest)
        | None => None
        end
      else None
  | String _ _, EmptyString => None
  end.

Fixpoint match_month (names : list (str * Z)) (s : str)
  : option (str * str) :=
  match names with
  | [] => None
  | (name, _) :: names' =>
      match match_name name s with
      | Some found => Some found
      | None => match_month names' s
      end
  end.

(** [f_month.index(found.lower())]: the number of the month whose name
    the matched text is once lowered. *)
Fixpoint month_index (names : list (str * Z)) (found : str) : option Z :=
  match names with
  | [] => None
  | (name, m) :: names' =>
      if Str.eqb name found then Some m else month_index names' found
  end.

Definition in_range (lo hi c : N) : bool := (lo <=? c)%N && (c <=? hi)%N.

Definition digit (c : N) : Z := Z.of_N (c - "0"%cp).

(** The [%d] directive, [3[0-1]|[1-2]\d|0[1-9]|[1-9]| [1-9]]: the first
    alternative that matches wins.  [\d] is any decimal digit, and [int]
    reads it by its value.  The text handed to [match_day] never starts
    with a blank (the preceding [\s+] has taken it), so the fifth
    alternative cannot be the first to match. *)
Definition match_day (r : str) : option (Z * str) :=
  match r with
  | EmptyString => None
  | String c1 r1 =>
      let one :=
        if in_range "1"%cp "9"%cp c1 then Some (digit c1, r1) else None in
      match r1 with
      | EmptyString => one
      | String c2 r2 =>
          if (c1 =? "3"%cp)%N && in_range "0"%cp "1"%cp c2
          then Some (30 + digit c2, r2)
          else
            match
              (if in_range "1"%cp "2"%cp c1 then Unicode.decimal c2
               else None)
            with
            | Some d2 => Some (10 * digit c1 + Z.of_N d2, r2)
            | None =>
                if (c1 =? "0"%cp)%N && in_range "1"%cp "9"%cp c2
                then Some (digit c2, r2)
                else one
            end
      end
  end.

(** [\s] *)
Definition starts_with_space (s : str) : bool :=
  match s with
  | String c _ => PyStr.is_space c
  | EmptyString => false
  end.

(** One string against ['%B %d']: a month name, white space, a day, and
    nothing more; the year defaults to 1900 and the date must exist. *)
Definition strptime_B_d (s : str) : result (Z * Z * Z) :=
  match match_month month_names s with
  | None => Err ValueError
  | Some (found, rest) =>
      if starts_with_space rest then
        match match_day (PyStr.lstrip rest) with
        | Some (d, EmptyString) =>
            match month_index month_names (PyStr.lower found) with
            | Some m =>
                if d <=? get_days_in_month m 1900 then Ok (1900, m, d)
                else Err ValueError
            | None => Err ValueError
            end
        | _ => Err ValueError
        end
      else Err ValueError
  end.

Definition nat_strings : list str :=
  ["NaT"; "nat"; "NAT"; "nan"; "NaN"; "NAN"].

Definition parse_cell (c : cell) : result timestamp :=
  match c with
  | NaN => Ok None
  | Str s =>
      if Str.eqb s "" || existsb (Str.eqb s) nat_strings
      then Ok None
      else t <- strptime_B_d s ;; Ok (Some t)
  | Num _ => Err ValueError
  end.

Fixpoint parse_all (l : list cell) : result (list timestamp) :=
  match l with
  | [] => Ok []
  | c :: l' => t <- parse_cell c ;; ts <- parse_all l' ;; Ok (t :: ts)
  end.

(** [pd.to_datetime(x, format='%B %d')]: a frame (several columns under
    one label) is refused. *)
Definition to_datetime (x : Pandas.selection) : result (list timestamp) :=
  match x with
  | Pandas.Series v => parse_all v
  | Pandas.SubFrame _ => Err ValueError
  end.

Definition pad2 (z : Z) : str :=
  if z <? 10 then "0" ++ PyStr.of_Z z else PyStr.of_Z z.

(** [t.strftime(f'{year}-%m-%d')] *)
Definition strftime (year : Z) (t : timestamp) : cell :=
  match t with
  | None => NaN
  | Some (_, m, d) =>
      Str (PyStr.of_Z year ++ "-" ++ pad2 m ++ "-" ++ pad2 d)
  end.

End Dates.

(* ================================================================== *)
(** * The transform of one report *)

Definition renames : list (str * str) :=
  [ ("Cost Growth", "Cost Digital"); ("Cost Marketing ", "Cost offline ") ].

(** The character class [[+\-./]]. *)
Definition stripped_char (c : N) : bool :=
  N.eqb c "+"%cp || N.eqb c "-"%cp || N.eqb c "."%cp || N.eqb c "/"%cp.

Definition replace_spaces (s : str) : str :=
  PyStr.replace_char " "%cp "_"%cp s.

Definition strip_punctuation (s : str) : str :=
  PyStr.remove_chars stripped_char s.

(** The three cleaning steps applied to one column name. *)
Definition normalize (s : str) : str :=
  strip_punctuation (replace_spaces (PyStr.lower s)).

Definition placeholder_columns : list str :=
  [ "new_install_first_dis"; "signupfirst_dis"; "cac_incl_branding";
    "first_disbursement_all"; "fsfirst_disb"; "first_disbursement_fidobiz" ].

Definition report_day : cell := Str "report_day".

(** The six assignments [df[k] = np.nan] that end [transform_csv]. *)
Definition add_placeholders (df : LongTable) : LongTable :=
  fold_left (fun d k => Pandas.setitem_scalar d (Str k) NaN)
            placeholder_columns df.

(** Lines 102 to 136 of [transform_csv]: the work done on the loaded frame
    once [month] and [year] are known.  The two assignments to
    [df['report_day']] are taken together: the parsed time stamps are
    formatted before they are stored. *)
Definition reshape (month year : Z) (df : WideTable) : result LongTable :=
  let df := Pandas.transpose (Pandas.sort_index df) in
  header <- Pandas.iloc0 df ;;
  df <- Pandas.set_columns df header ;;
  let df := Pandas.drop_first df in
  let df := Pandas.rename renames df in
  cols <- Pandas.str_map PyStr.lower (columns df) ;;
  df <- Pandas.set_columns df cols ;;
  cols <- Pandas.str_map replace_spaces (columns df) ;;
  df <- Pandas.set_columns df cols ;;
  cols <- Pandas.str_map strip_punctuation (columns df) ;;
  df <- Pandas.set_columns df cols ;;
  df <- Pandas.set_columns df (report_day :: tl (columns df)) ;;
  days <- Pandas.frame_getitem df report_day ;;
  stamps <- Dates.to_datetime days ;;
  let df := Pandas.setitem_series df report_day
              (map (Dates.strftime year) stamps) in
  Ok (add_placeholders df).

(** The world outside the program: the configured folder, whether it
    exists ([os.path.exists]), what [os.listdir] gives for it or raises,
    and what [pd.read_csv] gives for a path. *)
Record World : Type := mkWorld {
  data_folder : str;
  path_exists : bool;
  listdir : result (list str);
  read_csv : str -> result WideTable
}.

Definition get_csv_files (w : World) : result (list str) :=
  if path_exists w then
    files <- listdir w ;;
    Ok (map (PyStr.join (data_folder w))
            (filter (PyStr.endswith ".csv") files))
  else Ok [].

Definition transform_csv (w : World) (csv_path : str) : result LongTable :=
  df <- read_csv w csv_path ;;
  let filename := PyStr.basename csv_path in
  '(month, year) <- extract_month_year_from_filename filename ;;
  reshape month year df.

(* ================================================================== *)
(** * Aggregation *)

Module Concat.

Fixpoint list_eqb (a b : list cell) : bool :=
  match a, b with
  | [], [] => true
  | x :: a', y :: b' => cell_eqb x y && list_eqb a' b'
  | _, _ => false
  end.

Definition mem (c : cell) (l : list cell) : bool :=
  existsb (cell_eqb c) l.

Fixpoint no_dup (l : list cell) : bool :=
  match l with
  | [] => true
  | c :: l' => negb (mem c l') && no_dup l'
  end.

(** The labels of [l] not yet in [seen], each once, in order of first
    appearance. *)
Fixpoint fresh (seen : list cell) (l : list cell) : list cell :=
  match l with
  | [] => []
  | c :: l' =>
      if mem c seen then fresh seen l' else c :: fresh (c :: seen) l'
  end.

Definition union (ls : list (list cell)) : list cell :=
  fresh [] (List.concat ls).

(** The value a row holds under label [k]; missing when the frame has
    no such column. *)
Fixpoint lookup (k : cell) (cols row : list cell) : cell :=
  match cols, row with
  | c :: cols', x :: row' => if cell_eqb c k then x else lookup k cols' row'
  | _, _ => NaN
  end.

Definition reindex (cols target : list cell) (row : list cell) : list cell :=
  map (fun k => lookup k cols row) target.

Definition row_count (dfs : list LongTable) : nat :=
  List.length (List.concat (map values dfs)).

(** [pd.concat(dfs, ignore_index=True)].  Frames with one and the same
    list of columns are stacked as they are.  Otherwise every frame is
    re-indexed on the union of the labels, which pandas refuses for a
    frame that has two columns under one label. *)
Definition concat (dfs : list LongTable) : result CombinedTable :=
  match dfs with
  | [] => Err ValueError
  | d :: ds =>
      if forallb (fun d' => list_eqb (columns d') (columns d)) ds
      then Ok (mkFrame (range (row_count dfs)) (columns d)
                       (List.concat (map values dfs)))
      else if forallb (fun d' => no_dup (columns d')) dfs
      then
        let cols := union (map columns dfs) in
        Ok (mkFrame (range (row_count dfs)) cols
              (List.concat
                 (map (fun d' => map (reindex (columns d') cols) (values d'))
                      dfs)))
      else Err InvalidIndexError
  end.

End Concat.

(** One turn of the loop of [transform_all_files]: a frame is appended on
    success, the file is passed over on any exception. *)
Definition process_file (w : World) (transformed_dfs : list LongTable)
           (csv_file : str) : list LongTable :=
  match transform_csv w csv_file with
  | Ok transformed_df => (transformed_dfs ++ [transformed_df])%list
  | Err _ => transformed_dfs
  end.

Definition is_empty {A : Type} (l : list A) : bool :=
  match l with [] => true | _ => false end.

Definition transform_all_files (w : World) : result CombinedTable :=
  csv_files <- get_csv_files w ;;
  if is_empty csv_files then Err FileNotFoundError
  else
    let transformed_dfs := fold_left (process_file w) csv_files [] in
    if is_empty transformed_dfs then Err ValueError
    else Concat.concat transformed_dfs.

(* ================================================================== *)
(** * Vocabulary of the statements *)

(** A name is clean when every one of its characters is its own
    lower-case form, is no blank and is none of the characters
    [+ - . /]. *)
Definition own_lower (c : N) : bool :=
  match Unicode.lower_full c with
  | [d] => N.eqb d c
  | _ => false
  end.

Definition clean_char (c : N) : bool :=
  own_lower c && negb (N.eqb c " "%cp) && negb (stripped_char c).

Definition clean (s : str) : Prop :=
  forall c, In c (PyStr.chars s) -> clean_char c = true.

(** A name has an upper-case character. *)
Definition has_upper (s : str) : Prop :=
  exists c, In c (PyStr.chars s) /\ Unicode.is_upper c = true.

(** The texts [int] reads, in the words of the language reference.  A
    run of digits: decimal digits with single underscores allowed between
    two of them. *)
Inductive digit_run : list N -> Prop :=
| run_one (c : N) : PyStr.is_ascii_digit c = true -> digit_run [c]
| run_cons (c : N) (l : list N) :
    PyStr.is_ascii_digit c = true -> digit_run l -> digit_run (c :: l)
| run_under (c : N) (l : list N) :
    PyStr.is_ascii_digit c = true -> digit_run l ->
    digit_run (c :: "_"%cp :: l).

(** The decimal value of the digits of a run and their number,
    underscores apart. *)
Definition add_digit (acc : Z) (c : N) : Z :=
  if PyStr.is_ascii_digit c then 10 * acc + PyStr.digit_value c else acc.

Definition value_of (l : list N) : Z := fold_left add_digit l 0.

Definition count_digits (l : list N) : nat :=
  List.length (filter PyStr.is_ascii_digit l).

(** What may follow the digits: nothing, or a character that is neither a
    digit nor an underscore. *)
Definition ends_run (rest : list N) : Prop :=
  match rest with
  | [] => True
  | c :: _ => PyStr.is_ascii_digit c = false /\ c <> "_"%cp
  end.

(** What [int] makes of the digits and of what follows them, once white
    space and sign are passed. *)
Definition parse_digits (negative : bool) (s2 : list N) : option Z :=
  match PyStr.scan_digits 0 0 false s2 with
  | Some (v, count, s3) =>
      if (count <=? PyStr.int_max_str_digits)%nat then
        match PyStr.skip_c_space s3 with
        | [] => Some (if negative then - v else v)
        | _ :: _ => None
        end
      else None
  | None => None
  end.

(** An integer literal with its value: once white space and decimal
    digits of any script are brought to ASCII, white space, an optional
    sign, a run of at most 4300 digits, white space. *)
Definition int_literal (s : str) (z : Z) : Prop :=
  exists ws1 sign body ws2,
    map PyStr.to_ascii_digit_or_space (PyStr.chars s)
    = (ws1 ++ sign ++ body ++ ws2)%list
    /\ forallb PyStr.is_c_space ws1 = true
    /\ forallb PyStr.is_c_space ws2 = true
    /\ digit_run body
    /\ (count_digits body <= 4300)%nat
    /\ (((sign = [] \/ sign = ["+"%cp]) /\ z = value_of body)
        \/ (sign = ["-"%cp] /\ z = - value_of body)).

(** The fourth segment of a name cut at " - ", when there is one. *)
Definition fourth_segment (filename : str) : option str :=
  nth_error (PyStr.split " - " filename) 3.

(** The first white-space token of a text, in the words of the
    specification: what [text.split()[0]] would give. *)
Fixpoint take_token (s : str) : str :=
  match s with
  | EmptyString => EmptyString
  | String c s' => if PyStr.is_space c then EmptyString
                   else String c (take_token s')
  end.

Definition first_whitespace_token (s : str) : str :=
  take_token (PyStr.lstrip s).

(** The frames of the files whose transform succeeds, in the order of the
    files. *)
Fixpoint successes (w : World) (files : list str) : list LongTable :=
  match files with
  | [] => []
  | f :: files' =>
      match transform_csv w f with
      | Ok d => d :: successes w files'
      | Err _ => successes w files'
      end
  end.

(** Every row of the frame has one cell per column. *)
Definition rectangular {I C : Type} (df : Frame I C) : Prop :=
  Forall (fun r => List.length r = List.length (columns df)) (values df).

(** Every column labelled [k] holds the missing marker in every row. *)
Definition all_missing {I : Type} (k : cell) (df : Frame I cell) : Prop :=
  forall i, nth_error (columns df) i = Some k ->
  forall r, In r (values df) -> nth_error r i = Some NaN.

Definition same_columns (dfs : list LongTable) : Prop :=
  forall d d', In d dfs -> In d' dfs -> columns d = columns d'.



(** The three cleaning steps on a label, after the two literal renames. *)
Definition clean_label (c : cell) : cell :=
  Pandas.str_apply strip_punctuation
    (Pandas.str_apply replace_spaces
       (Pandas.str_apply PyStr.lower (Pandas.rename_label renames c))).

(** The day labels of a report: the first cell of every column but the
    first. *)
Definition day_labels (df : WideTable) : list cell :=
  Pandas.column_at 0 (tl (values (Pandas.transpose df))).

(** The order in which [sort_index] puts two labelled rows. *)
Definition key_le (x y : Z * list cell) : Prop := fst x <= fst y.

(** The tabulator character. *)
Definition TAB : str := String 9%N EmptyString.

(** The days of a year, month by month. *)
Definition year_length (year : Z) : Z :=
  fold_right Z.add 0
    (map (fun month => get_days_in_month month year)
         [1; 2; 3; 4; 5; 6; 7; 8; 9; 10; 11; 12]).

(** A directory entry has no slash in it. *)
Definition no_slash (f : str) : Prop := ~ In "/"%cp (PyStr.chars f).

(** A name that puts a month of [month_map] in front of the year, as the
    documented convention does. *)
Definition month_first (filename : str) : Prop :=
  exists seg month_name year_text rest m,
    fourth_segment filename = Some seg
    /\ PyStr.split " " seg = month_name :: year_text :: rest
    /\ In (month_name, m) month_map.

(** A cell of the [report_day] column: missing, or the year, a month of
    two digits and a day of two digits that exists in that month of a
    common year. *)
Definition iso_date (year : Z) (c : cell) : Prop :=
  c = NaN
  \/ exists m d,
       1 <= m <= 12 /\ 1 <= d <= get_days_in_month m 1900
       /\ Str.length (Dates.pad2 m) = 2%nat
       /\ Str.length (Dates.pad2 d) = 2%nat
       /\ c = Str (PyStr.of_Z year ++ "-" ++ Dates.pad2 m
                     ++ "-" ++ Dates.pad2 d).

(* ================================================================== *)
(** * Sample file names, reports and folders *)

(** The file name quoted in the source and in the specification. *)
Definition documented_name : str :=
  "Ghana - Marketing_Growth 360 Report - 2025 - June 2025 Overview.csv".

(** Names whose fourth segment starts with the year. *)
Definition june_name : str := "GH - Growth - 360 - 2025 June Overview.csv".
Definition july_name : str := "GH - Growth - 360 - 2025 July Overview.csv".

(** A fourth segment made of one token, and one where a tabulator follows
    the year. *)
Definition bare_year_name : str := "a - b - c - 2025".
Definition tabbed_name : str := "a - b - c - 2025" ++ TAB ++ "June x".

(** A report as loaded: under the header line [h0,h1,h2] the row of day
    labels, then one row per metric. *)
Definition june_report (h0 h1 h2 : str) (corner a1 a2 b1 b2 : cell)
  : WideTable :=
  mkFrame [0; 1; 2] [h0; h1; h2]
          [ [corner; Str "June 1"; Str "June 2"];
            [Str "Cost Growth"; a1; a2];
            [Str "Installs"; b1; b2] ].

(** A report whose day labels are the header line itself. *)
Definition days_in_header (metric : str) (a1 a2 b1 b2 : cell) : WideTable :=
  mkFrame [0; 1] [metric; "June 1"; "June 2"]
          [ [Str "Cost Growth"; a1; a2];
            [Str "Installs"; b1; b2] ].

(** The same report with its two metric rows exchanged. *)
Definition june_report_swapped (h0 h1 h2 : str)
           (corner a1 a2 b1 b2 : cell) : WideTable :=
  mkFrame [0; 1; 2] [h0; h1; h2]
          [ [corner; Str "June 1"; Str "June 2"];
            [Str "Installs"; b1; b2];
            [Str "Cost Growth"; a1; a2] ].

Definition good_report : WideTable :=
  june_report "Unnamed: 0" "Unnamed: 1" "Unnamed: 2"
              NaN (Str "10") (Str "20") (Str "5") (Str "6").

(** A file with a header line and nothing else. *)
Definition empty_report : WideTable := mkFrame [] ["a"; "b"] [].



(** A report with a metric that is cleaned to a placeholder name. *)
Definition report_with_placeholder_name : WideTable :=
  mkFrame [0; 1] ["x"; "y"]
          [ [NaN; Str "June 1"]; [Str "Signupfirst Dis"; Str "7"] ].

(** [read_csv] over a table of files; a path outside it cannot be read. *)
Fixpoint read_from (files : list (str * WideTable)) (path : str)
  : result WideTable :=
  match files with
  | [] => Err OSError
  | (p, df) :: files' =>
      if Str.eqb path p then Ok df else read_from files' path
  end.

(** A folder with a sound report, a file without rows and a text file. *)
Definition mixed_folder : World :=
  mkWorld "gh_data" true (Ok [june_name; "broken.csv"; "notes.txt"])
          (read_from [ (PyStr.join "gh_data" june_name, good_report);
                       (PyStr.join "gh_data" "broken.csv", empty_report) ]).


(** A folder with one report under two names. *)
Definition two_months_folder : World :=
  mkWorld "gh_data" true (Ok [june_name; july_name])
          (read_from [ (PyStr.join "gh_data" june_name, good_report);
                       (PyStr.join "gh_data" july_name, good_report) ]).

(** No folder, a folder without reports, a folder whose one report fails. *)
Definition missing_folder : World :=
  mkWorld "gh_data" false (Err FileNotFoundError) (read_from []).

Definition folder_without_csv : World :=
  mkWorld "gh_data" true (Ok ["notes.txt"; "report.csv.bak"])
          (read_from []).

Definition broken_folder : World :=
  mkWorld "gh_data" true (Ok ["broken.csv"])
          (read_from [ (PyStr.join "gh_data" "broken.csv", empty_report) ]).



(** A report whose first column is empty: every label of the header is
    missing. *)
Definition blank_first_column : WideTable :=
  mkFrame [0; 1] ["h0"; "d1"]
          [ [NaN; Str "June 1"]; [NaN; Str "5"] ].

(** A report with a metric whose name starts with U+03D2, an upper-case
    letter that has no lower-case form. *)
Definition UPSILON_WITH_HOOK : N := 978.

Definition upsilon_report : WideTable :=
  mkFrame [0; 1] ["Unnamed: 0"; "Unnamed: 1"]
          [ [NaN; Str "June 1"];
            [Str (String UPSILON_WITH_HOOK " Cost"); Str "7"] ].

(** A name whose year is written in full-width digits (U+FF10 to
    U+FF19), and a year of 4301 digits. *)
Definition fullwidth_2025 : str :=
  String 65298 (String 65296 (String 65298 (String 65301 EmptyString))).

Definition fullwidth_name : str :=
  "a - b - c - " ++ fullwidth_2025 ++ " June x.csv".

Fixpoint repeat_char (c : N) (n : nat) : str :=
  match n with
  | O => EmptyString
  | S n' => String c (repeat_char c n')
  end.

Definition long_year_name : str :=
  "a - b - c - " ++ repeat_char "1"%cp 4301 ++ " June x.csv".

(* ================================================================== *)
(** * Results: lemmas *)

Lemma bind_ok {A B : Type} (r : result A) (k : A -> result B) (b : B) :
  bind r k = Ok b -> exists a, r = Ok a /\ k a = Ok b.
Proof. destruct r as [a|e]; simpl; [eauto | discriminate]. Qed.

Lemma raises_err {A : Type} (e : exn) : raises (@Err A e).
Proof. now exists e. Qed.

Lemma not_raises_ok {A : Type} (a : A) : ~ raises (Ok a).
Proof. intros [e H]; discriminate H. Qed.

Lemma Ok_inj {A : Type} (a b : A) : Ok a = Ok b -> a = b.
Proof. congruence. Qed.

#[local] Hint Resolve raises_err not_raises_ok : core.

(* ================================================================== *)
(** * Python strings: lemmas *)

Lemma str_eqb_eq (s t : str) : Str.eqb s t = true <-> s = t.
Proof.
  revert t. induction s as [|a s IH]; intros [|b t]; simpl;
    split; intros H; try discriminate H; try reflexivity.
  - apply andb_true_iff in H as [Hab Hst].
    apply N.eqb_eq in Hab. apply IH in Hst. now subst.
  - injection H as -> ->. rewrite N.eqb_refl. now apply IH.
Qed.

Lemma str_eqb_refl (s : str) : Str.eqb s s = true.
Proof. now apply str_eqb_eq. Qed.

Lemma str_eqb_neq (s t : str) : Str.eqb s t = false <-> s <> t.
Proof.
  split.
  - intros H E. apply str_eqb_eq in E. congruence.
  - intros H. destruct (Str.eqb s t) eqn:E; [|reflexivity].
    apply str_eqb_eq in E. contradiction.
Qed.

Lemma str_eqb_spec (s t : str) : reflect (s = t) (Str.eqb s t).
Proof. apply iff_reflect. symmetry. apply str_eqb_eq. Qed.

Lemma append_assoc (a b c : str) : (a ++ b) ++ c = a ++ (b ++ c).
Proof. induction a as [|x a IH]; simpl; [reflexivity | now rewrite IH]. Qed.

Lemma append_nil_r (a : str) : a ++ "" = a.
Proof. induction a as [|x a IH]; simpl; [reflexivity | now rewrite IH]. Qed.

Lemma chars_app (a b : str) :
  PyStr.chars (a ++ b) = (PyStr.chars a ++ PyStr.chars b)%list.
Proof. induction a as [|x a IH]; simpl; [reflexivity | now rewrite IH]. Qed.

Lemma of_chars_app (k l : list N) :
  PyStr.of_chars (k ++ l) = PyStr.of_chars k ++ PyStr.of_chars l.
Proof. induction k as [|x k IH]; simpl; [reflexivity | now rewrite IH]. Qed.

Lemma of_chars_chars (s : str) : PyStr.of_chars (PyStr.chars s) = s.
Proof. induction s as [|c s IH]; simpl; [reflexivity | now rewrite IH]. Qed.

Lemma chars_of_chars (l : list N) : PyStr.chars (PyStr.of_chars l) = l.
Proof. induction l as [|c l IH]; simpl; [reflexivity | now rewrite IH]. Qed.

(** ** The lower-case mapping *)

Lemma lookup_In (c d : N) (pairs : list (N * N)) :
  Unicode.lookup c pairs = Some d -> In (c, d) pairs.
Proof.
  induction pairs as [|[k v] pairs IH]; simpl; [discriminate|].
  destruct (c <? k)%N; [discriminate|].
  destruct (N.eqb_spec c k) as [->|_].
  - intros [= ->]. now left.
  - intros H. right. now apply IH.
Qed.

(** The lower-case form of a character is its own lower-case form. *)
Lemma lower_pairs_own :
  forallb (fun p => own_lower (snd p)) Unicode.lower_pairs = true.
Proof. vm_compute. reflexivity. Qed.

Lemma lower_full_own (c d : N) :
  In d (Unicode.lower_full c) -> own_lower d = true.
Proof.
  unfold Unicode.lower_full.
  destruct (N.eqb_spec c 304) as [->|Hc].
  - intros [<-|[<-|[]]]; vm_compute; reflexivity.
  - intros [<-|[]]. unfold Unicode.lower_one.
    destruct (Unicode.lookup c Unicode.lower_pairs) as [d|] eqn:E.
    + apply lookup_In in E.
      pose proof lower_pairs_own as F. rewrite forallb_forall in F.
      exact (F _ E).
    + unfold own_lower, Unicode.lower_full, Unicode.lower_one.
      apply N.eqb_neq in Hc. rewrite Hc, E. apply N.eqb_refl.
Qed.

Lemma lower_at_own (before after : list N) (c d : N) :
  In d (PyStr.lower_at before c after) -> own_lower d = true.
Proof.
  unfold PyStr.lower_at. destruct (c =? 931)%N.
  - destruct (PyStr.final_sigma before after); intros [<-|[]];
      vm_compute; reflexivity.
  - apply lower_full_own.
Qed.

Lemma lower_from_own (s before : list N) (d : N) :
  In d (PyStr.lower_from before s) -> own_lower d = true.
Proof.
  revert before. induction s as [|c s IH]; intros before; simpl; [intros []|].
  intros H. apply in_app_or in H as [H|H].
  - exact (lower_at_own _ _ _ _ H).
  - exact (IH _ H).
Qed.

Lemma own_lower_not_sigma (c : N) : own_lower c = true -> (c =? 931)%N = false.
Proof.
  intros H. destruct (N.eqb_spec c 931) as [->|]; [|reflexivity].
  vm_compute in H. discriminate H.
Qed.

Lemma own_lower_full (c : N) : own_lower c = true -> Unicode.lower_full c = [c].
Proof.
  unfold own_lower. destruct (Unicode.lower_full c) as [|d [|e l]];
    try discriminate.
  intros H. apply N.eqb_eq in H. now subst.
Qed.

(** A text of characters that are their own lower-case form is left as
    it is. *)
Lemma lower_from_fixed (s before : list N) :
  Forall (fun c => own_lower c = true) s -> PyStr.lower_from before s = s.
Proof.
  revert before. induction s as [|c s IH]; intros before F; [reflexivity|].
  inversion F as [|? ? Hc Hs]; subst. simpl.
  unfold PyStr.lower_at. rewrite (own_lower_not_sigma c Hc).
  rewrite (own_lower_full c Hc). simpl. now rewrite IH.
Qed.

Lemma lower_fixed (s : str) :
  (forall c, In c (PyStr.chars s) -> own_lower c = true) ->
  PyStr.lower s = s.
Proof.
  intros H. unfold PyStr.lower.
  rewrite lower_from_fixed by (now apply Forall_forall).
  apply of_chars_chars.
Qed.

(** ** The three cleaning steps *)

Lemma replace_char_chars (a b : N) (s : str) :
  PyStr.chars (PyStr.replace_char a b s)
  = map (fun c => if N.eqb c a then b else c) (PyStr.chars s).
Proof. induction s as [|c s IH]; simpl; [reflexivity | now rewrite IH]. Qed.

Lemma remove_chars_chars (cls : N -> bool) (s : str) :
  PyStr.chars (PyStr.remove_chars cls s)
  = filter (fun c => negb (cls c)) (PyStr.chars s).
Proof.
  induction s as [|c s IH]; simpl; [reflexivity|].
  destruct (cls c); simpl; now rewrite IH.
Qed.

Lemma replace_char_absent (a b : N) (s : str) :
  ~ In a (PyStr.chars s) -> PyStr.replace_char a b s = s.
Proof.
  induction s as [|c s IH]; simpl; [reflexivity|]. intros H.
  destruct (N.eqb_spec c a) as [->|_]; [exfalso; apply H; now left|].
  rewrite IH; [reflexivity|]. intros Hin. apply H. now right.
Qed.

Lemma remove_chars_absent (cls : N -> bool) (s : str) :
  (forall c, In c (PyStr.chars s) -> cls c = false) ->
  PyStr.remove_chars cls s = s.
Proof.
  induction s as [|c s IH]; simpl; [reflexivity|]. intros H.
  rewrite (H c (or_introl eq_refl)). rewrite IH; [reflexivity|].
  intros x Hx. apply H. now right.
Qed.

Lemma normalize_clean (s : str) : clean (normalize s).
Proof.
  intros c Hc. unfold normalize, strip_punctuation, replace_spaces in Hc.
  rewrite remove_chars_chars in Hc. apply filter_In in Hc as [Hc Hs].
  rewrite replace_char_chars in Hc. apply in_map_iff in Hc as (x & Ex & Hx).
  unfold PyStr.lower in Hx. rewrite chars_of_chars in Hx.
  apply lower_from_own in Hx.
  unfold clean_char. rewrite Hs, andb_true_r. subst c.
  change (" "%cp) with 32%N. change ("_"%cp) with 95%N.
  destruct (N.eqb_spec x 32) as [E|Hn].
  - reflexivity.
  - rewrite Hx. cbn [andb]. apply negb_true_iff. now apply N.eqb_neq.
Qed.

Lemma clean_own_lower (s : str) (c : N) :
  clean s -> In c (PyStr.chars s) -> own_lower c = true.
Proof.
  intros H Hc. specialize (H c Hc). unfold clean_char in H.
  apply andb_true_iff in H as [H _]. now apply andb_true_iff in H as [H _].
Qed.

(** A clean name is left as it is by each of the three steps. *)
Lemma normalize_fixed (s : str) : clean s -> normalize s = s.
Proof.
  intros H. unfold normalize, strip_punctuation, replace_spaces.
  rewrite (lower_fixed s) by (intros c Hc; exact (clean_own_lower s c H Hc)).
  rewrite replace_char_absent.
  - apply remove_chars_absent. intros c Hc. specialize (H c Hc).
    unfold clean_char in H. apply andb_true_iff in H as [_ H].
    now apply negb_true_iff.
  - intros Hin. specialize (H _ Hin). vm_compute in H. discriminate H.
Qed.

Lemma normalize_idem (s : str) : normalize (normalize s) = normalize s.
Proof. apply normalize_fixed, normalize_clean. Qed.

(* ================================================================== *)
(** * Date inference: lemmas *)

Lemma dict_get_default (d : list (str * Z)) (k : str) (v : Z) :
  (forall m, ~ In (k, m) d) -> dict_get d k v = v.
Proof.
  induction d as [|[k' x] d IH]; simpl; intros H; [reflexivity|].
  destruct (str_eqb_spec k k') as [->|_].
  - exfalso. apply (H x). now left.
  - apply IH. intros m Hm. apply (H m). now right.
Qed.

Lemma extract_short (filename : str) :
  (List.length (PyStr.split " - " filename) < 4)%nat ->
  extract_month_year_from_filename filename = Ok (1, 2025).
Proof.
  intros H. unfold extract_month_year_from_filename.
  destruct (Nat.leb_spec 4 (List.length (PyStr.split " - " filename)));
    [lia | reflexivity].
Qed.

Lemma extract_two_tokens (filename seg year_part month_part : str)
      (rest : list str) :
  fourth_segment filename = Some seg ->
  PyStr.split " " seg = year_part :: month_part :: rest ->
  extract_month_year_from_filename filename =
  (year <- py_int year_part ;; Ok (dict_get month_map month_part 1, year)).
Proof.
  unfold fourth_segment. intros Hseg Htok.
  unfold extract_month_year_from_filename.
  assert (Hlen : (4 <= List.length (PyStr.split " - " filename))%nat).
  { assert (3 < List.length (PyStr.split " - " filename))%nat; [|lia].
    apply nth_error_Some. now rewrite Hseg. }
  destruct (Nat.leb_spec 4 (List.length (PyStr.split " - " filename)));
    [|lia].
  unfold getitem. rewrite Hseg. simpl. rewrite Htok. reflexivity.
Qed.

Lemma extract_one_token (filename seg year_part : str) :
  fourth_segment filename = Some seg ->
  PyStr.split " " seg = [year_part] ->
  extract_month_year_from_filename filename = Err IndexError.
Proof.
  unfold fourth_segment. intros Hseg Htok.
  unfold extract_month_year_from_filename.
  assert (Hlen : (4 <= List.length (PyStr.split " - " filename))%nat).
  { assert (3 < List.length (PyStr.split " - " filename))%nat; [|lia].
    apply nth_error_Some. now rewrite Hseg. }
  destruct (Nat.leb_spec 4 (List.length (PyStr.split " - " filename)));
    [|lia].
  unfold getitem. rewrite Hseg. simpl. rewrite Htok. reflexivity.
Qed.

Lemma month_names_are_not_integers :
  Forall (fun kv => PyStr.int (fst kv) = None) month_map.
Proof. repeat constructor. Qed.

(* ================================================================== *)
(** * Frames: lemmas *)

Lemma cell_eqb_eq (a b : cell) : cell_eqb a b = true <-> a = b.
Proof.
  destruct a, b; simpl; split; intros H; try discriminate H; try reflexivity.
  - apply str_eqb_eq in H. now subst.
  - injection H as ->. apply str_eqb_refl.
  - apply Z.eqb_eq in H. now subst.
  - injection H as ->. apply Z.eqb_refl.
Qed.

Lemma cell_eqb_refl (a : cell) : cell_eqb a a = true.
Proof. now apply cell_eqb_eq. Qed.

Lemma existsb_label (k : cell) (cols : list cell) :
  existsb (fun c => cell_eqb c k) cols = true <-> In k cols.
Proof.
  rewrite existsb_exists. split.
  - intros (c & Hc & E). apply cell_eqb_eq in E. now subst.
  - intros H. exists k. split; [exact H | apply cell_eqb_refl].
Qed.

Section Overwrite.
Variables (cols : list cell) (k v : cell).

Lemma overwrite_length (r : list cell) :
  List.length r = List.length cols ->
  List.length (Pandas.overwrite cols k v r) = List.length cols.
Proof.
  intros H. unfold Pandas.overwrite.
  rewrite length_map, length_combine. lia.
Qed.

Lemma overwrite_nth (r : list cell) (i : nat) (c x : cell) :
  nth_error cols i = Some c -> nth_error r i = Some x ->
  nth_error (Pandas.overwrite cols k v r) i
  = Some (if cell_eqb c k then v else x).
Proof.
  unfold Pandas.overwrite. revert r i.
  induction cols as [|c0 cs IH]; intros r i Hc Hx.
  - destruct i; discriminate Hc.
  - destruct r as [|x0 r]; [destruct i; discriminate Hx|].
    destruct i as [|i]; simpl in *.
    + now injection Hc as ->; injection Hx as ->.
    + now apply IH.
Qed.
End Overwrite.

Lemma nth_error_rect {I : Type} (df : Frame I cell) (r : list cell) (i : nat) (c : cell) :
  rectangular df -> In r (values df) -> nth_error (columns df) i = Some c ->
  exists x, nth_error r i = Some x.
Proof.
  intros R Hr Hc. unfold rectangular in R. rewrite Forall_forall in R.
  specialize (R r Hr).
  destruct (nth_error r i) as [x|] eqn:E; [eauto|].
  apply nth_error_None in E.
  assert (i < List.length (columns df))%nat by (apply nth_error_Some; congruence).
  lia.
Qed.

Section SetitemScalar.
Context {I : Type}.
Variables (df : Frame I cell) (k : cell).
Hypothesis R : rectangular df.

Lemma setitem_scalar_columns (v : cell) :
  columns (Pandas.setitem_scalar df k v)
  = (columns df ++ if existsb (fun c => cell_eqb c k) (columns df) then [] else [k])%list.
Proof.
  unfold Pandas.setitem_scalar.
  destruct (existsb _ (columns df)); simpl; [now rewrite app_nil_r | reflexivity].
Qed.

Lemma setitem_scalar_In (v : cell) : In k (columns (Pandas.setitem_scalar df k v)).
Proof.
  rewrite setitem_scalar_columns.
  destruct (existsb _ (columns df)) eqn:E.
  - rewrite app_nil_r. now apply existsb_label.
  - apply in_or_app. right. now left.
Qed.

Lemma setitem_scalar_rect (v : cell) : rectangular (Pandas.setitem_scalar df k v).
Proof.
  unfold rectangular in *. rewrite Forall_forall in *.
  unfold Pandas.setitem_scalar.
  destruct (existsb _ (columns df)); simpl; intros r Hr;
    apply in_map_iff in Hr as (r0 & <- & Hr0); specialize (R r0 Hr0).
  - now apply overwrite_length.
  - rewrite !length_app. simpl. lia.
Qed.

Lemma setitem_scalar_missing (k' : cell) :
  k' = k \/ all_missing k' df ->
  all_missing k' (Pandas.setitem_scalar df k NaN).
Proof.
  intros Hk i Hi r Hr. unfold Pandas.setitem_scalar in *.
  destruct (existsb (fun c => cell_eqb c k) (columns df)) eqn:E; simpl in *;
    apply in_map_iff in Hr as (r0 & <- & Hr0).
  - destruct (nth_error_rect df r0 i k' R Hr0 Hi) as [x Hx].
    rewrite (overwrite_nth _ _ _ _ _ _ x Hi Hx).
    destruct (cell_eqb k' k) eqn:Ek; [reflexivity|].
    destruct Hk as [->|Hk]; [now rewrite cell_eqb_refl in Ek|].
    rewrite <- Hx. now apply Hk.
  - assert (L : List.length r0 = List.length (columns df)).
    { unfold rectangular in R. rewrite Forall_forall in R. now apply R. }
    destruct (Nat.lt_ge_cases i (List.length (columns df))) as [Hlt|Hge].
    + rewrite nth_error_app1 in Hi by exact Hlt.
      rewrite nth_error_app1 by lia.
      destruct Hk as [->|Hk]; [|now apply Hk].
      apply nth_error_In in Hi. apply existsb_label in Hi. congruence.
    + rewrite nth_error_app2 in Hi by exact Hge.
      rewrite nth_error_app2 by lia. rewrite L.
      destruct (i - List.length (columns df))%nat as [|n]; [reflexivity|].
      destruct n; discriminate Hi.
Qed.
End SetitemScalar.

Lemma add_placeholders_fold {I : Type} (ks : list str) (df : Frame I cell) :
  rectangular df ->
  let out := fold_left (fun d k => Pandas.setitem_scalar d (Str k) NaN) ks df in
  rectangular out
  /\ (forall k, In k ks -> In (Str k) (columns out) /\ all_missing (Str k) out)
  /\ (forall c, all_missing c df -> all_missing c out)
  /\ (exists extra, columns out = (columns df ++ extra)%list
                    /\ incl extra (map Str ks)).
Proof.
  revert df. induction ks as [|k ks IH]; intros df R; simpl.
  - repeat split; try assumption; try (intros ? []); try tauto.
    exists []. split; [now rewrite app_nil_r | intros ? []].
  - pose proof (setitem_scalar_rect df (Str k) R NaN) as R'.
    destruct (IH _ R') as (Rout & Hks & Hkeep & extra & Hcols & Hincl).
    split; [exact Rout|]. split; [|split].
    + intros k' [<-|Hk'].
      * split.
        -- rewrite Hcols. apply in_or_app. left. apply setitem_scalar_In.
        -- apply Hkeep. apply setitem_scalar_missing; [exact R | now left].
      * now apply Hks.
    + intros c Hc. apply Hkeep. apply setitem_scalar_missing; [exact R | now right].
    + rewrite Hcols, setitem_scalar_columns, <- app_assoc.
      eexists. split; [reflexivity|].
      intros c Hc. apply in_app_or in Hc as [Hc|Hc].
      * destruct (existsb _ (columns df)); [destruct Hc|].
        destruct Hc as [<-|[]]. now left.
      * right. now apply Hincl.
Qed.

Lemma str_apply_shape f c : Pandas.str_apply f c = NaN \/ exists s, Pandas.str_apply f c = Str s.
Proof. destruct c; simpl; eauto. Qed.

Lemma is_str_str_apply (f : str -> str) (c : cell) :
  is_str (Pandas.str_apply f c) = is_str c.
Proof. now destruct c. Qed.

Lemma existsb_is_str_apply (f : str -> str) (l : list cell) :
  existsb is_str (map (Pandas.str_apply f) l) = existsb is_str l.
Proof.
  induction l as [|c l IH]; [reflexivity|].
  cbn [map existsb]. now rewrite is_str_str_apply, IH.
Qed.

Lemma can_use_str_after (f : str -> str) (l : list cell) :
  Pandas.can_use_str l = true ->
  Pandas.can_use_str (map (Pandas.str_apply f) l) = true.
Proof.
  unfold Pandas.can_use_str. destruct l as [|c l]; [reflexivity|].
  rewrite existsb_is_str_apply. cbn [map]. auto.
Qed.

Lemma str_map_ok f l cols : Pandas.str_map f l = Ok cols -> cols = map (Pandas.str_apply f) l.
Proof. unfold Pandas.str_map. destruct (Pandas.can_use_str l); congruence. Qed.

Lemma set_columns_ok {I C C'} (df : Frame I C) (l : list C') df' :
  Pandas.set_columns df l = Ok df' ->
  df' = mkFrame (index df) l (values df) /\ List.length l = List.length (columns df).
Proof.
  unfold Pandas.set_columns.
  destruct (Nat.eqb_spec (List.length l) (List.length (columns df))); [|discriminate].
  intros [= <-]. now split.
Qed.

Lemma reshape_inv (month year : Z) (df : WideTable) (out : LongTable) :
  reshape month year df = Ok out ->
  let V := values (Pandas.transpose (Pandas.sort_index df)) in
  exists header stamps,
    nth_error V 0 = Some header
    /\ header <> []
    /\ Pandas.positions report_day 1 (tl (map clean_label header)) = []
    /\ Dates.parse_all (Pandas.column_at 0 (tl V)) = Ok stamps
    /\ out = add_placeholders
               (Pandas.setitem_series
                  (mkFrame (tl (columns df))
                           (report_day :: tl (map clean_label header)) (tl V))
                  report_day (map (Dates.strftime year) stamps)).
Proof.
  unfold reshape. intros H.
  apply bind_ok in H as (header & Hh & H).
  apply bind_ok in H as (df1 & H1 & H).
  apply set_columns_ok in H1 as [-> L1].
  apply bind_ok in H as (cols1 & Hc1 & H). apply str_map_ok in Hc1.
  apply bind_ok in H as (df2 & H2 & H). apply set_columns_ok in H2 as [-> L2].
  apply bind_ok in H as (cols2 & Hc2 & H). apply str_map_ok in Hc2.
  apply bind_ok in H as (df3 & H3 & H). apply set_columns_ok in H3 as [-> L3].
  apply bind_ok in H as (cols3 & Hc3 & H). apply str_map_ok in Hc3.
  apply bind_ok in H as (df4 & H4 & H). apply set_columns_ok in H4 as [-> L4].
  apply bind_ok in H as (df5 & H5 & H). apply set_columns_ok in H5 as [-> L5].
  apply bind_ok in H as (days & Hd & H).
  apply bind_ok in H as (stamps & Hs & H).
  (apply Ok_inj in H; subst out).
  cbn [columns Pandas.rename Pandas.drop_first index values] in *.
  assert (E3 : cols3 = map clean_label header).
  { subst cols3 cols2 cols1. rewrite !map_map. reflexivity. }
  rewrite E3 in *. clear Hc1 Hc2 Hc3 E3 L2 L3 L4.
  exists header, stamps.
  assert (Hpos : Pandas.positions report_day 1 (tl (map clean_label header)) = []
                 /\ days = Pandas.Series (Pandas.column_at 0
                       (tl (values (Pandas.transpose (Pandas.sort_index df)))))).
  { unfold Pandas.frame_getitem in Hd. cbn [columns values] in Hd.
    cbn [Pandas.positions] in Hd. rewrite cell_eqb_refl in Hd.
    destruct (Pandas.positions _ 1 _).
    injection Hd as <-. now split.
    injection Hd as <-.
    discriminate Hs. }
  destruct Hpos as [Hpos ->].
  split; [|split; [|split; [exact Hpos|split; [exact Hs|]]]].
  3: reflexivity.
  - unfold Pandas.iloc0, getitem in Hh.
    destruct (nth_error _ 0); congruence.
  - (intros ->; discriminate L5).
Qed.

Lemma transpose_row_length {I C : Type} (df : Frame I C) (r : list cell) :
  In r (values (Pandas.transpose df)) ->
  List.length r = List.length (values df).
Proof.
  unfold Pandas.transpose. simpl. intros H.
  apply in_map_iff in H as (j & <- & _).
  unfold Pandas.column_at. apply length_map.
Qed.

Lemma In_tl {A : Type} (x : A) (l : list A) : In x (tl l) -> In x l.
Proof. destruct l; simpl; auto. Qed.

Lemma tl_map {A B : Type} (f : A -> B) (l : list A) :
  tl (map f l) = map f (tl l).
Proof. now destruct l. Qed.

Lemma length_cons_tl {A : Type} (x : A) (l : list A) :
  l <> [] -> List.length (x :: tl l) = List.length l.
Proof. destruct l; [congruence | reflexivity]. Qed.

Lemma setitem_series_present {I : Type} (df : Frame I cell) (k : cell)
      (vals : list cell) :
  rectangular df -> In k (columns df) ->
  columns (Pandas.setitem_series df k vals) = columns df
  /\ rectangular (Pandas.setitem_series df k vals).
Proof.
  intros R Hk. unfold Pandas.setitem_series.
  apply existsb_label in Hk. rewrite Hk. simpl. split; [reflexivity|].
  unfold rectangular in *. rewrite Forall_forall in *. simpl.
  intros r Hr. apply in_map_iff in Hr as ([r0 v] & <- & Hr0).
  apply in_combine_l in Hr0. simpl. apply overwrite_length. now apply R.
Qed.

(** The frame on which the placeholders are set. *)
Lemma reshape_shape (month year : Z) (df : WideTable) (out : LongTable) :
  reshape month year df = Ok out ->
  exists header extra,
    nth_error (values (Pandas.transpose (Pandas.sort_index df))) 0 = Some header
    /\ columns out = (report_day :: tl (map clean_label header) ++ extra)%list
    /\ incl extra (map Str placeholder_columns)
    /\ rectangular out
    /\ forall k, In k placeholder_columns ->
         In (Str k) (columns out) /\ all_missing (Str k) out.
Proof.
  intros H. apply reshape_inv in H.
  destruct H as (header & stamps & Hh & Hne & _ & _ & ->).
  set (V := values (Pandas.transpose (Pandas.sort_index df))) in *.
  set (F := mkFrame (tl (columns df))
                    (report_day :: tl (map clean_label header)) (tl V)).
  assert (RF : rectangular F).
  { unfold rectangular, F. simpl. apply Forall_forall. intros r Hr.
    apply In_tl in Hr. apply transpose_row_length in Hr.
    apply nth_error_In in Hh. apply transpose_row_length in Hh.
    change (List.length r
            = List.length (report_day :: tl (map clean_label header))).
    rewrite length_cons_tl, length_map; [congruence|].
    intros E. apply map_eq_nil in E. contradiction. }
  destruct (setitem_series_present F report_day
              (map (Dates.strftime year) stamps) RF) as [Hc RB];
    [now left|].
  destruct (add_placeholders_fold placeholder_columns _ RB)
    as (Rout & Hks & _ & extra & Hcols & Hincl).
  exists header, extra. unfold add_placeholders.
  split; [exact Hh|]. split; [rewrite Hcols, Hc; reflexivity|].
  split; [exact Hincl|]. split; [exact Rout | exact Hks].
Qed.

(** ** Sorting an index that is already in order *)

Lemma sort_rows_sorted (l : list (Z * list cell)) :
  Sorted key_le l -> Pandas.sort_rows l = l.
Proof.
  induction 1 as [|x l Hs IH Hd]; [reflexivity|].
  simpl. fold (Pandas.sort_rows l). rewrite IH.
  destruct Hd as [|y l' Hxy]; [reflexivity|].
  simpl. unfold key_le in Hxy.
  destruct (Z.leb_spec (fst x) (fst y)); [reflexivity | lia].
Qed.

Lemma range_rows_sorted (rows : list (list cell)) (k : nat) :
  Sorted key_le (combine (map Z.of_nat (seq k (List.length rows))) rows).
Proof.
  revert k. induction rows as [|r rows IH]; intros k; simpl; [constructor|].
  constructor; [apply IH|].
  destruct rows; simpl; constructor. unfold key_le. simpl. lia.
Qed.

Lemma combine_fst {A B : Type} (a : list A) (b : list B) :
  List.length a = List.length b -> map fst (combine a b) = a.
Proof.
  revert b. induction a as [|x a IH]; intros [|y b] H; simpl in *;
    try discriminate; [reflexivity|]. f_equal. apply IH. lia.
Qed.

Lemma combine_snd {A B : Type} (a : list A) (b : list B) :
  List.length a = List.length b -> map snd (combine a b) = b.
Proof.
  revert b. induction a as [|x a IH]; intros [|y b] H; simpl in *;
    try discriminate; [reflexivity|]. f_equal. apply IH. lia.
Qed.

Lemma sort_index_loaded (df : WideTable) :
  as_loaded df -> Pandas.sort_index df = df.
Proof.
  unfold as_loaded. destruct df as [idx cols vals]. simpl. intros ->.
  unfold Pandas.sort_index. simpl. unfold range.
  rewrite sort_rows_sorted by apply range_rows_sorted.
  assert (L : List.length (map Z.of_nat (seq 0 (List.length vals)))
              = List.length vals) by now rewrite length_map, length_seq.
  now rewrite combine_fst, combine_snd.
Qed.

(* ================================================================== *)
(** * Aggregation: lemmas *)

Lemma list_eqb_eq (a b : list cell) : Concat.list_eqb a b = true <-> a = b.
Proof.
  revert b. induction a as [|x a IH]; intros [|y b]; simpl;
    split; intros H; try discriminate H; try reflexivity.
  - apply andb_true_iff in H as [Hx Ha].
    apply cell_eqb_eq in Hx. apply IH in Ha. now subst.
  - injection H as -> ->. apply andb_true_iff. split;
      [apply cell_eqb_refl | now apply IH].
Qed.

Lemma mem_In (c : cell) (l : list cell) : Concat.mem c l = true <-> In c l.
Proof.
  unfold Concat.mem. rewrite existsb_exists. split.
  - intros (x & Hx & E). apply cell_eqb_eq in E. now subst.
  - intros H. exists c. split; [exact H | apply cell_eqb_refl].
Qed.

Lemma fresh_sound (c : cell) (l seen : list cell) :
  In c (Concat.fresh seen l) -> In c l.
Proof.
  revert seen. induction l as [|x l IH]; intros seen; simpl; [auto|].
  destruct (Concat.mem x seen).
  - intros H. right. now apply IH in H.
  - intros [<-|H]; [now left | right; now apply IH in H].
Qed.

Lemma fresh_complete (c : cell) (l seen : list cell) :
  In c l -> In c seen \/ In c (Concat.fresh seen l).
Proof.
  revert seen. induction l as [|x l IH]; intros seen; simpl; [intros []|].
  intros [<-|H].
  - destruct (Concat.mem x seen) eqn:E; [left; now apply mem_In|].
    right. now left.
  - destruct (Concat.mem x seen) eqn:E; [now apply IH|].
    destruct (IH (x :: seen) H) as [[<-|Hs]|Hf].
    + right. now left.
    + now left.
    + right. now right.
Qed.

Lemma union_In (c : cell) (ls : list (list cell)) :
  In c (Concat.union ls) <-> exists l, In l ls /\ In c l.
Proof.
  unfold Concat.union. split.
  - intros H. apply fresh_sound in H. apply in_concat in H.
    destruct H as (l & Hl & Hc). eauto.
  - intros (l & Hl & Hc).
    destruct (fresh_complete c (List.concat ls) []) as [[]|H]; [|exact H].
    apply in_concat. eauto.
Qed.




Lemma all_equal_columns (d : LongTable) (ds : list LongTable) :
  forallb (fun d' => Concat.list_eqb (columns d') (columns d)) ds = true
  <-> same_columns (d :: ds).
Proof.
  rewrite forallb_forall. split.
  - intros H.
    assert (E : forall x, In x (d :: ds) -> columns x = columns d).
    { intros x [<-|Hx]; [reflexivity|]. now apply list_eqb_eq, H. }
    intros x y Hx Hy. now rewrite (E x Hx), (E y Hy).
  - intros H x Hx. apply list_eqb_eq. apply H; [now right | now left].
Qed.


Lemma concat_columns (dfs : list LongTable) (out : CombinedTable) (c : cell) :
  Concat.concat dfs = Ok out -> In c (columns out) ->
  exists d, In d dfs /\ In c (columns d).
Proof.
  destruct dfs as [|d ds]; [discriminate|]. unfold Concat.concat.
  destruct (forallb (fun d' => Concat.list_eqb (columns d') (columns d)) ds).
  - intros H Hc. apply Ok_inj in H. subst out. exists d. split; [now left | exact Hc].
  - destruct (forallb (fun d' => Concat.no_dup (columns d')) (d :: ds));
      [|discriminate].
    intros H Hc. apply Ok_inj in H. subst out. cbn [columns] in Hc.
    apply union_In in Hc as (l & Hl & Hc).
    apply in_map_iff in Hl as (d' & <- & Hd'). eauto.
Qed.

(* ================================================================== *)
(** * Integer literals *)

Lemma skip_c_space_split (s : list N) :
  exists ws, s = (ws ++ PyStr.skip_c_space s)%list
             /\ forallb PyStr.is_c_space ws = true.
Proof.
  induction s as [|c s (ws & E & F)]; [now exists []|].
  simpl. destruct (PyStr.is_c_space c) eqn:Ec.
  - exists (c :: ws). split; [simpl; now rewrite <- E|].
    simpl. now rewrite Ec.
  - now exists [].
Qed.

Lemma skip_c_space_nil (s : list N) :
  PyStr.skip_c_space s = [] <-> forallb PyStr.is_c_space s = true.
Proof.
  induction s as [|c s IH]; simpl; [tauto|].
  destruct (PyStr.is_c_space c); simpl; [exact IH|].
  split; discriminate.
Qed.

Lemma skip_c_space_app (ws s : list N) :
  forallb PyStr.is_c_space ws = true ->
  PyStr.skip_c_space (ws ++ s) = PyStr.skip_c_space s.
Proof.
  induction ws as [|c ws IH]; simpl; [reflexivity|].
  intros H. apply andb_true_iff in H as [Hc Hw]. rewrite Hc. now apply IH.
Qed.

Lemma digit_not_underscore (c : N) :
  PyStr.is_ascii_digit c = true -> (c =? "_"%cp)%N = false.
Proof.
  unfold PyStr.is_ascii_digit. intros H. apply andb_true_iff in H as [_ H].
  apply N.leb_le in H. apply N.eqb_neq. change ("9"%cp) with 57%N in H.
  change ("_"%cp) with 95%N. lia.
Qed.

Lemma add_digit_digit (acc : Z) (c : N) :
  PyStr.is_ascii_digit c = true ->
  add_digit acc c = 10 * acc + PyStr.digit_value c.
Proof. unfold add_digit. now intros ->. Qed.

Lemma add_digit_underscore (acc : Z) : add_digit acc "_"%cp = acc.
Proof. reflexivity. Qed.

Lemma count_digits_digit (c : N) (l : list N) :
  PyStr.is_ascii_digit c = true ->
  count_digits (c :: l) = S (count_digits l).
Proof. unfold count_digits. cbn [filter]. now intros ->. Qed.

Lemma count_digits_underscore (l : list N) :
  count_digits ("_"%cp :: l) = count_digits l.
Proof. reflexivity. Qed.

Lemma scan_digits_digit (acc : Z) (count : nat) (prev : bool) (c : N)
      (s : list N) :
  PyStr.is_ascii_digit c = true ->
  PyStr.scan_digits acc count prev (c :: s)
  = PyStr.scan_digits (10 * acc + PyStr.digit_value c) (S count) true s.
Proof. cbn [PyStr.scan_digits]. now intros ->. Qed.

Lemma scan_digits_underscore (acc : Z) (count : nat) (s : list N) :
  PyStr.scan_digits acc count true ("_"%cp :: s)
  = PyStr.scan_digits acc count false s.
Proof. reflexivity. Qed.

Lemma scan_digits_end (acc : Z) (count : nat) (rest : list N) :
  ends_run rest ->
  PyStr.scan_digits acc count true rest = Some (acc, count, rest).
Proof.
  destruct rest as [|x rest]; [reflexivity|]. intros [Hd Hu].
  cbn [PyStr.scan_digits]. rewrite Hd. apply N.eqb_neq in Hu.
  now rewrite Hu.
Qed.

Lemma scan_digit_run (l : list N) :
  digit_run l ->
  forall acc count prev rest, ends_run rest ->
    PyStr.scan_digits acc count prev (l ++ rest)
    = Some (fold_left add_digit l acc, (count + count_digits l)%nat, rest).
Proof.
  induction 1 as [c Hc|c l Hc Hl IH|c l Hc Hl IH];
    intros acc count prev rest Hr; cbn [app fold_left].
  - rewrite (scan_digits_digit _ _ _ _ _ Hc), (scan_digits_end _ _ _ Hr).
    rewrite (add_digit_digit _ _ Hc), (count_digits_digit _ _ Hc).
    change (count_digits []) with O. now rewrite Nat.add_1_r.
  - rewrite (scan_digits_digit _ _ _ _ _ Hc), (IH _ _ _ rest Hr).
    rewrite (add_digit_digit _ _ Hc), (count_digits_digit _ _ Hc).
    now rewrite Nat.add_succ_r.
  - rewrite (scan_digits_digit _ _ _ _ _ Hc), scan_digits_underscore.
    rewrite (IH _ _ _ rest Hr).
    rewrite (add_digit_digit _ _ Hc), add_digit_underscore.
    rewrite (count_digits_digit _ _ Hc), count_digits_underscore.
    now rewrite Nat.add_succ_r.
Qed.

Lemma scan_digits_inv (s : list N) :
  forall acc count prev v n rest,
    PyStr.scan_digits acc count prev s = Some (v, n, rest) ->
    exists l,
      s = (l ++ rest)%list
      /\ v = fold_left add_digit l acc
      /\ n = (count + count_digits l)%nat
      /\ ends_run rest
      /\ (if prev
          then l = [] \/ digit_run l
               \/ exists l', l = "_"%cp :: l' /\ digit_run l'
          else digit_run l).
Proof.
  induction s as [|c s IH]; intros acc count prev v n rest H.
  - simpl in H. destruct prev; [|discriminate H].
    injection H as <- <- <-. exists [].
    split; [reflexivity|]. split; [reflexivity|].
    split; [now rewrite Nat.add_0_r|]. split; [exact I | now left].
  - cbn [PyStr.scan_digits] in H.
    destruct (PyStr.is_ascii_digit c) eqn:Hc.
    + apply IH in H as (l & -> & -> & -> & Hr & Hl).
      exists (c :: l). split; [reflexivity|].
      split; [cbn [fold_left]; now rewrite (add_digit_digit _ _ Hc)|].
      split; [rewrite (count_digits_digit _ _ Hc);
              now rewrite Nat.add_succ_r|].
      split; [exact Hr|].
      assert (R : digit_run (c :: l)).
      { destruct Hl as [->|[Hl|(l' & -> & Hl')]].
        - now apply run_one.
        - now apply run_cons.
        - now apply run_under. }
      destruct prev; [right; now left | exact R].
    + destruct (N.eqb_spec c "_"%cp) as [->|Hu].
      * destruct prev; [|discriminate H].
        apply IH in H as (l & -> & -> & -> & Hr & Hl).
        exists ("_"%cp :: l). split; [reflexivity|].
        split; [reflexivity|]. split; [reflexivity|].
        split; [exact Hr|]. right. right. now exists l.
      * destruct prev; [|discriminate H].
        injection H as <- <- <-. exists [].
        split; [reflexivity|]. split; [reflexivity|].
        split; [now rewrite Nat.add_0_r|].
        split; [now split | now left].
Qed.

Lemma digit_run_head (l : list N) :
  digit_run l -> exists c l', l = c :: l' /\ PyStr.is_ascii_digit c = true.
Proof. intros [c H|c l' H _|c l' H _]; eauto. Qed.

Lemma c_space_not_digit (c : N) :
  PyStr.is_c_space c = true ->
  PyStr.is_ascii_digit c = false /\ c <> "_"%cp /\ c <> "+"%cp /\ c <> "-"%cp.
Proof.
  unfold PyStr.is_c_space, PyStr.is_ascii_digit.
  change ("0"%cp) with 48%N. change ("9"%cp) with 57%N.
  change ("_"%cp) with 95%N. change ("+"%cp) with 43%N.
  change ("-"%cp) with 45%N.
  intros H. apply orb_true_iff in H as [H|H].
  - apply andb_true_iff in H as [_ H]. apply N.leb_le in H.
    split; [|lia]. apply andb_false_iff. left. apply N.leb_gt. lia.
  - apply N.eqb_eq in H. subst c. repeat split; discriminate.
Qed.

Lemma digit_props (c : N) :
  PyStr.is_ascii_digit c = true ->
  PyStr.is_c_space c = false /\ c <> "+"%cp /\ c <> "-"%cp.
Proof.
  unfold PyStr.is_c_space, PyStr.is_ascii_digit.
  change ("0"%cp) with 48%N. change ("9"%cp) with 57%N.
  change ("+"%cp) with 43%N. change ("-"%cp) with 45%N.
  intros H. apply andb_true_iff in H as [H1 H2].
  apply N.leb_le in H1. apply N.leb_le in H2.
  split; [|lia]. apply orb_false_iff. split.
  - apply andb_false_iff. right. apply N.leb_gt. lia.
  - apply N.eqb_neq. lia.
Qed.

Lemma ends_run_spaces (ws : list N) :
  forallb PyStr.is_c_space ws = true -> ends_run ws.
Proof.
  destruct ws as [|c ws]; [exact (fun _ => I)|]. simpl.
  intros H. apply andb_true_iff in H as [H _].
  destruct (c_space_not_digit c H) as (Hd & Hu & _). now split.
Qed.

Lemma parse_int_sign (s : list N) :
  PyStr.parse_int s =
  match PyStr.skip_c_space s with
  | c :: s' =>
      if (c =? "+"%cp)%N then parse_digits false s'
      else if (c =? "-"%cp)%N then parse_digits true s'
      else parse_digits false (c :: s')
  | [] => parse_digits false []
  end.
Proof.
  unfold PyStr.parse_int, parse_digits.
  destruct (PyStr.skip_c_space s) as [|c s']; [reflexivity|].
  destruct (c =? "+"%cp)%N; [reflexivity|].
  destruct (c =? "-"%cp)%N; reflexivity.
Qed.

Lemma parse_digits_inv (negative : bool) (s2 : list N) (z : Z) :
  parse_digits negative s2 = Some z ->
  exists body ws2,
    s2 = (body ++ ws2)%list
    /\ forallb PyStr.is_c_space ws2 = true
    /\ digit_run body
    /\ (count_digits body <= 4300)%nat
    /\ z = (if negative then - value_of body else value_of body).
Proof.
  unfold parse_digits. intros H.
  destruct (PyStr.scan_digits 0 0 false s2) as [[[v count] s3]|] eqn:Es;
    [|discriminate H].
  destruct (Nat.leb_spec count PyStr.int_max_str_digits) as [Hn|];
    [|discriminate H].
  destruct (PyStr.skip_c_space s3) eqn:E3; [|discriminate H].
  injection H as <-.
  apply scan_digits_inv in Es as (body & -> & -> & -> & _ & Hb).
  apply skip_c_space_nil in E3.
  exists body, s3. repeat split; auto.
Qed.

Lemma parse_digits_run (negative : bool) (body ws2 : list N) :
  digit_run body -> forallb PyStr.is_c_space ws2 = true ->
  (count_digits body <= 4300)%nat ->
  parse_digits negative (body ++ ws2)
  = Some (if negative then - value_of body else value_of body).
Proof.
  intros Hb Hw Hn. unfold parse_digits.
  rewrite (scan_digit_run body Hb 0 O false ws2 (ends_run_spaces _ Hw)).
  cbn [Nat.add].
  assert (Hle : (count_digits body <=? PyStr.int_max_str_digits)%nat = true)
    by now apply Nat.leb_le.
  rewrite Hle. apply skip_c_space_nil in Hw. now rewrite Hw.
Qed.

(** [int] reads exactly the integer literals, and gives their value. *)
Lemma int_literal_spec (s : str) (z : Z) :
  PyStr.int s = Some z <-> int_literal s z.
Proof.
  unfold PyStr.int, int_literal.
  set (t := map PyStr.to_ascii_digit_or_space (PyStr.chars s)).
  clearbody t. rewrite parse_int_sign. split.
  - intros H.
    destruct (skip_c_space_split t) as (ws1 & Et & Hw1).
    destruct (PyStr.skip_c_space t) as [|c s1'].
    + apply parse_digits_inv in H as (body & ws2 & E & Hw2 & Hb & Hn & ->).
      exists ws1, [], body, ws2.
      split; [rewrite Et; f_equal; exact E|]. repeat split; auto.
    + destruct (N.eqb_spec c "+"%cp) as [->|Hp];
        [|destruct (N.eqb_spec c "-"%cp) as [->|Hm]];
        apply parse_digits_inv in H as (body & ws2 & E & Hw2 & Hb & Hn & ->).
      * exists ws1, ["+"%cp], body, ws2.
        split; [rewrite Et; f_equal; cbn [app]; now rewrite E|].
        repeat split; auto.
      * exists ws1, ["-"%cp], body, ws2.
        split; [rewrite Et; f_equal; cbn [app]; now rewrite E|].
        repeat split; auto.
      * exists ws1, [], body, ws2.
        split; [rewrite Et; f_equal; exact E|]. repeat split; auto.
  - intros (ws1 & sign & body & ws2 & -> & Hw1 & Hw2 & Hb & Hn & Hz).
    destruct (digit_run_head body Hb) as (c & body' & Eb & Hc).
    destruct (digit_props c Hc) as (Hsp & Hp & Hm).
    rewrite (skip_c_space_app ws1 _ Hw1).
    destruct Hz as [[[->| ->] ->]|[-> ->]]; cbn [app].
    + rewrite Eb. cbn [app PyStr.skip_c_space]. rewrite Hsp.
      apply N.eqb_neq in Hp. apply N.eqb_neq in Hm. rewrite Hp, Hm.
      change (c :: body' ++ ws2)%list with ((c :: body') ++ ws2)%list.
      rewrite <- Eb. now apply parse_digits_run.
    + change (PyStr.skip_c_space ("+"%cp :: body ++ ws2))
        with ("+"%cp :: body ++ ws2)%list.
      cbv iota. change ("+"%cp =? "+"%cp)%N with true. cbv iota.
      now apply parse_digits_run.
    + change (PyStr.skip_c_space ("-"%cp :: body ++ ws2))
        with ("-"%cp :: body ++ ws2)%list.
      cbv iota. change ("-"%cp =? "+"%cp)%N with false.
      change ("-"%cp =? "-"%cp)%N with true. cbv iota.
      now apply parse_digits_run.
Qed.

(** ** The loop of [transform_all_files] *)

Lemma process_file_loop (w : World) (files : list str)
      (acc : list LongTable) :
  fold_left (process_file w) files acc = (acc ++ successes w files)%list.
Proof.
  revert acc. induction files as [|f files IH]; intros acc; simpl.
  - now rewrite app_nil_r.
  - rewrite IH. unfold process_file.
    destruct (transform_csv w f); [now rewrite <- app_assoc | reflexivity].
Qed.

Lemma transform_all_files_eq (w : World) :
  transform_all_files w =
  (csv_files <- get_csv_files w ;;
   match csv_files with
   | [] => Err FileNotFoundError
   | _ :: _ =>
       match successes w csv_files with
       | [] => Err ValueError
       | ok => Concat.concat ok
       end
   end).
Proof.
  unfold transform_all_files.
  destruct (get_csv_files w) as [files|e]; [|reflexivity]. cbn [bind].
  rewrite process_file_loop. cbn [app].
  destruct files as [|f files]; [reflexivity|].
  cbn [is_empty]. now destruct (successes w (f :: files)).
Qed.

Lemma transform_all_files_found (w : World) (files : list str) :
  get_csv_files w = Ok files ->
  transform_all_files w =
  match files with
  | [] => Err FileNotFoundError
  | _ :: _ =>
      match successes w files with
      | [] => Err ValueError
      | ok => Concat.concat ok
      end
  end.
Proof. intros H. now rewrite transform_all_files_eq, H. Qed.

Lemma transform_all_files_ok (w : World) (out : CombinedTable) :
  transform_all_files w = Ok out ->
  exists f files d ds,
    get_csv_files w = Ok (f :: files)
    /\ successes w (f :: files) = d :: ds
    /\ Concat.concat (d :: ds) = Ok out.
Proof.
  rewrite transform_all_files_eq.
  destruct (get_csv_files w) as [[|f files]|e]; try discriminate.
  cbn [bind]. destruct (successes w (f :: files)) as [|d ds] eqn:E;
    [discriminate|].
  intros H. now exists f, files, d, ds.
Qed.

Lemma successes_In (w : World) (files : list str) (d : LongTable) :
  In d (successes w files) ->
  exists f, In f files /\ transform_csv w f = Ok d.
Proof.
  induction files as [|f files IH]; simpl; [intros []|].
  destruct (transform_csv w f) as [d0|e] eqn:E.
  - intros [<-|H]; [exists f; auto|].
    destruct (IH H) as (f' & Hf' & Hd). eauto.
  - intros H. destruct (IH H) as (f' & Hf' & Hd). eauto.
Qed.

Lemma successes_none (w : World) (files : list str) :
  (forall f, In f files -> raises (transform_csv w f)) ->
  successes w files = [].
Proof.
  induction files as [|f files IH]; intros H; simpl; [reflexivity|].
  destruct (H f (or_introl eq_refl)) as [e ->].
  apply IH. intros f' Hf'. apply H. now right.
Qed.

Lemma transform_csv_reshape (w : World) (p : str) (d : LongTable) :
  transform_csv w p = Ok d ->
  exists df month year,
    read_csv w p = Ok df
    /\ extract_month_year_from_filename (PyStr.basename p) = Ok (month, year)
    /\ reshape month year df = Ok d.
Proof.
  unfold transform_csv. intros H.
  apply bind_ok in H as (df & Hdf & H).
  apply bind_ok in H as ([month year] & Hmy & H).
  exists df, month, year. auto.
Qed.

(* ================================================================== *)
(** * The date inferred from a file name *)

Example split_documented_name :
  PyStr.split " - " documented_name
  = ["Ghana"; "Marketing_Growth 360 Report"; "2025"; "June 2025 Overview.csv"].
Proof. reflexivity. Qed.

Example split_blanks : PyStr.split " " "a  b " = ["a"; ""; "b"; ""].
Proof. reflexivity. Qed.

Example int_literals :
  PyStr.int "2025" = Some 2025 /\ PyStr.int " +1_000 " = Some 1000
  /\ PyStr.int "-007" = Some (-7) /\ PyStr.int "1__0" = None
  /\ PyStr.int "June" = None /\ PyStr.int "" = None.
Proof. repeat split. Qed.

Example extract_year_first :
  extract_month_year_from_filename june_name = Ok (6, 2025).
Proof. reflexivity. Qed.

(** C1.  On the file name the source and the specification quote,
    "Ghana - Marketing_Growth 360 Report - 2025 - June 2025 Overview.csv",
    [extract_month_year_from_filename] does not return (6, 2025): the
    fourth segment is "June 2025 Overview.csv", its first token "June" is
    taken for the year, and [int("June")] raises [ValueError]. *)
Theorem documented_name_raises :
  fourth_segment documented_name = Some "June 2025 Overview.csv"
  /\ PyStr.split " " "June 2025 Overview.csv" = ["June"; "2025"; "Overview.csv"]
  /\ extract_month_year_from_filename documented_name = Err ValueError.
Proof. repeat split. Qed.

(** Every name that follows the convention with a month of [month_map]
    in front of the year is refused in the same way. *)
Lemma month_first_raises (filename seg month_name year_text : str)
      (rest : list str) (m : Z) :
  fourth_segment filename = Some seg ->
  PyStr.split " " seg = month_name :: year_text :: rest ->
  In (month_name, m) month_map ->
  extract_month_year_from_filename filename = Err ValueError.
Proof.
  intros Hseg Htok Hm.
  rewrite (extract_two_tokens _ _ _ _ _ Hseg Htok).
  pose proof month_names_are_not_integers as F.
  rewrite Forall_forall in F. specialize (F _ Hm). simpl in F.
  unfold py_int. now rewrite F.
Qed.

(** C6, as stated, fails.  Both names below have four segments and a
    first white-space token, "2025", that is an integer literal; the
    first raises [IndexError] because the fourth segment has no second
    token, the second raises [ValueError] because the source cuts the
    segment at blanks only and hands "2025<TAB>June" to [int]. *)
Lemma numeric_year_token_raises :
  (fourth_segment bare_year_name = Some "2025"
   /\ PyStr.int (first_whitespace_token "2025") = Some 2025
   /\ extract_month_year_from_filename bare_year_name = Err IndexError)
  /\ (fourth_segment tabbed_name = Some ("2025" ++ TAB ++ "June x")
      /\ PyStr.int (first_whitespace_token ("2025" ++ TAB ++ "June x"))
         = Some 2025
      /\ extract_month_year_from_filename tabbed_name = Err ValueError).
Proof. repeat split. Qed.

(** Hence the year token, read as the first white-space token, does not
    decide whether the call raises. *)
Lemma year_token_does_not_decide :
  ~ (forall filename seg,
        fourth_segment filename = Some seg ->
        (raises (extract_month_year_from_filename filename)
         <-> PyStr.int (first_whitespace_token seg) = None)).
Proof.
  intros H. destruct (H bare_year_name "2025" eq_refl) as [H1 _].
  assert (R : raises (extract_month_year_from_filename bare_year_name))
    by (exists IndexError; reflexivity).
  apply H1 in R. discriminate R.
Qed.

Lemma int_refuses (s : str) :
  PyStr.int s = None <-> ~ exists z, int_literal s z.
Proof.
  split.
  - intros H [z Hz]. apply int_literal_spec in Hz. congruence.
  - intros H. destruct (PyStr.int s) as [z|] eqn:E; [|reflexivity].
    exfalso. apply H. exists z. now apply int_literal_spec.
Qed.

(** Digits of any script count as digits, and a literal of more than
    4300 digits is refused. *)
Example int_unicode_and_limit :
  PyStr.int fullwidth_2025 = Some 2025
  /\ extract_month_year_from_filename fullwidth_name = Ok (6, 2025)
  /\ PyStr.int (repeat_char "1"%cp 4301) = None
  /\ extract_month_year_from_filename long_year_name = Err ValueError.
Proof. vm_compute. repeat split. Qed.

(** C6, amended.  With fewer than four segments the result is (1, 2025).
    With four or more, when the fourth segment holds at least one blank,
    so that cutting it at blanks gives [year_part], [month_part] and
    possibly more: the call raises exactly when [year_part] is no integer
    literal (white space, an optional sign, at most 4300 decimal digits
    of any script with single underscores allowed between them, white
    space), the exception is then [ValueError], and otherwise the result
    is the month the table gives for [month_part], 1 when the table does
    not have it, with the value of the literal as year. *)
Theorem extract_month_year_cases (filename : str) :
  ((List.length (PyStr.split " - " filename) < 4)%nat ->
   extract_month_year_from_filename filename = Ok (1, 2025))
  /\ (forall seg year_part month_part rest,
        fourth_segment filename = Some seg ->
        PyStr.split " " seg = year_part :: month_part :: rest ->
        (raises (extract_month_year_from_filename filename)
         <-> ~ exists year, int_literal year_part year)
        /\ (extract_month_year_from_filename filename = Err ValueError
            <-> ~ exists year, int_literal year_part year)
        /\ (forall year, int_literal year_part year ->
              extract_month_year_from_filename filename
              = Ok (dict_get month_map month_part 1, year))
        /\ ((forall m, ~ In (month_part, m) month_map) ->
            dict_get month_map month_part 1 = 1)).
Proof.
  split; [apply extract_short|].
  intros seg year_part month_part rest Hseg Htok.
  rewrite (extract_two_tokens _ _ _ _ _ Hseg Htok). unfold py_int.
  rewrite <- int_refuses.
  destruct (PyStr.int year_part) as [year|] eqn:E; cbn [bind].
  - split; [split; [intros [e He]; discriminate He | discriminate]|].
    split; [split; discriminate|].
    split; [|apply dict_get_default].
    intros y Hy. apply int_literal_spec in Hy. congruence.
  - split; [split; [reflexivity | intros _; apply raises_err]|].
    split; [split; reflexivity|].
    split; [|apply dict_get_default].
    intros y Hy. apply int_literal_spec in Hy. congruence.
Qed.

Lemma extract_month_year_cases_witness :
  extract_month_year_from_filename "report.csv" = Ok (1, 2025)
  /\ extract_month_year_from_filename "a - b - c - 2025 Juno x.csv"
     = Ok (1, 2025)
  /\ extract_month_year_from_filename "a - b - c - MMXXV June x.csv"
     = Err ValueError.
Proof.
  split; [|split].
  - apply (proj1 (extract_month_year_cases "report.csv")). vm_compute. lia.
  - destruct (proj2 (extract_month_year_cases "a - b - c - 2025 Juno x.csv")
                "2025 Juno x.csv" "2025" "Juno" ["x.csv"]
                eq_refl eq_refl) as (_ & _ & H & _).
    apply (H 2025). apply int_literal_spec. reflexivity.
  - destruct (proj2 (extract_month_year_cases "a - b - c - MMXXV June x.csv")
                "MMXXV June x.csv" "MMXXV" "June" ["x.csv"]
                eq_refl eq_refl) as (_ & H & _).
    apply H. apply int_refuses. reflexivity.
Defined.

(* ================================================================== *)
(** * The transform of one report: results *)

Example strptime_samples :
  Dates.strptime_B_d "June 1" = Ok (1900, 6, 1)
  /\ Dates.strptime_B_d "JUNE   07" = Ok (1900, 6, 7)
  /\ Dates.strptime_B_d "December 31" = Ok (1900, 12, 31)
  /\ Dates.strptime_B_d "June 31" = Err ValueError
  /\ Dates.strptime_B_d "February 29" = Err ValueError
  /\ Dates.strptime_B_d "Jun 3" = Err ValueError
  /\ Dates.strptime_B_d "June 3 " = Err ValueError.
Proof. repeat split. Qed.

(** C2, as stated, fails.  A frame whose columns are labelled "June 1"
    and "June 2" and whose rows are the metrics "Cost Growth" and
    "Installs" is not reshaped: the transposed frame has the day labels as
    row labels, the first metric column is renamed [report_day], and its
    figures are not dates. *)
Lemma days_in_header_raises :
  reshape 6 2025 (days_in_header "Metric" (Num 10) (Num 20) (Num 5) (Num 6))
  = Err ValueError.
Proof. reflexivity. Qed.

(** With this layout no figures help: a result never has the column
    "cost_digital". *)
Lemma days_in_header_no_cost_digital
      (metric : str) (a1 a2 b1 b2 : cell) (out : LongTable) :
  reshape 6 2025 (days_in_header metric a1 a2 b1 b2) = Ok out ->
  ~ In (Str "cost_digital") (columns out).
Proof.
  intros H Hin.
  destruct (reshape_shape _ _ _ _ H) as (header & extra & Hh & Hc & Hi & _).
  injection Hh as <-. rewrite Hc in Hin.
  cbn [map tl clean_label Pandas.column_at nth days_in_header values
       Pandas.sort_index Pandas.sort_rows combine index fold_right
       Pandas.insert_row fst snd Z.leb Z.compare app] in Hin.
  destruct Hin as [E|[E|Hin]]; try discriminate E.
  apply Hi in Hin. simpl in Hin.
  repeat (destruct Hin as [E|Hin]; [discriminate E|]). destruct Hin.
Qed.

(** C2, amended.  The report as loaded in which, under the header line,
    the first row holds the day labels "June 1", "June 2" and the next rows
    are the metrics "Cost Growth" and "Installs": whatever its header
    line, its corner cell and its figures, reshaped with the inferred date
    (6, 2025) it gives a frame whose [report_day] column is "2025-06-01",
    "2025-06-02" and which has a column "cost_digital". *)
Theorem reshape_june_report (h0 h1 h2 : str) (corner a1 a2 b1 b2 : cell) :
  exists out,
    reshape 6 2025 (june_report h0 h1 h2 corner a1 a2 b1 b2) = Ok out
    /\ Pandas.frame_getitem out report_day
       = Ok (Pandas.Series [Str "2025-06-01"; Str "2025-06-02"])
    /\ In (Str "cost_digital") (columns out)
    /\ out = mkFrame [h1; h2]
               (map Str ("report_day" :: "cost_digital" :: "installs"
                           :: placeholder_columns))
               [ [Str "2025-06-01"; a1; b1; NaN; NaN; NaN; NaN; NaN; NaN];
                 [Str "2025-06-02"; a2; b2; NaN; NaN; NaN; NaN; NaN; NaN] ].
Proof.
  eexists. split; [destruct corner; vm_compute; reflexivity|].
  split; [reflexivity|]. split; [|reflexivity].
  right. left. reflexivity.
Qed.

(** C5.  Whenever the reshape succeeds, each of the six placeholder
    names labels a column of the result, and every column under such a
    name holds the missing marker in every row, also when the report had
    a metric of that name. *)
Theorem placeholders_present_and_missing
        (month year : Z) (df : WideTable) (out : LongTable) :
  reshape month year df = Ok out ->
  forall k, In k placeholder_columns ->
    In (Str k) (columns out)
    /\ forall i, nth_error (columns out) i = Some (Str k) ->
       forall r, In r (values out) -> nth_error r i = Some NaN.
Proof.
  intros H k Hk.
  destruct (reshape_shape _ _ _ _ H) as (header & extra & _ & _ & _ & _ & Hp).
  exact (Hp k Hk).
Qed.

Lemma placeholders_present_and_missing_witness :
  let out :=
    mkFrame ["y"]
      (map Str [ "report_day"; "signupfirst_dis"; "new_install_first_dis";
                 "cac_incl_branding"; "first_disbursement_all";
                 "fsfirst_disb"; "first_disbursement_fidobiz" ])
      [[Str "2025-06-01"; NaN; NaN; NaN; NaN; NaN; NaN]] in
  reshape 6 2025 report_with_placeholder_name = Ok out
  /\ forall k, In k placeholder_columns ->
       In (Str k) (columns out)
       /\ forall i, nth_error (columns out) i = Some (Str k) ->
          forall r, In r (values out) -> nth_error r i = Some NaN.
Proof.
  split; [reflexivity|].
  exact (placeholders_present_and_missing 6 2025
           report_with_placeholder_name _ eq_refl).
Defined.

(** ** Column names *)

Lemma clean_label_str (c : cell) (s : str) :
  clean_label c = Str s -> exists s0, s = normalize s0.
Proof.
  destruct c as [|s0|z]; try discriminate. unfold clean_label. simpl.
  intros [= <-]. now exists (Pandas.lookup_str renames s0).
Qed.

Lemma fixed_names_clean (s : str) :
  In s ("report_day" :: placeholder_columns) -> clean s.
Proof.
  intros H.
  assert (E : normalize s = s).
  { simpl in H. repeat (destruct H as [<-|H]; [vm_compute; reflexivity|]).
    destruct H. }
  rewrite <- E. apply normalize_clean.
Qed.

Lemma reshape_names_clean (month year : Z) (df : WideTable)
      (out : LongTable) (s : str) :
  reshape month year df = Ok out -> In (Str s) (columns out) -> clean s.
Proof.
  intros H Hs.
  destruct (reshape_shape _ _ _ _ H) as (header & extra & _ & Hc & Hi & _).
  rewrite Hc in Hs. destruct Hs as [E|Hs].
  - injection E as <-. apply fixed_names_clean. now left.
  - apply in_app_or in Hs as [Hs|Hs].
    + apply In_tl in Hs. apply in_map_iff in Hs as (c & Ec & _).
      apply clean_label_str in Ec as [s0 ->]. apply normalize_clean.
    + apply Hi in Hs. apply in_map_iff in Hs as (k & [= ->] & Hk).
      apply fixed_names_clean. now right.
Qed.

(** C7, as stated, fails.  A metric named with U+03D2, the Greek
    upsilon with hook, and " Cost" gives a column whose name still has
    that upper-case letter: it has no lower-case form, and [str.lower]
    leaves it as it is. *)
Lemma upper_case_name_survives :
  as_loaded upsilon_report
  /\ exists out,
       reshape 6 2025 upsilon_report = Ok out
       /\ In (Str (String UPSILON_WITH_HOOK "_cost")) (columns out)
       /\ has_upper (String UPSILON_WITH_HOOK "_cost")
       /\ Unicode.is_upper UPSILON_WITH_HOOK = true
       /\ Unicode.lower_full UPSILON_WITH_HOOK = [UPSILON_WITH_HOOK].
Proof.
  split; [reflexivity|]. eexists. split; [vm_compute; reflexivity|].
  split; [right; left; reflexivity|].
  split; [exists UPSILON_WITH_HOOK; split; [now left | reflexivity]|].
  split; reflexivity.
Qed.

(** C7, amended.  In the frame a successful reshape returns, and in the
    frame [transform_all_files] returns, every column name (a label that
    is a string) is made of characters that are their own lower-case
    form, so that [str.lower] leaves the name as it is, and has no blank
    and none of the characters [+ - . /]. *)
Theorem column_names_are_clean :
  (forall month year df out s,
      reshape month year df = Ok out -> In (Str s) (columns out) ->
      clean s /\ PyStr.lower s = s)
  /\ (forall w out s,
         transform_all_files w = Ok out -> In (Str s) (columns out) ->
         clean s /\ PyStr.lower s = s).
Proof.
  assert (L : forall s, clean s -> clean s /\ PyStr.lower s = s).
  { intros s H. split; [exact H|]. apply lower_fixed.
    intros c Hc. exact (clean_own_lower s c H Hc). }
  split.
  - intros month year df out s H Hs. apply L.
    exact (reshape_names_clean _ _ _ _ _ H Hs).
  - intros w out s H Hs. apply L.
    apply transform_all_files_ok in H
      as (f & files & d & ds & _ & Es & H).
    destruct (concat_columns _ _ _ H Hs) as (d' & Hd' & Hc).
    rewrite <- Es in Hd'. apply successes_In in Hd' as (p & _ & Hp).
    apply transform_csv_reshape in Hp as (df & month & year & _ & _ & Hr).
    exact (reshape_names_clean _ _ _ _ _ Hr Hc).
Qed.

Lemma column_names_are_clean_witness :
  (clean "cost_digital" /\ PyStr.lower "cost_digital" = "cost_digital")
  /\ (clean "installs" /\ PyStr.lower "installs" = "installs").
Proof.
  split.
  - apply (proj1 column_names_are_clean 6 2025 good_report
             (mkFrame ["Unnamed: 1"; "Unnamed: 2"]
                (map Str ("report_day" :: "cost_digital" :: "installs"
                            :: placeholder_columns))
                [ [Str "2025-06-01"; Str "10"; Str "5"; NaN; NaN; NaN; NaN; NaN; NaN];
                  [Str "2025-06-02"; Str "20"; Str "6"; NaN; NaN; NaN; NaN; NaN; NaN] ])
             "cost_digital").
    + vm_compute. reflexivity.
    + right. left. reflexivity.
  - apply (proj2 column_names_are_clean mixed_folder
             (mkFrame [0; 1]
                (map Str ("report_day" :: "cost_digital" :: "installs"
                            :: placeholder_columns))
                [ [Str "2025-06-01"; Str "10"; Str "5"; NaN; NaN; NaN; NaN; NaN; NaN];
                  [Str "2025-06-02"; Str "20"; Str "6"; NaN; NaN; NaN; NaN; NaN; NaN] ])
             "installs").
    + vm_compute. reflexivity.
    + right. right. left. reflexivity.
Defined.

(** C9.  Cleaning a column name twice gives what cleaning it once
    gives. *)
Theorem normalize_idempotent (s : str) :
  normalize (normalize s) = normalize s.
Proof. apply normalize_idem. Qed.

Example normalize_samples :
  normalize "Cost Digital" = "cost_digital"
  /\ normalize "Cost offline " = "cost_offline_"
  /\ normalize "CAC (incl. Branding)" = "cac_(incl_branding)"
  /\ normalize "Sign-up/First Dis." = "signupfirst_dis".
Proof. repeat split. Qed.

Lemma clean_label_idempotent (c : cell) :
  clean_label (clean_label c) = clean_label c.
Proof.
  destruct c as [|s|z]; try reflexivity.
  unfold clean_label. simpl.
  change (Str (normalize (Pandas.lookup_str renames
                            (normalize (Pandas.lookup_str renames s))))
          = Str (normalize (Pandas.lookup_str renames s))).
  f_equal.
  assert (E : forall t, clean t -> Pandas.lookup_str renames t = t).
  { intros t Ht. simpl.
    destruct (str_eqb_spec t "Cost Growth") as [->|_].
    - specialize (Ht "C"%cp (or_introl eq_refl)). vm_compute in Ht.
      discriminate Ht.
    - destruct (str_eqb_spec t "Cost Marketing ") as [->|_]; [|reflexivity].
      specialize (Ht "C"%cp (or_introl eq_refl)). vm_compute in Ht.
      discriminate Ht. }
  rewrite E by apply normalize_clean. apply normalize_idem.
Qed.

(** ** Row order *)

(** C8, as stated, fails.  The two reports below are as loaded, have the
    same header line and the same row of day labels, and differ only in
    the order of their two metric rows; their reshaped frames differ. *)
Lemma metric_row_order_matters :
  as_loaded good_report
  /\ as_loaded (june_report_swapped "Unnamed: 0" "Unnamed: 1" "Unnamed: 2"
                  NaN (Str "10") (Str "20") (Str "5") (Str "6"))
  /\ Permutation
       (values good_report)
       (values (june_report_swapped "Unnamed: 0" "Unnamed: 1" "Unnamed: 2"
                  NaN (Str "10") (Str "20") (Str "5") (Str "6")))
  /\ reshape 6 2025 good_report
     <> reshape 6 2025
          (june_report_swapped "Unnamed: 0" "Unnamed: 1" "Unnamed: 2"
             NaN (Str "10") (Str "20") (Str "5") (Str "6")).
Proof.
  split; [reflexivity|]. split; [reflexivity|]. split.
  - apply perm_skip. apply perm_swap.
  - vm_compute. discriminate.
Qed.

Lemma first_transposed_row {I C : Type} (df : Frame I C) (header : list cell) :
  nth_error (values (Pandas.transpose df)) 0 = Some header ->
  header = Pandas.column_at 0 (values df).
Proof.
  unfold Pandas.transpose. simpl.
  destruct (List.length (columns df)); simpl; congruence.
Qed.

(** C8, amended.  The sort is on the integer row labels, so a report as
    loaded (labels 0..n-1) is left as it is, and the columns of the result
    come in the order of the rows of the report: after [report_day], the
    cleaned first cells of the rows below the first, then the
    placeholders not yet present. *)
Theorem reshape_keeps_row_order
        (month year : Z) (df : WideTable) (out : LongTable) :
  as_loaded df -> reshape month year df = Ok out ->
  Pandas.sort_index df = df
  /\ exists extra,
       columns out
       = (report_day
            :: map clean_label (tl (Pandas.column_at 0 (values df)))
            ++ extra)%list
       /\ incl extra (map Str placeholder_columns).
Proof.
  intros L H. pose proof (sort_index_loaded df L) as S.
  split; [exact S|].
  destruct (reshape_shape _ _ _ _ H) as (header & extra & Hh & Hc & Hi & _).
  rewrite S in Hh. apply first_transposed_row in Hh. subst header.
  exists extra. split; [|exact Hi].
  now rewrite Hc, tl_map.
Qed.

Lemma reshape_keeps_row_order_witness :
  exists extra,
    map Str ("report_day" :: "cost_digital" :: "installs"
               :: placeholder_columns)
    = (report_day
         :: map clean_label
              (tl (Pandas.column_at 0 (values good_report))) ++ extra)%list
    /\ incl extra (map Str placeholder_columns).
Proof.
  exact (proj2 (reshape_keeps_row_order 6 2025 good_report
                  (mkFrame ["Unnamed: 1"; "Unnamed: 2"]
                     (map Str ("report_day" :: "cost_digital" :: "installs"
                                 :: placeholder_columns))
                     [ [Str "2025-06-01"; Str "10"; Str "5";
                        NaN; NaN; NaN; NaN; NaN; NaN];
                       [Str "2025-06-02"; Str "20"; Str "6";
                        NaN; NaN; NaN; NaN; NaN; NaN] ])
                  eq_refl eq_refl)).
Defined.

(** ** The inferred month *)

Lemma parse_all_length (l : list cell) (stamps : list Dates.timestamp) :
  Dates.parse_all l = Ok stamps -> List.length stamps = List.length l.
Proof.
  revert stamps. induction l as [|c l IH]; intros stamps H; simpl in H.
  - apply Ok_inj in H. now subst.
  - apply bind_ok in H as (t & _ & H). apply bind_ok in H as (ts & Hts & H).
    apply Ok_inj in H. subst stamps. simpl. f_equal. now apply IH.
Qed.

Lemma first_cell_overwrite (c k v x : cell) (cols r : list cell) :
  cell_eqb c k = false ->
  nth 0 (Pandas.overwrite (c :: cols) k v (x :: r)) NaN = x.
Proof. intros E. unfold Pandas.overwrite. simpl. now rewrite E. Qed.

(** Setting a column under another label leaves the first column alone. *)
Lemma setitem_scalar_first_column {I : Type} (df : Frame I cell)
      (c k v : cell) (cols : list cell) :
  columns df = c :: cols -> cell_eqb c k = false -> rectangular df ->
  columns (Pandas.setitem_scalar df k v) = (c :: cols
    ++ if existsb (fun c' => cell_eqb c' k) (columns df) then [] else [k])%list
  /\ Pandas.column_at 0 (values (Pandas.setitem_scalar df k v))
     = Pandas.column_at 0 (values df).
Proof.
  intros Hc E R. split.
  - now rewrite setitem_scalar_columns, Hc.
  - unfold rectangular in R. rewrite Forall_forall in R.
    unfold Pandas.setitem_scalar, Pandas.column_at.
    destruct (existsb _ (columns df)); cbn [values]; rewrite map_map;
      apply map_ext_in; intros r Hr; specialize (R r Hr);
      rewrite Hc in *; destruct r as [|x r]; try discriminate R.
    + now apply first_cell_overwrite.
    + reflexivity.
Qed.

Lemma add_placeholders_first_column {I : Type} (ks : list str)
      (df : Frame I cell) (cols : list cell) :
  columns df = report_day :: cols ->
  ~ In "report_day" ks -> rectangular df ->
  Pandas.column_at 0
    (values (fold_left (fun d k => Pandas.setitem_scalar d (Str k) NaN) ks df))
  = Pandas.column_at 0 (values df).
Proof.
  revert df cols. induction ks as [|k ks IH]; intros df cols Hc Hn R;
    [reflexivity|].
  simpl.
  assert (E : cell_eqb report_day (Str k) = false).
  { unfold report_day. cbn [cell_eqb]. apply str_eqb_neq.
    intros <-. apply Hn. now left. }
  destruct (setitem_scalar_first_column df report_day (Str k) NaN cols Hc E R)
    as [Hc' Hv'].
  rewrite (IH _ _ Hc'); [exact Hv' | | now apply setitem_scalar_rect].
  intros H. apply Hn. now right.
Qed.

(** The dates of the result are the day labels, parsed, with the year put
    in front. *)
Lemma report_day_values (month year : Z) (df : WideTable) (out : LongTable) :
  as_loaded df -> reshape month year df = Ok out ->
  exists stamps,
    Dates.parse_all (day_labels df) = Ok stamps
    /\ Pandas.column_at 0 (values out) = map (Dates.strftime year) stamps.
Proof.
  intros L H. apply reshape_inv in H. rewrite (sort_index_loaded df L) in H.
  destruct H as (header & stamps & Hh & Hne & _ & Hs & ->).
  exists stamps. split; [exact Hs|].
  set (V := values (Pandas.transpose df)) in *.
  set (F := mkFrame (tl (columns df))
                    (report_day :: tl (map clean_label header)) (tl V)).
  assert (Hlen : forall r, In r (tl V) -> List.length r = List.length header).
  { intros r Hr. apply In_tl in Hr. apply transpose_row_length in Hr.
    apply nth_error_In in Hh. apply transpose_row_length in Hh. congruence. }
  assert (RF : rectangular F).
  { unfold rectangular, F. cbn [values columns]. apply Forall_forall.
    intros r Hr. rewrite (Hlen r Hr), length_cons_tl, length_map;
      [reflexivity|].
    intros E. apply map_eq_nil in E. contradiction. }
  destruct (setitem_series_present F report_day
              (map (Dates.strftime year) stamps) RF) as [Hc RB];
    [now left|].
  unfold add_placeholders.
  rewrite (add_placeholders_first_column placeholder_columns _
             (tl (map clean_label header)) Hc); [| |exact RB].
  2: { simpl. intros [H|[H|[H|[H|[H|[H|[]]]]]]]; discriminate H. }
  unfold Pandas.setitem_series, F. cbn [columns values existsb].
  rewrite cell_eqb_refl. cbn [orb values].
  unfold Pandas.column_at. rewrite map_map.
  assert (Hst : List.length (map (Dates.strftime year) stamps)
                = List.length (tl V)).
  { rewrite length_map, (parse_all_length _ _ Hs).
    unfold Pandas.column_at. apply length_map. }
  rewrite <- (combine_snd (tl V) (map (Dates.strftime year) stamps))
    at 2 by (symmetry; exact Hst).
  apply map_ext_in. intros [r v] Hrv. apply in_combine_l in Hrv.
  cbn [fst snd]. specialize (Hlen r Hrv).
  destruct r as [|x r]; [destruct header; [contradiction | discriminate Hlen]|].
  unfold Pandas.overwrite. cbn [combine map nth fst]. 
  now rewrite cell_eqb_refl.
Qed.

(** C10.  The inferred month has no part in the result.  With the report
    and the inferred year fixed, the reshape gives the same result, frame
    or exception, for any two months; and two files with the same content
    whose names give the same year are transformed alike, whatever months
    their names give. *)
Theorem reshape_ignores_month :
  (forall m1 m2 year df, reshape m1 year df = reshape m2 year df)
  /\ (forall w p1 p2 m1 m2 year,
         read_csv w p1 = read_csv w p2 ->
         extract_month_year_from_filename (PyStr.basename p1) = Ok (m1, year) ->
         extract_month_year_from_filename (PyStr.basename p2) = Ok (m2, year) ->
         transform_csv w p1 = transform_csv w p2).
Proof.
  split; [reflexivity|].
  intros w p1 p2 m1 m2 year Hr H1 H2.
  unfold transform_csv. rewrite Hr, H1, H2.
  destruct (read_csv w p2); reflexivity.
Qed.

Lemma reshape_ignores_month_witness :
  transform_csv two_months_folder (PyStr.join "gh_data" june_name)
  = transform_csv two_months_folder (PyStr.join "gh_data" july_name).
Proof.
  apply (proj2 reshape_ignores_month two_months_folder
           (PyStr.join "gh_data" june_name) (PyStr.join "gh_data" july_name)
           6 7 2025); reflexivity.
Defined.

(* ================================================================== *)
(** * Aggregation: results *)

Example csv_files_of_mixed_folder :
  get_csv_files mixed_folder
  = Ok ["gh_data/GH - Growth - 360 - 2025 June Overview.csv";
        "gh_data/broken.csv"].
Proof. reflexivity. Qed.

Lemma get_csv_files_cases (w : World) :
  (path_exists w = false /\ get_csv_files w = Ok [])
  \/ (path_exists w = true
      /\ exists e, listdir w = Err e /\ get_csv_files w = Err e)
  \/ (path_exists w = true
      /\ exists entries,
           listdir w = Ok entries
           /\ get_csv_files w
              = Ok (map (PyStr.join (data_folder w))
                        (filter (PyStr.endswith ".csv") entries))).
Proof.
  unfold get_csv_files. destruct (path_exists w); [|now left].
  right. destruct (listdir w) as [entries|e].
  - right. split; [reflexivity|]. now exists entries.
  - left. split; [reflexivity|]. now exists e.
Qed.




Example mixed_folder_table :
  transform_all_files mixed_folder
  = Ok (mkFrame [0; 1]
          (map Str ("report_day" :: "cost_digital" :: "installs"
                      :: placeholder_columns))
          [ [Str "2025-06-01"; Str "10"; Str "5"; NaN; NaN; NaN; NaN; NaN; NaN];
            [Str "2025-06-02"; Str "20"; Str "6"; NaN; NaN; NaN; NaN; NaN; NaN] ]).
Proof. reflexivity. Qed.

(** C4.  [transform_all_files] raises [FileNotFoundError] when the folder
    does not exist, [get_csv_files] then giving the empty list, and when
    none of its entries ends in ".csv"; when there is such an entry and
    the transform of every one raises, it raises [ValueError]. *)
Theorem transform_all_files_errors (w : World) :
  (path_exists w = false ->
   get_csv_files w = Ok []
   /\ transform_all_files w = Err FileNotFoundError)
  /\ ((path_exists w = true ->
       exists entries,
         listdir w = Ok entries
         /\ forall f, In f entries -> PyStr.endswith ".csv" f = false) ->
      transform_all_files w = Err FileNotFoundError)
  /\ (forall files,
        get_csv_files w = Ok files -> files <> [] ->
        (forall f, In f files -> raises (transform_csv w f)) ->
        transform_all_files w = Err ValueError).
Proof.
  assert (E : forall entries,
             (forall f, In f entries -> PyStr.endswith ".csv" f = false) ->
             filter (PyStr.endswith ".csv") entries = []).
  { induction entries as [|f entries IH]; intros H; [reflexivity|].
    simpl. rewrite (H f (or_introl eq_refl)).
    apply IH. intros f' Hf'. apply H. now right. }
  split; [|split].
  - intros H. rewrite transform_all_files_eq. unfold get_csv_files.
    rewrite H. split; reflexivity.
  - intros H. rewrite transform_all_files_eq. unfold get_csv_files.
    destruct (path_exists w); [|reflexivity].
    destruct (H eq_refl) as (entries & -> & Hn). cbn [bind].
    now rewrite (E entries Hn).
  - intros files Hf Hne Hall. rewrite (transform_all_files_found w files Hf).
    destruct files as [|f files]; [now elim Hne|].
    now rewrite (successes_none w (f :: files) Hall).
Qed.

Lemma transform_all_files_errors_witness :
  transform_all_files missing_folder = Err FileNotFoundError
  /\ transform_all_files folder_without_csv = Err FileNotFoundError
  /\ transform_all_files broken_folder = Err ValueError.
Proof.
  split; [|split].
  - apply (proj1 (transform_all_files_errors missing_folder) eq_refl).
  - apply (proj1 (proj2 (transform_all_files_errors folder_without_csv))).
    intros _. exists ["notes.txt"; "report.csv.bak"].
    split; [reflexivity|]. intros f [<-|[<-|[]]]; reflexivity.
  - apply (proj2 (proj2 (transform_all_files_errors broken_folder))
             ["gh_data/broken.csv"]).
    + reflexivity.
    + discriminate.
    + intros f [<-|[]]. exists ValueError. reflexivity.
Defined.

(* ================================================================== *)
(** * Paths and the listing of the folder *)

Lemma rev_app (a b : str) :
  PyStr.rev (a ++ b) = (PyStr.rev b ++ PyStr.rev a).
Proof.
  unfold PyStr.rev. now rewrite chars_app, rev_app_distr, of_chars_app.
Qed.

Lemma rev_involutive (s : str) : PyStr.rev (PyStr.rev s) = s.
Proof.
  unfold PyStr.rev.
  now rewrite chars_of_chars, List.rev_involutive, of_chars_chars.
Qed.

Lemma startswith_app (p s t : str) :
  PyStr.startswith p s = true -> PyStr.startswith p (s ++ t) = true.
Proof.
  revert s. induction p as [|a p IH]; intros [|b s]; simpl; try easy.
  intros H. apply andb_true_iff in H as [-> H]. now apply IH.
Qed.

Lemma endswith_app (p a b : str) :
  PyStr.endswith p b = true -> PyStr.endswith p (a ++ b) = true.
Proof.
  unfold PyStr.endswith. rewrite rev_app. apply startswith_app.
Qed.

Lemma endswith_slash (a : str) :
  PyStr.endswith "/" a = true -> exists a0, a = (a0 ++ "/").
Proof.
  unfold PyStr.endswith. intros H.
  destruct (PyStr.rev a) as [|c r] eqn:E; [discriminate H|].
  change (PyStr.rev "/") with "/" in H. cbn [PyStr.startswith] in H.
  apply andb_true_iff in H as [H _]. apply N.eqb_eq in H. subst c.
  exists (PyStr.rev r). rewrite <- (rev_involutive a), E.
  change (String "/"%cp r) with ("/" ++ r).
  now rewrite rev_app.
Qed.

Lemma basename_aux_plain (cur : list N) (b : str) :
  no_slash b ->
  PyStr.basename_aux cur b = (PyStr.of_chars (List.rev cur) ++ b).
Proof.
  unfold no_slash. revert cur. induction b as [|c b IH]; intros cur H.
  - simpl. now rewrite append_nil_r.
  - simpl. destruct (N.eqb_spec c "/"%cp) as [->|_].
    + exfalso. apply H. now left.
    + rewrite IH by (intros Hin; apply H; now right).
      simpl. rewrite of_chars_app. simpl.
      now rewrite append_assoc.
Qed.

Lemma basename_aux_after_slash (cur : list N) (a b : str) :
  PyStr.basename_aux cur (a ++ String "/"%cp b) = PyStr.basename_aux [] b.
Proof.
  revert cur. induction a as [|c a IH]; intros cur; simpl; [reflexivity|].
  destruct (N.eqb c "/"%cp); apply IH.
Qed.

Lemma basename_of_join (folder f : str) :
  no_slash f -> PyStr.basename (PyStr.join folder f) = f.
Proof.
  intros H. unfold PyStr.join, PyStr.basename.
  destruct f as [|c f'] eqn:Ef.
  - simpl. destruct (Str.eqb folder "" || PyStr.endswith "/" folder) eqn:E.
    + apply orb_true_iff in E as [E|E].
      * apply str_eqb_eq in E. now subst.
      * apply endswith_slash in E as [a0 ->].
        rewrite append_assoc. simpl.
        now rewrite basename_aux_after_slash.
    + now rewrite basename_aux_after_slash.
  - rewrite <- Ef in *.
    assert (S : PyStr.startswith "/" f = false).
    { subst f. cbn [PyStr.startswith].
      destruct (N.eqb_spec "/"%cp c) as [<-|]; [|reflexivity].
      exfalso. apply H. now left. }
    rewrite S.
    assert (P : PyStr.basename_aux [] f = f) by now rewrite basename_aux_plain.
    destruct (Str.eqb folder "" || PyStr.endswith "/" folder) eqn:E.
    + apply orb_true_iff in E as [E|E].
      * apply str_eqb_eq in E. now subst.
      * apply endswith_slash in E as [a0 ->].
        rewrite append_assoc.
        change ("/" ++ f) with (String "/"%cp f).
        now rewrite basename_aux_after_slash.
    + change ("/" ++ f) with (String "/"%cp f).
      now rewrite basename_aux_after_slash.
Qed.

(** X1. For every folder and every directory entry without a slash, the
    base name of the path that [get_csv_files] builds with [os.path.join]
    is the entry itself: [transform_csv] reads the date from the entry's
    name, whatever the folder. *)
Theorem basename_join (folder f : str) :
  no_slash f -> PyStr.basename (PyStr.join folder f) = f.
Proof. exact (basename_of_join folder f). Qed.

Lemma basename_join_witness :
  PyStr.basename (PyStr.join "gh_data" june_name) = june_name.
Proof.
  apply (basename_join "gh_data" june_name).
  unfold no_slash. vm_compute. intuition discriminate.
Defined.


Lemma join_endswith (p folder f : str) :
  PyStr.endswith p f = true -> PyStr.endswith p (PyStr.join folder f) = true.
Proof.
  intros H. unfold PyStr.join.
  destruct (PyStr.startswith "/" f); [exact H|].
  destruct (Str.eqb folder "" || PyStr.endswith "/" folder).
  - now apply endswith_app.
  - apply endswith_app. now apply (endswith_app p "/").
Qed.

Lemma get_csv_files_In (w : World) (files : list str) (p : str) :
  get_csv_files w = Ok files ->
  (In p files <->
   path_exists w = true
   /\ exists entries f,
        listdir w = Ok entries /\ In f entries
        /\ PyStr.endswith ".csv" f = true
        /\ p = PyStr.join (data_folder w) f).
Proof.
  unfold get_csv_files. destruct (path_exists w).
  - destruct (listdir w) as [entries|e]; [|discriminate]. cbn [bind].
    intros [= <-]. split.
    + intros H. apply in_map_iff in H as (f & <- & Hf).
      apply filter_In in Hf as [Hf Hc]. split; [reflexivity|].
      exists entries, f. auto.
    + intros (_ & entries' & f & [= <-] & Hf & Hc & ->).
      apply in_map. apply filter_In. auto.
  - intros [= <-]. split; [intros [] | intros [H _]; discriminate H].
Qed.

Lemma get_csv_files_raises (w : World) (e : exn) :
  get_csv_files w = Err e <-> path_exists w = true /\ listdir w = Err e.
Proof.
  unfold get_csv_files. destruct (path_exists w).
  - destruct (listdir w) as [entries|e']; cbn [bind].
    + split; [discriminate | intros [_ H]; discriminate H].
    + split; [intros [= ->]; now split | intros [_ [= ->]]; reflexivity].
  - split; [discriminate | intros [H _]; discriminate H].
Qed.

(** X2. [get_csv_files] raises exactly when the folder exists and
    [os.listdir] raises, with the same exception.  Otherwise it returns a
    path exactly when the folder exists and the path is the folder joined
    with one of its entries whose name ends with [.csv]; every path
    returned ends with [.csv] itself; and there are no more paths than
    entries. *)
Theorem get_csv_files_paths (w : World) :
  (forall e, get_csv_files w = Err e <->
             path_exists w = true /\ listdir w = Err e)
  /\ forall files, get_csv_files w = Ok files ->
       (forall p, In p files <->
          path_exists w = true
          /\ exists entries f,
               listdir w = Ok entries /\ In f entries
               /\ PyStr.endswith ".csv" f = true
               /\ p = PyStr.join (data_folder w) f)
       /\ (forall p, In p files -> PyStr.endswith ".csv" p = true)
       /\ (forall entries, listdir w = Ok entries ->
             (List.length files <= List.length entries)%nat).
Proof.
  split; [intros e; apply get_csv_files_raises|].
  intros files Hf. split; [|split].
  - intros p. now apply get_csv_files_In.
  - intros p H.
    apply (get_csv_files_In w files p Hf) in H
      as (_ & entries & f & _ & _ & Hc & ->).
    now apply join_endswith.
  - intros entries He. unfold get_csv_files in Hf. rewrite He in Hf.
    destruct (path_exists w); cbn [bind] in Hf; injection Hf as <-.
    + rewrite length_map. apply filter_length_le.
    + apply Nat.le_0_l.
Qed.

Lemma get_csv_files_paths_witness :
  In (PyStr.join "gh_data" june_name)
     ["gh_data/GH - Growth - 360 - 2025 June Overview.csv";
      "gh_data/broken.csv"]
  /\ PyStr.endswith ".csv" (PyStr.join "gh_data" june_name) = true.
Proof.
  destruct (proj2 (get_csv_files_paths mixed_folder)
              ["gh_data/GH - Growth - 360 - 2025 June Overview.csv";
               "gh_data/broken.csv"] eq_refl) as (H1 & H2 & _).
  assert (H : In (PyStr.join "gh_data" june_name)
                 ["gh_data/GH - Growth - 360 - 2025 June Overview.csv";
                  "gh_data/broken.csv"]).
  { apply (proj2 (H1 (PyStr.join "gh_data" june_name))).
    split; [reflexivity|].
    exists [june_name; "broken.csv"; "notes.txt"], june_name.
    split; [reflexivity|]. split; [now left|]. split; reflexivity. }
  split; [exact H | exact (H2 _ H)].
Defined.

(* ================================================================== *)
(** * The inferred date *)

Lemma month_map_range (k : str) : 1 <= dict_get month_map k 1 <= 12.
Proof.
  unfold month_map. cbn [dict_get].
  repeat match goal with
         | |- context [Str.eqb ?a ?b] => destruct (Str.eqb a b)
         end; lia.
Qed.

(** X3. Whenever [extract_month_year_from_filename] returns a date, its
    month is between 1 and 12. *)
Theorem extracted_month_in_range (filename : str) (month year : Z) :
  extract_month_year_from_filename filename = Ok (month, year) ->
  1 <= month <= 12.
Proof.
  unfold extract_month_year_from_filename.
  destruct (4 <=? List.length (PyStr.split " - " filename))%nat.
  - intros H.
    apply bind_ok in H as (year_part & _ & H).
    apply bind_ok in H as (month_part & _ & H).
    apply bind_ok in H as (y & _ & H).
    apply Ok_inj in H. injection H as <- _. apply month_map_range.
  - intros H. apply Ok_inj in H. injection H as <- _. lia.
Qed.

Lemma extracted_month_in_range_witness :
  extract_month_year_from_filename june_name = Ok (6, 2025) /\ 1 <= 6 <= 12.
Proof.
  split; [reflexivity|].
  exact (extracted_month_in_range june_name 6 2025 eq_refl).
Defined.


(** X4. The result of [extract_month_year_from_filename], date or
    exception, depends only on the first two tokens of the fourth segment:
    two names that agree on them give the same result, whatever the other
    segments and the rest of the fourth. *)
Theorem extract_reads_two_tokens
        (f1 f2 seg1 seg2 year_part month_part : str)
        (rest1 rest2 : list str) :
  fourth_segment f1 = Some seg1 -> fourth_segment f2 = Some seg2 ->
  PyStr.split " " seg1 = year_part :: month_part :: rest1 ->
  PyStr.split " " seg2 = year_part :: month_part :: rest2 ->
  extract_month_year_from_filename f1 = extract_month_year_from_filename f2.
Proof.
  intros S1 S2 T1 T2.
  now rewrite (extract_two_tokens _ _ _ _ _ S1 T1),
              (extract_two_tokens _ _ _ _ _ S2 T2).
Qed.

Lemma extract_reads_two_tokens_witness :
  extract_month_year_from_filename june_name
  = extract_month_year_from_filename "x - y - z - 2025 June - more - .txt".
Proof.
  exact (extract_reads_two_tokens
           june_name "x - y - z - 2025 June - more - .txt"
           "2025 June Overview.csv" "2025 June"
           "2025" "June" ["Overview.csv"] []
           eq_refl eq_refl eq_refl eq_refl).
Defined.


(* ================================================================== *)
(** * Days in a month *)

(** X5. [get_days_in_month] of a month from 1 to 12 is between 28 and
    31, is 29 exactly for February of a leap year and 28 exactly for
    February of a common year; for any other month number it raises
    [ValueError]. *)
Theorem get_days_in_month_cases (month year : Z) :
  (1 <= month <= 12 ->
   exists d, get_days_in_month_checked month year = Ok d
             /\ 28 <= d <= 31
             /\ (d = 29 <-> month = 2 /\ is_leap year = true)
             /\ (d = 28 <-> month = 2 /\ is_leap year = false))
  /\ (~ 1 <= month <= 12 ->
      get_days_in_month_checked month year = Err ValueError).
Proof.
  unfold get_days_in_month_checked. split; intros H.
  - destruct (Z.leb_spec 1 month), (Z.leb_spec month 12); try lia.
    cbn [andb]. eexists. split; [reflexivity|].
    unfold get_days_in_month.
    assert (C : month = 1 \/ month = 2 \/ month = 3 \/ month = 4 \/ month = 5
                \/ month = 6 \/ month = 7 \/ month = 8 \/ month = 9
                \/ month = 10 \/ month = 11 \/ month = 12) by lia.
    destruct (is_leap year);
      repeat (destruct C as [->|C]; [cbn; intuition (try lia; try congruence)|]);
      subst; cbn; intuition (try lia; try congruence).
  - destruct (Z.leb_spec 1 month), (Z.leb_spec month 12); try lia; reflexivity.
Qed.

Lemma get_days_in_month_cases_witness :
  (exists d, get_days_in_month_checked 2 2024 = Ok d
             /\ 28 <= d <= 31
             /\ (d = 29 <-> 2 = 2 /\ is_leap 2024 = true)
             /\ (d = 28 <-> 2 = 2 /\ is_leap 2024 = false))
  /\ get_days_in_month_checked 13 2025 = Err ValueError.
Proof.
  split.
  - apply (proj1 (get_days_in_month_cases 2 2024)). lia.
  - apply (proj2 (get_days_in_month_cases 13 2025)). lia.
Defined.


Lemma is_leap_period (year : Z) : is_leap (year + 400) = is_leap year.
Proof.
  unfold is_leap.
  replace ((year + 400) mod 4) with (year mod 4)
    by (replace (year + 400) with (year + 100 * 4) by lia;
        now rewrite Z.mod_add).
  replace ((year + 400) mod 100) with (year mod 100)
    by (replace (year + 400) with (year + 4 * 100) by lia;
        now rewrite Z.mod_add).
  replace ((year + 400) mod 400) with (year mod 400)
    by (replace (year + 400) with (year + 1 * 400) by lia;
        now rewrite Z.mod_add).
  reflexivity.
Qed.

(** X6. The results of [get_days_in_month] for the twelve months of a
    year add up to 366 in a leap year and to 365 otherwise, and the result
    for a month is the same 400 years later. *)
Theorem year_length_cases (year : Z) :
  year_length year = (if is_leap year then 366 else 365)
  /\ forall month, get_days_in_month month (year + 400)
                   = get_days_in_month month year.
Proof.
  split.
  - unfold year_length, get_days_in_month. cbn.
    destruct (is_leap year); reflexivity.
  - intros month. unfold get_days_in_month. now rewrite is_leap_period.
Qed.

(* ================================================================== *)
(** * Dates: lemmas *)

Lemma month_index_range (names : list (str * Z)) (found : str) (m : Z) :
  Forall (fun kv => 1 <= snd kv <= 12) names ->
  Dates.month_index names found = Some m -> 1 <= m <= 12.
Proof.
  induction 1 as [|[name k] names Hk _ IH]; simpl; [discriminate|].
  destruct (Str.eqb name found); [|exact IH].
  intros [= <-]. exact Hk.
Qed.

Lemma month_names_range :
  Forall (fun kv => 1 <= snd kv <= 12) Dates.month_names.
Proof. repeat constructor; simpl; lia. Qed.

Lemma in_range_bounds (lo hi c : N) :
  Dates.in_range lo hi c = true -> (lo <= c <= hi)%N.
Proof.
  unfold Dates.in_range. intros H. apply andb_true_iff in H as [H1 H2].
  apply N.leb_le in H1. apply N.leb_le in H2. now split.
Qed.

Lemma decimal_in_bound (c d : N) (ranges : list (N * N)) :
  Unicode.decimal_in c ranges = Some d -> (d < 10)%N.
Proof.
  induction ranges as [|[lo hi] ranges IH]; simpl; [discriminate|].
  destruct (c <? lo)%N; [discriminate|].
  destruct (c <=? hi)%N; [|exact IH].
  intros [= <-]. now apply N.mod_lt.
Qed.

Lemma match_day_range (r rest : str) (d : Z) :
  Dates.match_day r = Some (d, rest) -> 1 <= d <= 31.
Proof.
  unfold Dates.match_day, Dates.digit.
  change ("0"%cp) with 48%N. change ("1"%cp) with 49%N.
  change ("2"%cp) with 50%N. change ("3"%cp) with 51%N.
  change ("9"%cp) with 57%N.
  destruct r as [|c1 r1]; [discriminate|].
  assert (One : (if Dates.in_range 49 57 c1
                 then Some (Z.of_N (c1 - 48), r1)
                 else None) = Some (d, rest) -> 1 <= d <= 31).
  { destruct (Dates.in_range 49 57 c1) eqn:E; [|discriminate].
    intros H. assert (Hd : Z.of_N (c1 - 48) = d) by congruence.
    apply in_range_bounds in E. lia. }
  destruct r1 as [|c2 r2]; [exact One|].
  destruct ((c1 =? 51)%N && Dates.in_range 48 49 c2) eqn:E1.
  { apply andb_true_iff in E1 as [_ E1]. apply in_range_bounds in E1.
    intros H. assert (Hd : 30 + Z.of_N (c2 - 48) = d) by congruence. lia. }
  destruct (Dates.in_range 49 50 c1) eqn:E2.
  - destruct (Unicode.decimal c2) as [d2|] eqn:Ed.
    + apply in_range_bounds in E2. apply decimal_in_bound in Ed.
      intros H.
      assert (Hd : 10 * Z.of_N (c1 - 48) + Z.of_N d2 = d) by congruence.
      lia.
    + destruct ((c1 =? 48)%N && Dates.in_range 49 57 c2) eqn:E3;
        [|exact One].
      apply andb_true_iff in E3 as [_ E3]. apply in_range_bounds in E3.
      intros H. assert (Hd : Z.of_N (c2 - 48) = d) by congruence. lia.
  - destruct ((c1 =? 48)%N && Dates.in_range 49 57 c2) eqn:E3;
      [|exact One].
    apply andb_true_iff in E3 as [_ E3]. apply in_range_bounds in E3.
    intros H. assert (Hd : Z.of_N (c2 - 48) = d) by congruence. lia.
Qed.

Lemma strptime_valid (s : str) (y m d : Z) :
  Dates.strptime_B_d s = Ok (y, m, d) ->
  y = 1900 /\ 1 <= m <= 12 /\ 1 <= d <= get_days_in_month m 1900.
Proof.
  unfold Dates.strptime_B_d.
  destruct (Dates.match_month Dates.month_names s) as [[found rest]|];
    [|discriminate].
  destruct (Dates.starts_with_space rest); [|discriminate].
  destruct (Dates.match_day (PyStr.lstrip rest)) as [[d0 [|? ?]]|] eqn:Ed;
    try discriminate.
  destruct (Dates.month_index Dates.month_names (PyStr.lower found))
    as [m0|] eqn:Em; [|discriminate].
  destruct (Z.leb_spec d0 (get_days_in_month m0 1900)); [|discriminate].
  intros [= <- <- <-].
  apply (month_index_range _ _ _ month_names_range) in Em.
  apply match_day_range in Ed. lia.
Qed.

Lemma pad2_two_digits (z : Z) :
  1 <= z <= 31 -> Str.length (Dates.pad2 z) = 2%nat.
Proof.
  intros H.
  assert (C : z = 1 \/ z = 2 \/ z = 3 \/ z = 4 \/ z = 5 \/ z = 6 \/ z = 7
              \/ z = 8 \/ z = 9 \/ z = 10 \/ z = 11 \/ z = 12 \/ z = 13
              \/ z = 14 \/ z = 15 \/ z = 16 \/ z = 17 \/ z = 18 \/ z = 19
              \/ z = 20 \/ z = 21 \/ z = 22 \/ z = 23 \/ z = 24 \/ z = 25
              \/ z = 26 \/ z = 27 \/ z = 28 \/ z = 29 \/ z = 30 \/ z = 31)
    by lia.
  repeat (destruct C as [->|C]; [reflexivity|]). now subst.
Qed.

Lemma days_at_most_31 (m : Z) : get_days_in_month m 1900 <= 31.
Proof.
  unfold get_days_in_month.
  destruct (m =? 2); [cbn; lia|].
  destruct ((m =? 4) || (m =? 6) || (m =? 9) || (m =? 11)); lia.
Qed.

Lemma parse_cell_iso (year : Z) (c : cell) (t : Dates.timestamp) :
  Dates.parse_cell c = Ok t -> iso_date year (Dates.strftime year t).
Proof.
  intros H.
  assert (V : t = None \/ exists m d, t = Some (1900, m, d) /\ 1 <= m <= 12
                                     /\ 1 <= d <= get_days_in_month m 1900).
  { destruct c as [|s|z]; unfold Dates.parse_cell in H.
    - apply Ok_inj in H. now left.
    - destruct (Str.eqb s "" || existsb (Str.eqb s) Dates.nat_strings).
      + apply Ok_inj in H. now left.
      + apply bind_ok in H as ([[y m] d] & Hs & H). apply Ok_inj in H.
        apply strptime_valid in Hs as (-> & Hm & Hd).
        right. exists m, d. auto.
    - discriminate H. }
  destruct V as [->|(m & d & -> & Hm & Hd)]; [now left|].
  right. exists m, d. pose proof (days_at_most_31 m).
  repeat split; try lia; apply pad2_two_digits; lia.
Qed.

Lemma parse_all_iso (year : Z) (l : list cell) (stamps : list Dates.timestamp) :
  Dates.parse_all l = Ok stamps ->
  Forall (iso_date year) (map (Dates.strftime year) stamps).
Proof.
  revert stamps. induction l as [|c l IH]; intros stamps H; simpl in H.
  - apply Ok_inj in H. subst. constructor.
  - apply bind_ok in H as (t & Ht & H). apply bind_ok in H as (ts & Hts & H).
    apply Ok_inj in H. subst stamps. simpl. constructor.
    + exact (parse_cell_iso year c t Ht).
    + now apply IH.
Qed.

(* ================================================================== *)
(** * The frame of one report *)

Lemma positions_nil (k : cell) (i : nat) (cols : list cell) :
  Pandas.positions k i cols = [] <-> ~ In k cols.
Proof.
  revert i. induction cols as [|c cols IH]; intros i; simpl; [tauto|].
  destruct (cell_eqb c k) eqn:E.
  - apply cell_eqb_eq in E. subst. split; [discriminate | intros H; elim H; auto].
  - rewrite IH. split.
    + intros H [->|Hin]; [now rewrite cell_eqb_refl in E | contradiction].
    + intros H Hin. apply H. now right.
Qed.

Lemma positions_app (k : cell) (i : nat) (l1 l2 : list cell) :
  Pandas.positions k i (l1 ++ l2)
  = (Pandas.positions k i l1
       ++ Pandas.positions k (i + List.length l1) l2)%list.
Proof.
  revert i. induction l1 as [|c l1 IH]; intros i; simpl.
  - now rewrite Nat.add_0_r.
  - rewrite IH, <- plus_n_Sm. now destruct (cell_eqb c k).
Qed.

Lemma setitem_scalar_index {I : Type} (df : Frame I cell) (k v : cell) :
  index (Pandas.setitem_scalar df k v) = index df
  /\ List.length (values (Pandas.setitem_scalar df k v))
     = List.length (values df).
Proof.
  unfold Pandas.setitem_scalar.
  destruct (existsb _ (columns df)); simpl; now rewrite length_map.
Qed.

Lemma add_placeholders_index (df : LongTable) :
  index (add_placeholders df) = index df
  /\ List.length (values (add_placeholders df)) = List.length (values df).
Proof.
  unfold add_placeholders. generalize placeholder_columns as ks.
  intros ks. revert df. induction ks as [|k ks IH]; intros df; [now split|].
  simpl. destruct (IH (Pandas.setitem_scalar df (Str k) NaN)) as [-> ->].
  apply setitem_scalar_index.
Qed.

Lemma length_tl {A : Type} (l : list A) :
  List.length (tl l) = Nat.pred (List.length l).
Proof. now destruct l. Qed.

Lemma report_day_not_placeholder : ~ In "report_day" placeholder_columns.
Proof. simpl. intros [H|[H|[H|[H|[H|[H|[]]]]]]]; discriminate H. Qed.

(** What a successful reshape is made of: the first row of the
    transposed frame as header, the parsed day labels, and the frame
    built from them. *)
Lemma reshape_frame (month year : Z) (df : WideTable) (out : LongTable) :
  reshape month year df = Ok out ->
  exists header stamps extra,
    nth_error (values (Pandas.transpose (Pandas.sort_index df))) 0
    = Some header
    /\ Dates.parse_all
         (Pandas.column_at 0
            (tl (values (Pandas.transpose (Pandas.sort_index df)))))
       = Ok stamps
    /\ ~ In report_day (tl (map clean_label header))
    /\ incl extra (map Str placeholder_columns)
    /\ index out = tl (columns df)
    /\ columns out
       = (report_day :: tl (map clean_label header) ++ extra)%list
    /\ List.length (values out) = Nat.pred (List.length (columns df))
    /\ Pandas.column_at 0 (values out) = map (Dates.strftime year) stamps
    /\ rectangular out.
Proof.
  intros H. pose proof (reshape_shape _ _ _ _ H)
    as (header' & extra & Hh' & Hc & Hi & Rout & _).
  apply reshape_inv in H.
  destruct H as (header & stamps & Hh & Hne & Hpos & Hs & ->).
  rewrite Hh in Hh'. injection Hh' as <-.
  set (V := values (Pandas.transpose (Pandas.sort_index df))) in *.
  set (F := mkFrame (tl (columns df))
                    (report_day :: tl (map clean_label header)) (tl V)) in *.
  assert (Hlen : forall r, In r (tl V) -> List.length r = List.length header).
  { intros r Hr. apply In_tl in Hr. apply transpose_row_length in Hr.
    apply nth_error_In in Hh. apply transpose_row_length in Hh. congruence. }
  assert (RF : rectangular F).
  { unfold rectangular, F. cbn [values columns]. apply Forall_forall.
    intros r Hr. rewrite (Hlen r Hr), length_cons_tl, length_map;
      [reflexivity|].
    intros E. apply map_eq_nil in E. contradiction. }
  destruct (setitem_series_present F report_day
              (map (Dates.strftime year) stamps) RF) as [HcB RB];
    [now left|].
  assert (Hst : List.length (map (Dates.strftime year) stamps)
                = List.length (tl V)).
  { rewrite length_map, (parse_all_length _ _ Hs).
    unfold Pandas.column_at. apply length_map. }
  assert (HV : List.length (tl V) = Nat.pred (List.length (columns df))).
  { unfold V, Pandas.transpose. cbn [values].
    rewrite length_tl, length_map, length_seq. reflexivity. }
  exists header, stamps, extra.
  split; [exact Hh|]. split; [exact Hs|].
  split; [now apply positions_nil in Hpos|]. split; [exact Hi|].
  destruct (add_placeholders_index
              (Pandas.setitem_series F report_day
                 (map (Dates.strftime year) stamps))) as [Hidx Hrows].
  split; [rewrite Hidx; unfold Pandas.setitem_series, F; cbn [columns existsb];
          rewrite cell_eqb_refl; reflexivity|].
  split; [exact Hc|].
  split.
  { rewrite Hrows. unfold Pandas.setitem_series, F. cbn [columns existsb].
    rewrite cell_eqb_refl. cbn [orb values].
    rewrite length_map, length_combine, Hst, Nat.min_id. exact HV. }
  split; [|exact Rout].
  unfold add_placeholders.
  rewrite (add_placeholders_first_column placeholder_columns _
             (tl (map clean_label header)) HcB
             report_day_not_placeholder RB).
  unfold Pandas.setitem_series, F. cbn [columns values existsb].
  rewrite cell_eqb_refl. cbn [orb values].
  unfold Pandas.column_at. rewrite map_map.
  rewrite <- (combine_snd (tl V) (map (Dates.strftime year) stamps))
    at 2 by (symmetry; exact Hst).
  apply map_ext_in. intros [r v] Hrv. apply in_combine_l in Hrv.
  cbn [fst snd]. specialize (Hlen r Hrv).
  destruct r as [|x r]; [destruct header; [contradiction | discriminate Hlen]|].
  unfold Pandas.overwrite. cbn [combine map nth fst].
  now rewrite cell_eqb_refl.
Qed.

Lemma append_cancel (a x y : str) :
  (a ++ x) = (a ++ y) -> x = y.
Proof. induction a as [|c a IH]; simpl; [auto | intros [= H]; auto]. Qed.

Lemma no_leap_day (m d : Z) :
  1 <= m <= 12 -> 1 <= d <= get_days_in_month m 1900 ->
  ("-" ++ Dates.pad2 m ++ "-" ++ Dates.pad2 d) <> "-02-29".
Proof.
  intros Hm Hd.
  assert (C : m = 1 \/ m = 2 \/ m = 3 \/ m = 4 \/ m = 5 \/ m = 6 \/ m = 7
              \/ m = 8 \/ m = 9 \/ m = 10 \/ m = 11 \/ m = 12) by lia.
  destruct C as [->|[->|C]].
  - discriminate.
  - change (get_days_in_month 2 1900) with 28 in Hd.
    assert (D : d = 1 \/ d = 2 \/ d = 3 \/ d = 4 \/ d = 5 \/ d = 6 \/ d = 7
                \/ d = 8 \/ d = 9 \/ d = 10 \/ d = 11 \/ d = 12 \/ d = 13
                \/ d = 14 \/ d = 15 \/ d = 16 \/ d = 17 \/ d = 18 \/ d = 19
                \/ d = 20 \/ d = 21 \/ d = 22 \/ d = 23 \/ d = 24 \/ d = 25
                \/ d = 26 \/ d = 27 \/ d = 28) by lia.
    repeat (destruct D as [->|D]; [discriminate|]). subst. discriminate.
  - repeat (destruct C as [->|C]; [discriminate|]). subst. discriminate.
Qed.

(** X7. After a successful reshape every cell of the first column, the
    [report_day] column, is missing or is the text year-mm-dd with the year
    of the file name, a two-digit month from 01 to 12 and a two-digit day
    that exists in that month of a common year.  The 29th of February never
    appears, also when the year of the file name is a leap year. *)
Theorem report_day_cells_are_dates
        (month year : Z) (df : WideTable) (out : LongTable) :
  reshape month year df = Ok out ->
  Forall (iso_date year) (Pandas.column_at 0 (values out))
  /\ ~ In (Str (PyStr.of_Z year ++ "-02-29"))
          (Pandas.column_at 0 (values out)).
Proof.
  intros H.
  destruct (reshape_frame _ _ _ _ H)
    as (header & stamps & extra & _ & Hs & _ & _ & _ & _ & _ & Hv & _).
  rewrite Hv. pose proof (parse_all_iso year _ _ Hs) as F.
  split; [exact F|].
  intros Hin. rewrite Forall_forall in F. specialize (F _ Hin).
  destruct F as [E|(m & d & Hm & Hd & Lm & Ld & E)]; [discriminate E|].
  injection E as E. apply append_cancel in E.
  now apply (no_leap_day m d Hm Hd).
Qed.

Lemma report_day_cells_are_dates_witness :
  Forall (iso_date 2025) [Str "2025-06-01"; Str "2025-06-02"]
  /\ ~ In (Str "2025-02-29") [Str "2025-06-01"; Str "2025-06-02"].
Proof.
  exact (report_day_cells_are_dates 6 2025 good_report
           (mkFrame ["Unnamed: 1"; "Unnamed: 2"]
              (map Str ("report_day" :: "cost_digital" :: "installs"
                          :: placeholder_columns))
              [ [Str "2025-06-01"; Str "10"; Str "5";
                 NaN; NaN; NaN; NaN; NaN; NaN];
                [Str "2025-06-02"; Str "20"; Str "6";
                 NaN; NaN; NaN; NaN; NaN; NaN] ])
           eq_refl).
Defined.


(** X8. A successful reshape gives a frame with one row per column of
    the report but the first, labelled with that column's header, and with
    one cell per column in every row; [report_day] labels the first column
    and no other; and there are at least seven columns. *)
Theorem reshaped_frame_shape
        (month year : Z) (df : WideTable) (out : LongTable) :
  reshape month year df = Ok out ->
  index out = tl (columns df)
  /\ List.length (values out) = Nat.pred (List.length (columns df))
  /\ rectangular out
  /\ Pandas.positions report_day 0 (columns out) = [0%nat]
  /\ (7 <= List.length (columns out))%nat.
Proof.
  intros H.
  destruct (reshape_frame _ _ _ _ H)
    as (header & stamps & extra & Hh & _ & Hno & Hi & Hidx & Hc & Hn & _ & R).
  split; [exact Hidx|]. split; [exact Hn|]. split; [exact R|].
  split.
  - rewrite Hc. cbn [Pandas.positions]. rewrite cell_eqb_refl.
    f_equal. rewrite positions_app.
    assert (E1 : Pandas.positions report_day 1 (tl (map clean_label header))
                 = []) by now apply positions_nil.
    assert (E2 : forall i, Pandas.positions report_day i extra = []).
    { intros i. apply positions_nil. intros Hin. apply Hi in Hin.
      apply in_map_iff in Hin as (k & [= ->] & Hk).
      now apply report_day_not_placeholder. }
    now rewrite E1, E2.
  - destruct (reshape_shape _ _ _ _ H) as (h' & e' & _ & _ & _ & _ & Hp).
    assert (N : NoDup (report_day :: map Str placeholder_columns)).
    { unfold report_day. repeat constructor; simpl; intuition discriminate. }
    apply NoDup_incl_length with (l' := columns out) in N; [exact N|].
    intros c [<-|Hin]; [rewrite Hc; now left|].
    apply in_map_iff in Hin as (k & <- & Hk). now apply Hp.
Qed.

Lemma reshaped_frame_shape_witness :
  let out :=
    mkFrame ["Unnamed: 1"; "Unnamed: 2"]
      (map Str ("report_day" :: "cost_digital" :: "installs"
                  :: placeholder_columns))
      [ [Str "2025-06-01"; Str "10"; Str "5"; NaN; NaN; NaN; NaN; NaN; NaN];
        [Str "2025-06-02"; Str "20"; Str "6"; NaN; NaN; NaN; NaN; NaN; NaN] ]
  in
  index out = tl (columns good_report)
  /\ List.length (values out) = Nat.pred (List.length (columns good_report))
  /\ rectangular out
  /\ Pandas.positions report_day 0 (columns out) = [0%nat]
  /\ (7 <= List.length (columns out))%nat.
Proof.
  exact (reshaped_frame_shape 6 2025 good_report _ eq_refl).
Defined.


(** ** When a report is reshaped, and the exception when it is not *)

Lemma set_columns_same_length {I C C' : Type} (df : Frame I C)
      (labels : list C') :
  List.length labels = List.length (columns df) ->
  Pandas.set_columns df labels = Ok (mkFrame (index df) labels (values df)).
Proof.
  intros E. unfold Pandas.set_columns. now rewrite E, Nat.eqb_refl.
Qed.

Lemma parse_all_error_kind (l : list cell) (e : exn) :
  Dates.parse_all l = Err e -> e = ValueError.
Proof.
  induction l as [|c l IH]; simpl; [discriminate|].
  destruct (Dates.parse_cell c) as [t|e0] eqn:Ec; simpl.
  - destruct (Dates.parse_all l) as [ts|e1]; simpl; [discriminate|].
    intros [= <-]. now apply IH.
  - intros [= <-]. destruct c as [|s|z]; unfold Dates.parse_cell in Ec.
    + discriminate Ec.
    + destruct (Str.eqb s "" || existsb (Str.eqb s) Dates.nat_strings);
        [discriminate Ec|].
      destruct (Dates.strptime_B_d s) as [t|e1] eqn:Es; simpl in Ec;
        [discriminate Ec|].
      injection Ec as <-. unfold Dates.strptime_B_d in Es.
      repeat match type of Es with
             | match ?x with _ => _ end = _ => destruct x
             | (if ?x then _ else _) = _ => destruct x
             | (let (_, _) := ?x in _) = _ => destruct x
             end; congruence.
    + congruence.
Qed.

(** The reshape of a report as loaded, step by step. *)
Lemma reshape_loaded (month year : Z) (df : WideTable) :
  as_loaded df ->
  reshape month year df =
  match columns df with
  | [] => Err IndexError
  | _ :: _ =>
      let header := Pandas.column_at 0 (values df) in
      if Pandas.can_use_str (map (Pandas.rename_label renames) header) then
        match header with
        | [] => Err ValueError
        | _ :: _ =>
            match Pandas.positions report_day 1 (tl (map clean_label header))
            with
            | [] =>
                stamps <- Dates.parse_all (day_labels df) ;;
                Ok (add_placeholders
                      (Pandas.setitem_series
                         (mkFrame (tl (columns df))
                                  (report_day :: tl (map clean_label header))
                                  (tl (values (Pandas.transpose df))))
                         report_day (map (Dates.strftime year) stamps)))
            | _ :: _ => Err ValueError
            end
        end
      else Err AttributeError
  end.
Proof.
  intros L. unfold reshape. rewrite (sort_index_loaded df L).
  destruct (columns df) as [|c0 cs] eqn:Ec.
  { unfold Pandas.iloc0, Pandas.transpose. rewrite Ec. reflexivity. }
  assert (Hi : Pandas.iloc0 (Pandas.transpose df)
               = Ok (Pandas.column_at 0 (values df))).
  { unfold Pandas.iloc0, Pandas.transpose. rewrite Ec. reflexivity. }
  rewrite Hi. cbn [bind].
  set (header := Pandas.column_at 0 (values df)).
  assert (Hl : List.length header
               = List.length (columns (Pandas.transpose df))).
  { unfold header, Pandas.column_at, Pandas.transpose. cbn [columns].
    rewrite L. unfold range. now rewrite !length_map, length_seq. }
  rewrite (set_columns_same_length _ _ Hl). cbn [bind].
  unfold Pandas.drop_first, Pandas.rename. cbn [index columns values].
  unfold Pandas.str_map at 1.
  destruct (Pandas.can_use_str (map (Pandas.rename_label renames) header))
    eqn:Hcan; [|reflexivity].
  cbn [bind].
  rewrite set_columns_same_length by (cbn [columns]; now rewrite length_map).
  cbn [bind index columns values].
  unfold Pandas.str_map at 1.
  rewrite (can_use_str_after _ _ Hcan). cbn [bind].
  rewrite set_columns_same_length by (cbn [columns]; now rewrite length_map).
  cbn [bind index columns values].
  unfold Pandas.str_map at 1.
  rewrite (can_use_str_after _ _ (can_use_str_after _ _ Hcan)). cbn [bind].
  rewrite set_columns_same_length by (cbn [columns]; now rewrite length_map).
  cbn [bind index columns values].
  replace (map (Pandas.str_apply strip_punctuation)
             (map (Pandas.str_apply replace_spaces)
                (map (Pandas.str_apply PyStr.lower)
                   (map (Pandas.rename_label renames) header))))
    with (map clean_label header) by (rewrite !map_map; reflexivity).
  destruct header as [|h0 hs] eqn:Eh; [reflexivity|].
  rewrite set_columns_same_length by reflexivity.
  cbn [bind index columns values].
  unfold Pandas.frame_getitem. cbn [columns values].
  cbn [Pandas.positions map tl]. rewrite cell_eqb_refl.
  cbn [map tl].
  destruct (Pandas.positions report_day 1 (map clean_label hs));
    [|reflexivity].
  cbn [bind]. unfold Dates.to_datetime. fold (day_labels df).
  change (index (Pandas.transpose df)) with (columns df). rewrite Ec.
  reflexivity.
Qed.

Lemma is_ok_false {A : Type} (r : result A) :
  is_ok r = false -> exists e, r = Err e.
Proof. destruct r as [a|e]; [discriminate | eauto]. Qed.

Lemma reshape_outcome_str (month year : Z) (df : WideTable) :
  as_loaded df ->
  (columns df = [] -> reshape month year df = Err IndexError)
  /\ (columns df <> [] ->
      Pandas.can_use_str
        (map (Pandas.rename_label renames) (Pandas.column_at 0 (values df)))
      = false ->
      reshape month year df = Err AttributeError)
  /\ (columns df <> [] ->
      Pandas.can_use_str
        (map (Pandas.rename_label renames) (Pandas.column_at 0 (values df)))
      = true ->
      (is_ok (reshape month year df) = true <->
       values df <> []
       /\ ~ In report_day
              (map clean_label (tl (Pandas.column_at 0 (values df))))
       /\ is_ok (Dates.parse_all (day_labels df)) = true)
      /\ (is_ok (reshape month year df) = false ->
          reshape month year df = Err ValueError)).
Proof.
  intros L. rewrite (reshape_loaded month year df L).
  destruct (columns df) as [|c0 cs]; [repeat split; congruence|].
  cbv zeta.
  split; [congruence|]. split; [intros _ ->; reflexivity|].
  intros _ ->.
  destruct (values df) as [|r0 rows] eqn:Ev.
  { cbn [Pandas.column_at map]. split; [|reflexivity].
    split; [discriminate | intros (H & _); congruence]. }
  cbn [Pandas.column_at map tl]. fold (Pandas.column_at 0 rows).
  destruct (Pandas.positions report_day 1
              (map clean_label (Pandas.column_at 0 rows))) as [|i ps] eqn:Ep.
  - apply positions_nil in Ep.
    destruct (Dates.parse_all (day_labels df)) as [stamps|e] eqn:Es;
      cbn [bind is_ok].
    + split; [|discriminate]. split; [|reflexivity].
      intros _. repeat split; [discriminate | exact Ep].
    + split; [split; [discriminate | intros (_ & _ & H); discriminate H]|].
      intros _. now rewrite (parse_all_error_kind _ _ Es).
  - assert (Hin : In report_day (map clean_label (Pandas.column_at 0 rows))).
    { destruct (in_dec (fun a b => Bool.reflect_dec _ _
                          (iff_reflect _ _ (iff_sym (cell_eqb_eq a b))))
                  report_day (map clean_label (Pandas.column_at 0 rows)))
        as [Hin|Hn]; [exact Hin|].
      apply positions_nil with (i := 1%nat) in Hn. congruence. }
    cbn [is_ok]. split; [|reflexivity].
    split; [discriminate | intros (_ & Hn & _); contradiction].
Qed.

Lemma can_use_str_renamed (l : list cell) :
  Pandas.can_use_str (map (Pandas.rename_label renames) l)
  = match l with [] => true | _ :: _ => existsb is_str l end.
Proof.
  unfold Pandas.can_use_str. destruct l as [|c l]; [reflexivity|].
  cbn [map]. rewrite <- (map_cons (Pandas.rename_label renames)).
  induction (c :: l) as [|x xs IH]; [reflexivity|].
  cbn [map existsb]. rewrite IH. now destruct x.
Qed.

Lemma existsb_is_str (l : list cell) :
  existsb is_str l = true <-> exists s, In (Str s) l.
Proof.
  rewrite existsb_exists. split.
  - intros ([|s|z] & Hc & H); try discriminate H. now exists s.
  - intros (s & Hs). now exists (Str s).
Qed.

(** X9. The outcome of the reshape of a report as loaded.  A report
    without columns raises [IndexError].  One that has a row and whose
    first column holds no string raises [AttributeError], the labels it
    gives being all missing or numbers.  Otherwise, when the report has
    no row or its first column holds a string, the reshape succeeds
    exactly when the report has a row, no metric cleans to the name
    [report_day] and every day label is read by the date format, and
    every failure is then a [ValueError]. *)
Theorem reshape_outcome (month year : Z) (df : WideTable) :
  as_loaded df ->
  (columns df = [] -> reshape month year df = Err IndexError)
  /\ (columns df <> [] -> values df <> [] ->
      (forall c, In c (Pandas.column_at 0 (values df)) -> is_str c = false) ->
      reshape month year df = Err AttributeError)
  /\ (columns df <> [] ->
      values df = []
      \/ (exists s, In (Str s) (Pandas.column_at 0 (values df))) ->
      (is_ok (reshape month year df) = true <->
       values df <> []
       /\ ~ In report_day
              (map clean_label (tl (Pandas.column_at 0 (values df))))
       /\ is_ok (Dates.parse_all (day_labels df)) = true)
      /\ (is_ok (reshape month year df) = false ->
          reshape month year df = Err ValueError)).
Proof.
  intros L. destruct (reshape_outcome_str month year df L) as (H1 & H2 & H3).
  split; [exact H1|]. split.
  - intros Hc Hv Hn. apply (H2 Hc). rewrite can_use_str_renamed.
    destruct (Pandas.column_at 0 (values df)) as [|c l] eqn:E.
    + destruct (values df); [congruence | discriminate E].
    + destruct (existsb is_str (c :: l)) eqn:Ex; [|reflexivity].
      apply existsb_is_str in Ex as (s & Hs).
      specialize (Hn _ Hs). discriminate Hn.
  - intros Hc Hv. apply (H3 Hc). rewrite can_use_str_renamed.
    destruct (Pandas.column_at 0 (values df)) as [|c l] eqn:E;
      [reflexivity|].
    destruct Hv as [Hv|Hs]; [rewrite Hv in E; discriminate E|].
    now apply existsb_is_str.
Qed.

Lemma reshape_outcome_witness :
  is_ok (reshape 6 2025 good_report) = true
  /\ reshape 6 2025 empty_report = Err ValueError
  /\ reshape 6 2025 blank_first_column = Err AttributeError.
Proof.
  split; [|split].
  - apply (proj1 (proj2 (proj2 (reshape_outcome 6 2025 good_report eq_refl))
                    ltac:(discriminate)
                    (or_intror (ex_intro _ "Cost Growth"
                                  (or_intror (or_introl eq_refl)))))).
    split; [discriminate|]. split; [|reflexivity].
    cbn. intuition discriminate.
  - apply (proj2 (proj2 (reshape_outcome 6 2025 empty_report eq_refl))
                 ltac:(discriminate) (or_introl eq_refl)).
    reflexivity.
  - apply (proj1 (proj2 (reshape_outcome 6 2025 blank_first_column eq_refl)));
      [discriminate | discriminate |].
    intros c [<-|[<-|[]]]; reflexivity.
Defined.

(* ================================================================== *)
(** * The folder as a whole *)

Lemma transform_csv_name_error (w : World) (folder f : str) (e : exn) :
  no_slash f ->
  extract_month_year_from_filename f = Err e ->
  raises (transform_csv w (PyStr.join folder f)).
Proof.
  intros Hs He. unfold transform_csv. rewrite (basename_of_join folder f Hs), He.
  destruct (read_csv w (PyStr.join folder f)) as [df|e0]; simpl;
    apply raises_err.
Qed.

(** X10. If the folder exists and can be listed, has an entry ending in
    [.csv], and every such entry is named as documented, with a month of
    [month_map] before the year in the fourth segment, then
    [transform_all_files] raises [ValueError]: no report of the folder is
    transformed, whatever the files hold. *)
Theorem documented_names_fail_the_run (w : World) (entries : list str) :
  path_exists w = true ->
  listdir w = Ok entries ->
  (exists f, In f entries /\ PyStr.endswith ".csv" f = true) ->
  (forall f, In f entries -> PyStr.endswith ".csv" f = true ->
             no_slash f /\ month_first f) ->
  transform_all_files w = Err ValueError.
Proof.
  intros He Hl (f0 & Hf0 & Hc0) Hall.
  assert (Hf : get_csv_files w
               = Ok (map (PyStr.join (data_folder w))
                         (filter (PyStr.endswith ".csv") entries))).
  { unfold get_csv_files. now rewrite He, Hl. }
  rewrite (transform_all_files_found w _ Hf).
  set (files := map (PyStr.join (data_folder w))
                    (filter (PyStr.endswith ".csv") entries)).
  assert (Hne : files <> []).
  { unfold files. intros E. apply map_eq_nil in E.
    assert (Hin : In f0 (filter (PyStr.endswith ".csv") entries))
      by (apply filter_In; auto).
    rewrite E in Hin. destruct Hin. }
  assert (Hs : successes w files = []).
  { apply successes_none. intros p Hp. unfold files in Hp.
    apply in_map_iff in Hp as (f & <- & Hp). apply filter_In in Hp as [Hp Hc].
    destruct (Hall f Hp Hc) as (Hs & seg & name & y & rest & m & S & T & M).
    apply (transform_csv_name_error w _ f ValueError Hs).
    exact (month_first_raises f seg name y rest m S T M). }
  rewrite Hs. destruct files; [now elim Hne | reflexivity].
Qed.

Lemma documented_names_fail_the_run_witness :
  transform_all_files
    (mkWorld "gh_data" true (Ok [documented_name; "notes.txt"])
       (read_from [ (PyStr.join "gh_data" documented_name, good_report) ]))
  = Err ValueError.
Proof.
  apply (documented_names_fail_the_run
           (mkWorld "gh_data" true (Ok [documented_name; "notes.txt"])
              (read_from
                 [ (PyStr.join "gh_data" documented_name, good_report) ]))
           [documented_name; "notes.txt"] eq_refl eq_refl).
  - exists documented_name. split; [now left | reflexivity].
  - intros f [<-|[<-|[]]] Hc; [|discriminate Hc].
    split.
    + unfold no_slash. vm_compute. intuition discriminate.
    + exists "June 2025 Overview.csv", "June", "2025", ["Overview.csv"], 6.
      repeat split. vm_compute. tauto.
Defined.





Lemma concat_columns_complete (dfs : list LongTable) (out : CombinedTable)
      (d : LongTable) :
  Concat.concat dfs = Ok out -> In d dfs -> incl (columns d) (columns out).
Proof.
  destruct dfs as [|d0 ds]; [discriminate|]. unfold Concat.concat.
  destruct (forallb (fun d' => Concat.list_eqb (columns d') (columns d0)) ds)
    eqn:E.
  - intros H Hd. apply Ok_inj in H. subst out. cbn [columns].
    apply all_equal_columns in E. rewrite (E d d0 Hd (or_introl eq_refl)).
    apply incl_refl.
  - destruct (forallb (fun d' => Concat.no_dup (columns d')) (d0 :: ds));
      [|discriminate].
    intros H Hd. apply Ok_inj in H. subst out. cbn [columns].
    intros c Hc. apply union_In. exists (columns d). split; [|exact Hc].
    now apply in_map.
Qed.




(** X13. Every table that [transform_all_files] returns has a column
    [report_day] and each of the six placeholder columns. *)
Theorem combined_table_has_fixed_columns (w : World) (out : CombinedTable) :
  transform_all_files w = Ok out ->
  forall k, In k ("report_day" :: placeholder_columns) ->
            In (Str k) (columns out).
Proof.
  intros H k Hk.
  apply transform_all_files_ok in H as (f & files & d & ds & _ & Es & H).
  apply (concat_columns_complete _ _ d H (or_introl eq_refl)).
  assert (Hd : In d (successes w (f :: files))) by (rewrite Es; now left).
  apply successes_In in Hd as (p & _ & Hp).
  apply transform_csv_reshape in Hp as (df & month & year & _ & _ & Hr).
  destruct (reshape_shape _ _ _ _ Hr) as (header & extra & _ & Hc & _ & _ & Hp).
  destruct Hk as [<-|Hk]; [rewrite Hc; now left | now apply Hp].
Qed.

Lemma combined_table_has_fixed_columns_witness :
  In (Str "fsfirst_disb")
     (map Str ("report_day" :: "cost_digital" :: "installs"
                 :: placeholder_columns)).
Proof.
  apply (combined_table_has_fixed_columns mixed_folder
           (mkFrame [0; 1]
              (map Str ("report_day" :: "cost_digital" :: "installs"
                          :: placeholder_columns))
              [ [Str "2025-06-01"; Str "10"; Str "5";
                 NaN; NaN; NaN; NaN; NaN; NaN];
                [Str "2025-06-02"; Str "20"; Str "6";
                 NaN; NaN; NaN; NaN; NaN; NaN] ])
           eq_refl "fsfirst_disb").
  simpl. tauto.
Defined.
